(** * Kisan Sahay: the check-in risk pipeline

    A shallow embedding of the backend's risk-scoring and alerting code:

    - [RiskAssessment]  : src/backend/src/modules/checkin/risk-assessment.ts
    - [Sentiment]       : src/backend/src/services/ai/sentiment.service.ts
    - [CheckInService]  : src/backend/src/modules/checkin/checkin.service.ts

    JavaScript strings are modelled as [string], holding the UTF-8 bytes
    of the text.  Numbers that the code keeps integral are [Z]; the
    sentiment score and the confidence are exact rationals ([Q]), an
    idealisation of the IEEE doubles of the source.  The built-ins whose
    full Unicode behaviour lies outside the repository ([toLowerCase],
    [trim], [JSON.stringify]) are the fields of the class [Js.Runtime]:
    the general theorems hold for every runtime, and [Js.utf8] is an
    executable instance used to run the pipeline on concrete check-ins. *)

From Stdlib Require Import ZArith QArith Qround Qminmax Qabs Lia Lqa Ascii String.
From stdpp Require Import base option list strings gmap.

Local Open Scope Z_scope.

(* ================================================================= *)
(** ** JavaScript values used by the code *)

Module Js.

(** What the code can throw. *)
Inductive Exn :=
| TypeError                 (* [for ... of] over a value that is not iterable *)
| Error (message : string)  (* [throw new Error(message)] *)
| RecordNotFound.           (* Prisma [update] of a row that is absent *)

Inductive Outcome (A : Type) :=
| Ok (a : A)
| Throw (e : Exn).
Arguments Ok {A} a.
Arguments Throw {A} e.

(** [obj[key]] on an object literal: an own property, a member
    inherited from [Object.prototype] (truthy, neither an array nor a
    record of the literal), or [undefined]. *)
Inductive Property (A : Type) :=
| Own (a : A)
| Proto (key : string)
| Undefined.
Arguments Own {A} a.
Arguments Proto {A} key.
Arguments Undefined {A}.

Definition objectPrototypeKeys : list string :=
  [ "constructor"; "__proto__"; "hasOwnProperty"; "isPrototypeOf";
    "propertyIsEnumerable"; "toLocaleString"; "toString"; "valueOf";
    "__defineGetter__"; "__defineSetter__"; "__lookupGetter__";
    "__lookupSetter__" ].

Fixpoint assoc {A : Type} (own : list (string * A)) (key : string) : option A :=
  match own with
  | [] => None
  | (k, a) :: rest => if String.eqb k key then Some a else assoc rest key
  end.

Definition get {A : Type} (own : list (string * A)) (key : string) : Property A :=
  match assoc own key with
  | Some a => Own a
  | None =>
      if existsb (String.eqb key) objectPrototypeKeys then Proto key else Undefined
  end.

#[global] Instance Outcome_ret : MRet Outcome := fun _ a => Ok a.
#[global] Instance Outcome_bind : MBind Outcome := fun _ _ f m =>
  match m with
  | Ok a => f a
  | Throw e => Throw e
  end.

(** [hay.includes(needle)]: substring containment. *)
Fixpoint includes (hay needle : string) : bool :=
  String.prefix needle hay
  || match hay with
     | EmptyString => false
     | String _ rest => includes rest needle
     end.

(** [Math.round]: nearest integer, ties towards plus infinity. *)
Definition round (x : Q) : Z := Qfloor (x + (1 # 2)).

(** The string built-ins and the serializer the pipeline calls. *)
Class Runtime := {
  toLowerCase : string -> string;
  trim : string -> string;
  JSON_stringify : list string -> string;
}.

(** *** An executable runtime on UTF-8 text *)

Definition lowerAscii (c : ascii) : ascii :=
  let n := N_of_ascii c in
  if ((65 <=? n) && (n <=? 90))%N then ascii_of_N (n + 32) else c.

(** Exact when the cased letters of the text are ASCII (Devanagari has
    no case). *)
Fixpoint utf8_toLowerCase (s : string) : string :=
  match s with
  | EmptyString => EmptyString
  | String c rest => String (lowerAscii c) (utf8_toLowerCase rest)
  end.

(** White space and line terminators of ECMAScript, as UTF-8 byte
    sequences. *)
Definition whiteSpace : list (list N) :=
  [ [9]; [10]; [11]; [12]; [13]; [32];
    [194; 160]; [225; 154; 128];
    [226; 128; 128]; [226; 128; 129]; [226; 128; 130]; [226; 128; 131];
    [226; 128; 132]; [226; 128; 133]; [226; 128; 134]; [226; 128; 135];
    [226; 128; 136]; [226; 128; 137]; [226; 128; 138];
    [226; 128; 168]; [226; 128; 169]; [226; 128; 175];
    [226; 129; 159]; [227; 128; 128]; [239; 187; 191] ]%N.

Fixpoint bytes (s : string) : list N :=
  match s with
  | EmptyString => []
  | String c rest => N_of_ascii c :: bytes rest
  end.

Fixpoint unbytes (l : list N) : string :=
  match l with
  | [] => EmptyString
  | n :: rest => String (ascii_of_N n) (unbytes rest)
  end.

Fixpoint stripPrefix (p l : list N) : option (list N) :=
  match p, l with
  | [], _ => Some l
  | a :: p', b :: l' => if (a =? b)%N then stripPrefix p' l' else None
  | _ :: _, [] => None
  end.

Fixpoint stripAny (ps : list (list N)) (l : list N) : option (list N) :=
  match ps with
  | [] => None
  | p :: rest =>
      match stripPrefix p l with
      | Some l' => Some l'
      | None => stripAny rest l
      end
  end.

(** Strip leading occurrences of the patterns [ps]; every step removes
    at least one byte, so [length l] steps suffice. *)
Fixpoint stripAll (ps : list (list N)) (fuel : nat) (l : list N) : list N :=
  match fuel with
  | O => l
  | S fuel' =>
      match stripAny ps l with
      | Some l' => stripAll ps fuel' l'
      | None => l
      end
  end.

Definition utf8_trim (s : string) : string :=
  let front := stripAll whiteSpace (length (bytes s)) (bytes s) in
  let back := stripAll (map (@rev N) whiteSpace) (length front) (rev front) in
  unbytes (rev back).

(** [JSON.stringify] of one string: quotes, backslashes and the C0
    controls are escaped, every other character is copied. *)
Definition hexDigit (n : N) : ascii :=
  ascii_of_N (if (n <? 10)%N then 48 + n else 87 + n).

Definition escapeChar (c : ascii) : string :=
  let n := N_of_ascii c in
  if (n =? 34)%N then "\" +:+ String c ""
  else if (n =? 92)%N then "\\"
  else if (n =? 8)%N then "\b"
  else if (n =? 9)%N then "\t"
  else if (n =? 10)%N then "\n"
  else if (n =? 12)%N then "\f"
  else if (n =? 13)%N then "\r"
  else if (n <? 32)%N then
    "\u00" +:+ String (hexDigit (n / 16)) (String (hexDigit (n mod 16)) "")
  else String c "".

Fixpoint escape (s : string) : string :=
  match s with
  | EmptyString => EmptyString
  | String c rest => escapeChar c +:+ escape rest
  end.

Definition quote (s : string) : string :=
  String (ascii_of_N 34) (escape s) +:+ String (ascii_of_N 34) "".

Definition utf8_JSON_stringify (l : list string) : string :=
  "[" +:+ String.concat "," (map quote l) +:+ "]".

Definition utf8 : Runtime :=
  {| toLowerCase := utf8_toLowerCase;
     trim := utf8_trim;
     JSON_stringify := utf8_JSON_stringify |}.

End Js.

(* ================================================================= *)
(** ** risk-assessment.ts *)

(** The answers of the questionnaire (shared/types). *)
Module Crop.
Inductive t := excellent | good | moderate | poor | destroyed.
End Crop.

Module Loan.
Inductive t := none | low | medium | high | severe.
End Loan.

Module Sleep.
Inductive t := good | fair | poor | very_poor.
End Sleep.

Module Family.
Inductive t := strong | moderate | weak | none.
End Family.

Inductive RiskLevel := LOW | MODERATE | HIGH | CRITICAL.

#[global] Instance RiskLevel_eq_dec : EqDecision RiskLevel.
Proof. solve_decision. Defined.

(** The string a level is stored and compared as. *)
Definition levelName (l : RiskLevel) : string :=
  match l with
  | LOW => "LOW"
  | MODERATE => "MODERATE"
  | HIGH => "HIGH"
  | CRITICAL => "CRITICAL"
  end.

(** Position of a level on the scale LOW < MODERATE < HIGH < CRITICAL. *)
Definition levelRank (l : RiskLevel) : Z :=
  match l with
  | LOW => 0
  | MODERATE => 1
  | HIGH => 2
  | CRITICAL => 3
  end.

Module Band.
Record t := { min : Z; max : Z; label : RiskLevel }.
End Band.

Module RiskAssessment.

Record RiskAssessmentInput := {
  cropCondition : Crop.t;
  loanPressure : Loan.t;
  sleepQuality : Sleep.t;
  familySupport : Family.t;
  hopeLevel : Z;
  notes : option string;
}.

Record Factors := { crop : Z; loan : Z; sleep : Z; family : Z; hope : Z }.

Record RiskAssessmentResult := {
  riskScore : Z;
  riskLevel : RiskLevel;
  criticalFactors : list string;
  factors : Factors;
}.

(** [RISK_WEIGHTS]; the [|| 0] of the source only guards keys outside
    the four enumerations. *)
Definition RISK_WEIGHTS_crop (c : Crop.t) : Z :=
  match c with
  | Crop.excellent => 0
  | Crop.good => 1
  | Crop.moderate => 2
  | Crop.poor => 3
  | Crop.destroyed => 5
  end.

Definition RISK_WEIGHTS_loan (l : Loan.t) : Z :=
  match l with
  | Loan.none => 0
  | Loan.low => 1
  | Loan.medium => 2
  | Loan.high => 4
  | Loan.severe => 5
  end.

Definition RISK_WEIGHTS_sleep (s : Sleep.t) : Z :=
  match s with
  | Sleep.good => 0
  | Sleep.fair => 1
  | Sleep.poor => 3
  | Sleep.very_poor => 5
  end.

Definition RISK_WEIGHTS_family (f : Family.t) : Z :=
  match f with
  | Family.strong => 0
  | Family.moderate => 1
  | Family.weak => 3
  | Family.none => 5
  end.

(** [Object.values(RISK_LEVELS)], in insertion order. *)
Definition RISK_LEVELS : list Band.t :=
  [ {| Band.min := 0; Band.max := 6; Band.label := LOW |};
    {| Band.min := 7; Band.max := 12; Band.label := MODERATE |};
    {| Band.min := 13; Band.max := 18; Band.label := HIGH |};
    {| Band.min := 19; Band.max := 30; Band.label := CRITICAL |} ].

Definition inBand (riskScore : Z) (level : Band.t) : bool :=
  (Band.min level <=? riskScore) && (riskScore <=? Band.max level).

(** The loop of lines 79-86: the first band that holds the score wins,
    and the initial ['LOW'] stays when none does. *)
Fixpoint levelLoop (levels : list Band.t) (riskScore : Z) (riskLevel : RiskLevel)
  : RiskLevel :=
  match levels with
  | [] => riskLevel
  | level :: rest =>
      if inBand riskScore level then Band.label level
      else levelLoop rest riskScore riskLevel
  end.

Definition hopeFactor (hopeLevel : Z) : Z := Z.max 0 (5 - hopeLevel / 2).

Definition identifyCriticalFactors (input : RiskAssessmentInput) : list string :=
  let critical := [] in
  let critical :=
    match cropCondition input with
    | Crop.poor | Crop.destroyed => critical ++ ["crop_poor"]
    | _ => critical
    end in
  let critical :=
    match loanPressure input with
    | Loan.high | Loan.severe => critical ++ ["loan_high"]
    | _ => critical
    end in
  let critical :=
    match sleepQuality input with
    | Sleep.poor | Sleep.very_poor => critical ++ ["sleep_poor"]
    | _ => critical
    end in
  let critical :=
    match familySupport input with
    | Family.weak | Family.none => critical ++ ["family_weak"]
    | _ => critical
    end in
  let critical :=
    if hopeLevel input <=? 4 then critical ++ ["hope_low"] else critical in
  critical.

Definition assessRisk (input : RiskAssessmentInput) : RiskAssessmentResult :=
  let factors :=
    {| crop := RISK_WEIGHTS_crop (cropCondition input);
       loan := RISK_WEIGHTS_loan (loanPressure input);
       sleep := RISK_WEIGHTS_sleep (sleepQuality input);
       family := RISK_WEIGHTS_family (familySupport input);
       hope := hopeFactor (hopeLevel input) |} in
  let riskScore :=
    fold_left Z.add
      [crop factors; loan factors; sleep factors; family factors; hope factors] 0 in
  let riskLevel := levelLoop RISK_LEVELS riskScore LOW in
  {| riskScore := riskScore;
     riskLevel := riskLevel;
     criticalFactors := identifyCriticalFactors input;
     factors := factors |}.

Definition shouldTriggerAlert (riskLevel : string) : bool :=
  String.eqb riskLevel "HIGH" || String.eqb riskLevel "CRITICAL".

Inductive Severity := high | critical.

Definition getAlertSeverity (riskLevel : string) : option Severity :=
  if String.eqb riskLevel "CRITICAL" then Some critical
  else if String.eqb riskLevel "HIGH" then Some high
  else None.

End RiskAssessment.

(* ================================================================= *)
(** ** sentiment.service.ts *)

Module Sentiment.

Record Dictionary := { mr : list string; hi : list string; en : list string }.

Definition NEGATIVE_KEYWORDS : Dictionary :=
  {| mr := [ "त्रास"; "दुःख"; "निराशा"; "थकवा"; "चिंता"; "भीती"; "अपयश"; "कर्ज";
             "नुकसान"; "मृत्यू"; "आत्महत्या"; "संपवणे"; "थांबवणे"; "उपाय नाही";
             "झोप नाही"; "भूक नाही"; "एकटे"; "कोणी नाही"; "हरले" ];
     hi := [ "तनाव"; "दुख"; "निराशा"; "थकान"; "चिंता"; "डर"; "असफलता"; "कर्ज";
             "नुकसान"; "मौत"; "आत्महत्या"; "खत्म"; "रोकना"; "कोई उपाय नहीं";
             "नींद नहीं"; "भूख नहीं"; "अकेला"; "कोई नहीं"; "हार गया" ];
     en := [ "stress"; "sadness"; "hopeless"; "tired"; "anxiety"; "fear"; "failure"; "debt";
             "loss"; "death"; "suicide"; "end"; "stop"; "no way"; "no solution";
             "cannot sleep"; "no appetite"; "alone"; "nobody"; "lost" ] |}.

Definition CRITICAL_INDICATORS : Dictionary :=
  {| mr := [ "आत्महत्या"; "मरायचे"; "संपवायचे"; "जगायचे नाही"; "फास"; "विष" ];
     hi := [ "आत्महत्या"; "मरना"; "खत्म करना"; "जीना नहीं"; "फांसी"; "जहर" ];
     en := [ "suicide"; "kill myself"; "end it"; "dont want to live"; "hanging"; "poison" ] |}.

Definition POSITIVE_KEYWORDS : Dictionary :=
  {| mr := [ "आशा"; "आनंद"; "शांती"; "मदत"; "कुटुंब"; "मित्र"; "यश"; "प्रगती" ];
     hi := [ "आशा"; "खुशी"; "शांति"; "मदद"; "परिवार"; "दोस्त"; "सफलता"; "प्रगति" ];
     en := [ "hope"; "happy"; "peace"; "help"; "family"; "friend"; "success"; "progress" ] |}.

(** [DICT[lang]] *)
Definition lookup (d : Dictionary) (lang : string) : Js.Property (list string) :=
  Js.get [("mr", mr d); ("hi", hi d); ("en", en d)] lang.

(** [DICT[lang] || DICT.mr], as the [for ... of] that follows consumes
    it: an array is truthy and iterated, [undefined] falls back to
    Marathi, an inherited member is truthy and not iterable. *)
Definition wordsFor (d : Dictionary) (lang : string) : Js.Outcome (list string) :=
  match lookup d lang with
  | Js.Own words => Js.Ok words
  | Js.Undefined => Js.Ok (mr d)
  | Js.Proto _ => Js.Throw Js.TypeError
  end.

Inductive Label := negative | neutral | positive.

#[global] Instance Label_eq_dec : EqDecision Label.
Proof. solve_decision. Defined.

Record SentimentResult := {
  score : Q;
  label : Label;
  confidence : Q;
  keywords : list string;
  riskIndicators : list string;
}.

Record RiskAnalysis := {
  additionalRiskScore : Z;
  indicators : list string;
}.

Definition Qltb (x y : Q) : bool := negb (Qle_bool y x).

(** [language || 'mr'] *)
Definition orMr (language : string) : string :=
  if String.eqb language EmptyString then "mr" else language.

Section WithRuntime.
Context {R : Js.Runtime}.

(** [!text || text.trim().length === 0] *)
Definition isBlank (text : string) : bool :=
  String.eqb text EmptyString || (String.length (Js.trim text) =? 0)%nat.

(** One keyword loop: [if (lowerText.includes(word.toLowerCase())) found.push(word)]. *)
Definition scan (lowerText : string) (words : list string) : list string :=
  fold_left
    (fun found word =>
       if Js.includes lowerText (Js.toLowerCase word) then found ++ [word] else found)
    words [].

Definition analyzeSentiment (text language : string) : Js.Outcome SentimentResult :=
  if isBlank text then
    mret {| score := 0%Q; label := neutral; confidence := 1%Q;
            keywords := []; riskIndicators := [] |}
  else
    let lang := orMr language in
    let lowerText := Js.toLowerCase text in
    criticalWords ← wordsFor CRITICAL_INDICATORS lang;
    let foundCritical := scan lowerText criticalWords in
    negativeWords ← wordsFor NEGATIVE_KEYWORDS lang;
    let foundNegative := scan lowerText negativeWords in
    positiveWords ← wordsFor POSITIVE_KEYWORDS lang;
    let foundPositive := scan lowerText positiveWords in
    let totalWords :=
      (length foundNegative + length foundPositive + length foundCritical)%nat in
    let score : Q :=
      if (0 <? length foundCritical)%nat then (-1)%Q
      else if (0 <? totalWords)%nat then
        let positiveWeight := Z.of_nat (length foundPositive) in
        let negativeWeight := Z.of_nat (length foundNegative) * -1 in
        (inject_Z (positiveWeight + negativeWeight) / inject_Z (Z.of_nat totalWords))%Q
      else 0%Q in
    let label :=
      if Qltb score (- (3 # 10))%Q then negative
      else if Qltb (3 # 10)%Q score then positive
      else neutral in
    let confidence :=
      Qmin 1%Q (inject_Z (Z.of_nat totalWords) / 5 * (8 # 10) + (2 # 10))%Q in
    mret {| score := (inject_Z (Js.round (score * 100)) / 100)%Q;
            label := label;
            confidence := (inject_Z (Js.round (confidence * 100)) / 100)%Q;
            keywords := foundPositive ++ foundNegative;
            riskIndicators := foundCritical |}.

Definition analyzeRiskFromCheckIn (hopeLevel : Z) (notes : option string)
    (language : string) : Js.Outcome RiskAnalysis :=
  let additionalScore : Q := 0%Q in
  let indicators : list string := [] in
  '(additionalScore, indicators) ←
    match notes with
    | Some text =>
        if negb (String.eqb text EmptyString)
           && (0 <? String.length (Js.trim text))%nat then
          sentiment ← analyzeSentiment text language;
          let '(additionalScore, indicators) :=
            if (0 <? length (riskIndicators sentiment))%nat
            then ((additionalScore + 30)%Q, indicators ++ ["crisis_keywords_detected"])
            else (additionalScore, indicators) in
          let additionalScore :=
            if decide (label sentiment = negative)
            then (additionalScore + 10 * Qabs (score sentiment))%Q
            else additionalScore in
          let indicators := indicators ++ riskIndicators sentiment in
          mret (additionalScore, indicators)
        else mret (additionalScore, indicators)
    | None => mret (additionalScore, indicators)
    end;
  let '(additionalScore, indicators) :=
    if hopeLevel <=? 2
    then ((additionalScore + 15)%Q, indicators ++ ["very_low_hope"])
    else (additionalScore, indicators) in
  mret {| additionalRiskScore := Js.round additionalScore;
          indicators := indicators |}.

End WithRuntime.

(** *** Personalized feedback *)

Module Template.
Record t := { message : string; suggestions : list string; resources : list string }.
End Template.

Record Templates := { for_mr : Template.t; for_hi : Template.t; for_en : Template.t }.

Inductive SupportLevel := critical | high | moderate | low.
Definition FEEDBACK_TEMPLATES_critical : Templates :=
  {| for_mr :=
       {| Template.message := "तुम्ही खूप कठीण परिस्थितीतून जात आहात. कृपया आत्ताच मदत घ्या.";
          Template.suggestions :=
            [ "आत्ताच हेल्पलाइन कॉल करा: 1800-233-4000";
              "जवळच्या व्यक्तीशी बोला";
              "एकटे राहू नका" ];
          Template.resources :=
            [ "iCall: 9152987821";
              "Vandrevala Foundation: 1860-2662-345";
              "जिल्हा रुग्णालय मानसिक आरोग्य विभाग" ] |};
     for_hi :=
       {| Template.message := "आप बहुत कठिन समय से गुजर रहे हैं। कृपया अभी मदद लें।";
          Template.suggestions :=
            [ "अभी हेल्पलाइन कॉल करें: 1800-233-4000";
              "किसी करीबी से बात करें";
              "अकेले न रहें" ];
          Template.resources :=
            [ "iCall: 9152987821";
              "Vandrevala Foundation: 1860-2662-345";
              "जिला अस्पताल मानसिक स्वास्थ्य विभाग" ] |};
     for_en :=
       {| Template.message := "You are going through a very difficult time. Please seek help now.";
          Template.suggestions :=
            [ "Call helpline now: 1800-233-4000";
              "Talk to someone close";
              "Do not stay alone" ];
          Template.resources :=
            [ "iCall: 9152987821";
              "Vandrevala Foundation: 1860-2662-345";
              "District Hospital Mental Health Department" ] |} |}.

Definition FEEDBACK_TEMPLATES_high : Templates :=
  {| for_mr :=
       {| Template.message := "आम्हाला तुमची काळजी आहे. कृपया मदत घेण्यास संकोच करू नका.";
          Template.suggestions :=
            [ "कुटुंबातील सदस्यांशी बोला";
              "जवळच्या प्राथमिक आरोग्य केंद्राला भेट द्या";
              "नियमित झोप आणि आहार घ्या" ];
          Template.resources :=
            [ "किसान कॉल सेंटर: 1551";
              "कृषी विभाग हेल्पलाइन" ] |};
     for_hi :=
       {| Template.message := "हमें आपकी चिंता है। कृपया मदद लेने में संकोच न करें।";
          Template.suggestions :=
            [ "परिवार के सदस्यों से बात करें";
              "नजदीकी प्राथमिक स्वास्थ्य केंद्र जाएं";
              "नियमित नींद और भोजन लें" ];
          Template.resources :=
            [ "किसान कॉल सेंटर: 1551";
              "कृषि विभाग हेल्पलाइन" ] |};
     for_en :=
       {| Template.message := "We are concerned about you. Please do not hesitate to seek help.";
          Template.suggestions :=
            [ "Talk to family members";
              "Visit nearest Primary Health Center";
              "Maintain regular sleep and diet" ];
          Template.resources :=
            [ "Kisan Call Center: 1551";
              "Agriculture Department Helpline" ] |} |}.

Definition FEEDBACK_TEMPLATES_moderate : Templates :=
  {| for_mr :=
       {| Template.message := "तुम्ही काही आव्हानांना तोंड देत आहात, पण तुम्ही एकटे नाही.";
          Template.suggestions :=
            [ "दररोज थोडा वेळ व्यायाम करा";
              "मित्र किंवा शेजाऱ्यांशी बोला";
              "छोट्या यशांचा आनंद घ्या" ];
          Template.resources :=
            [] |};
     for_hi :=
       {| Template.message := "आप कुछ चुनौतियों का सामना कर रहे हैं, लेकिन आप अकेले नहीं हैं।";
          Template.suggestions :=
            [ "रोज थोड़ा व्यायाम करें";
              "दोस्तों या पड़ोसियों से बात करें";
              "छोटी सफलताओं का आनंद लें" ];
          Template.resources :=
            [] |};
     for_en :=
       {| Template.message := "You are facing some challenges, but you are not alone.";
          Template.suggestions :=
            [ "Exercise a little every day";
              "Talk to friends or neighbors";
              "Celebrate small wins" ];
          Template.resources :=
            [] |} |}.

Definition FEEDBACK_TEMPLATES_low : Templates :=
  {| for_mr :=
       {| Template.message := "तुमची स्थिती चांगली आहे! असेच सकारात्मक राहा.";
          Template.suggestions :=
            [ "नियमित चेक-इन सुरू ठेवा";
              "इतर शेतकऱ्यांना प्रेरित करा";
              "नवीन शेती तंत्र शिका" ];
          Template.resources :=
            [] |};
     for_hi :=
       {| Template.message := "आपकी स्थिति अच्छी है! ऐसे ही सकारात्मक रहें।";
          Template.suggestions :=
            [ "नियमित चेक-इन जारी रखें";
              "अन्य किसानों को प्रेरित करें";
              "नई कृषि तकनीक सीखें" ];
          Template.resources :=
            [] |};
     for_en :=
       {| Template.message := "You are doing well! Keep staying positive.";
          Template.suggestions :=
            [ "Continue regular check-ins";
              "Inspire other farmers";
              "Learn new farming techniques" ];
          Template.resources :=
            [] |} |}.

Definition FEEDBACK_TEMPLATES (level : SupportLevel) : Templates :=
  match level with
  | critical => FEEDBACK_TEMPLATES_critical
  | high => FEEDBACK_TEMPLATES_high
  | moderate => FEEDBACK_TEMPLATES_moderate
  | low => FEEDBACK_TEMPLATES_low
  end.

(** [riskLevel.toLowerCase()] on the four level names. *)
Definition supportLevelOf (riskLevel : RiskLevel) : SupportLevel :=
  match riskLevel with
  | LOW => low
  | MODERATE => moderate
  | HIGH => high
  | CRITICAL => critical
  end.

(** [FEEDBACK_TEMPLATES[level][lang]] *)
Definition templateFor (level : SupportLevel) (lang : string) : Js.Property Template.t :=
  Js.get
    [ ("mr", for_mr (FEEDBACK_TEMPLATES level));
      ("hi", for_hi (FEEDBACK_TEMPLATES level));
      ("en", for_en (FEEDBACK_TEMPLATES level)) ]
    lang.

(** A field read off an inherited member is [undefined]: [None]. *)
Record FeedbackResult := {
  message : option string;
  supportLevel : SupportLevel;
  suggestions : option (list string);
  resources : option (list string);
}.

Definition generatePersonalizedFeedback (riskLevel : RiskLevel) (language : string)
  : FeedbackResult :=
  let lang := orMr language in
  let level := supportLevelOf riskLevel in
  let template :=
    match templateFor level lang with
    | Js.Undefined => Js.Own (for_mr (FEEDBACK_TEMPLATES level))
    | found => found
    end in
  match template with
  | Js.Own template =>
      {| message := Some (Template.message template);
         supportLevel := level;
         suggestions := Some (Template.suggestions template);
         resources := Some (Template.resources template) |}
  | _ =>
      {| message := None; supportLevel := level; suggestions := None; resources := None |}
  end.

(** *** Language detection *)

Module Lang.
Inductive t := mr | hi | en.
End Lang.

Definition langCode (l : Lang.t) : string :=
  match l with
  | Lang.mr => "mr"
  | Lang.hi => "hi"
  | Lang.en => "en"
  end.

(** [/[\u0900-\u097F]/.test(text)]: in UTF-8 the block is the byte
    sequences E0 A4 80 to E0 A5 BF. *)
Fixpoint hasDevanagari (text : list N) : bool :=
  match text with
  | b1 :: ((b2 :: b3 :: _) as rest) =>
      ((b1 =? 224) && ((b2 =? 164) || (b2 =? 165)) && (128 <=? b3) && (b3 <=? 191))%N
      || hasDevanagari rest
  | _ => false
  end.

Definition marathiIndicators : list string :=
  [ "आहे"; "आहेत"; "होते"; "करतो"; "करते"; "तुम्ही"; "आम्ही" ].

Definition hindiIndicators : list string :=
  [ "है"; "हैं"; "था"; "करता"; "करती"; "आप"; "हम" ].

(** [for (const word of words) if (text.includes(word)) score++] *)
Definition countIncluded (text : string) (words : list string) : Z :=
  fold_left (fun score word => if Js.includes text word then score + 1 else score) words 0.

Definition detectLanguage (text : string) : Lang.t :=
  if negb (hasDevanagari (Js.bytes text)) then Lang.en
  else
    let marathiScore := countIncluded text marathiIndicators in
    let hindiScore := countIncluded text hindiIndicators in
    if hindiScore <=? marathiScore then Lang.mr else Lang.hi.

End Sentiment.

(* ================================================================= *)
(** ** The store behind the Prisma client *)

(** The tables the service reads and writes, with the columns its calls
    name.  The Prisma schema is not among the sources: its defaults and
    its foreign keys are not modelled, a created row keeps the columns
    of its [data], and [update] of an absent row throws.  The
    [console.log] of [createAlert] is left out. *)
Module Prisma.

Record Farmer := {
  preferredLang : string;
  counselorId : option string;
  status : string;
  lastActiveAt : Z;
}.

(** A row of [CheckIn].  [id] is the row's position in the table;
    [counselorNotified] is [None] until the code writes the column. *)
Record CheckIn := {
  id : nat;
  farmerId : string;
  cropCondition : Crop.t;
  loanPressure : Loan.t;
  sleepQuality : Sleep.t;
  familySupport : Family.t;
  hopeLevel : Z;
  notes : option string;
  riskScore : Z;
  riskLevel : RiskLevel;
  criticalFactors : string;
  alertTriggered : bool;
  counselorNotified : option bool;
}.

Record Alert := {
  alertFarmerId : string;
  checkInId : nat;
  severity : RiskAssessment.Severity;
  assignedToId : option string;
}.

Record World := {
  farmers : gmap string Farmer;
  checkIns : list CheckIn;
  alerts : list Alert;
  clock : Z;
}.

(** Database calls: the world threaded through, a thrown exception
    keeps the writes made before it. *)
Definition M (A : Type) : Type := World -> World * Js.Outcome A.

#[global] Instance M_ret : MRet M := fun _ a w => (w, Js.Ok a).
#[global] Instance M_bind : MBind M := fun _ _ f m w =>
  match m w with
  | (w', Js.Ok a) => f a w'
  | (w', Js.Throw e) => (w', Js.Throw e)
  end.

Definition throw {A : Type} (e : Js.Exn) : M A := fun w => (w, Js.Throw e).

Definition lift {A : Type} (o : Js.Outcome A) : M A := fun w => (w, o).

(** [new Date()] *)
Definition now : M Z := fun w => (w, Js.Ok (clock w)).

(** [prisma.farmer.findUnique({ where: { id } })] *)
Definition farmer_findUnique (farmerId : string) : M (option Farmer) :=
  fun w => (w, Js.Ok (farmers w !! farmerId)).

(** [prisma.farmer.update({ where: { id }, data })] *)
Definition farmer_update (farmerId : string) (data : Farmer -> Farmer) : M Farmer :=
  fun w =>
    match farmers w !! farmerId with
    | Some f =>
        ({| farmers := <[farmerId := data f]> (farmers w);
            checkIns := checkIns w;
            alerts := alerts w;
            clock := clock w |}, Js.Ok (data f))
    | None => (w, Js.Throw Js.RecordNotFound)
    end.

(** [prisma.checkIn.create({ data })]: the row receives the next id. *)
Definition checkIn_create (data : nat -> CheckIn) : M CheckIn :=
  fun w =>
    let row := data (length (checkIns w)) in
    ({| farmers := farmers w;
        checkIns := checkIns w ++ [row];
        alerts := alerts w;
        clock := clock w |}, Js.Ok row).

(** [prisma.checkIn.update({ where: { id }, data })] *)
Definition checkIn_update (checkInId : nat) (data : CheckIn -> CheckIn) : M CheckIn :=
  fun w =>
    match checkIns w !! checkInId with
    | Some row =>
        ({| farmers := farmers w;
            checkIns := <[checkInId := data row]> (checkIns w);
            alerts := alerts w;
            clock := clock w |}, Js.Ok (data row))
    | None => (w, Js.Throw Js.RecordNotFound)
    end.

(** [prisma.alert.create({ data })] *)
Definition alert_create (data : Alert) : M Alert :=
  fun w =>
    ({| farmers := farmers w;
        checkIns := checkIns w;
        alerts := alerts w ++ [data];
        clock := clock w |}, Js.Ok data).

(** [prisma.checkIn.findFirst({ where })] *)
Definition checkIn_findFirst (matching : CheckIn -> bool) : M (option CheckIn) :=
  fun w => (w, Js.Ok (List.find matching (checkIns w))).

End Prisma.

(* ================================================================= *)
(** ** checkin.service.ts *)

Module CheckInService.
Import RiskAssessment.

Record Message := { greeting : string; body : string; closing : string }.

Definition MESSAGES (l : RiskLevel) : Message :=
  match l with
  | LOW =>
      {| greeting := "नमस्कार! तुमची स्थिती चांगली दिसत आहे.";
         body := "तुम्ही योग्य मार्गावर आहात. असेच चांगले काम सुरू ठेवा आणि स्वतःची काळजी घ्या.";
         closing := "आम्ही तुमच्या सोबत आहोत! 💚" |}
  | MODERATE =>
      {| greeting := "नमस्कार! आम्ही तुमची काळजी घेतो.";
         body := "काही आव्हाने असू शकतात, पण तुम्ही एकटे नाही. शेजारी, मित्र किंवा कुटुंबाशी बोला.";
         closing := "छोट्या पावलांनी मोठा बदल होतो! 💛" |}
  | HIGH =>
      {| greeting := "प्रिय शेतकरी बंधू/भगिनी,";
         body := "तुम्ही कठीण परिस्थितीतून जात आहात हे आम्हाला समजते. कृपया खाली दिलेल्या हेल्पलाइनवर संपर्क साधा. मदत उपलब्ध आहे.";
         closing := "तुम्ही महत्वाचे आहात! मदत मागण्यात कोणतीही लाज नाही! 🧡" |}
  | CRITICAL =>
      {| greeting := "🆘 प्रिय शेतकरी बंधू/भगिनी,";
         body := "तुम्ही खूप कठीण परिस्थितीत आहात. आत्ताच मदत मिळवणे खूप महत्वाचे आहे. कृपया लगेच हेल्पलाइनवर कॉल करा: 1800-233-4000";
         closing := "तुमचे जीवन मौल्यवान आहे! आम्ही तुमच्या सोबत आहोत! ❤️" |}
  end.

Record Suggestion := { icon : string; title : string; desc : string }.

Record SuggestionTable := {
  crop_poor : Suggestion;
  loan_high : Suggestion;
  sleep_poor : Suggestion;
  family_weak : Suggestion;
  hope_low : Suggestion;
  agriculture : Suggestion;
  government : Suggestion;
}.

Definition SUGGESTIONS : SuggestionTable :=
  {| crop_poor :=
       {| icon := "🌾"; title := "कृषी विभाग संपर्क";
          desc := "पीक विमा आणि नुकसान भरपाईसाठी तालुका कृषी अधिकाऱ्यांशी संपर्क साधा" |};
     loan_high :=
       {| icon := "💰"; title := "कर्ज पुनर्रचना";
          desc := "बँकेत कर्ज पुनर्रचनेसाठी अर्ज करा. सरकारी योजनांचा लाभ घ्या" |};
     sleep_poor :=
       {| icon := "😴"; title := "झोप सुधारणा";
          desc := "रात्री उशिरा मोबाइल वापर टाळा. नियमित वेळेत झोपा" |};
     family_weak :=
       {| icon := "👨‍👩‍👧‍👦"; title := "कुटुंब संवाद";
          desc := "कुटुंबातील सदस्यांशी मोकळेपणाने बोला. एकत्र वेळ घालवा" |};
     hope_low :=
       {| icon := "💪"; title := "सकारात्मक विचार";
          desc := "कठीण काळ नक्की संपतो. यशस्वी शेतकऱ्यांच्या कथा वाचा" |};
     agriculture :=
       {| icon := "🌱"; title := "कृषी सल्ला";
          desc := "नवीन पिक पद्धती आणि शेती तंत्रज्ञानाबद्दल जाणून घ्या" |};
     government :=
       {| icon := "🏛️"; title := "सरकारी योजना";
          desc := "पीएम किसान, विमा योजना आणि इतर लाभ मिळवा" |} |}.

(** [SUGGESTIONS[factor]] *)
Definition suggestionFor (factor : string) : Js.Property Suggestion :=
  Js.get
    [ ("crop_poor", crop_poor SUGGESTIONS);
      ("loan_high", loan_high SUGGESTIONS);
      ("sleep_poor", sleep_poor SUGGESTIONS);
      ("family_weak", family_weak SUGGESTIONS);
      ("hope_low", hope_low SUGGESTIONS);
      ("agriculture", agriculture SUGGESTIONS);
      ("government", government SUGGESTIONS) ]
    factor.

(** What the suggestions array can hold: a card of [SUGGESTIONS], or
    the truthy member of [Object.prototype] found under a factor that
    names one. *)
Inductive Entry :=
| Card (s : Suggestion)
| Member (key : string).

Record CheckInResponse := {
  message : Message;
  suggestions : list Entry;
  showEmergency : bool;
}.

(** [suggestions.slice(0, 4)] *)
Definition slice04 {A : Type} (l : list A) : list A := take 4 l.

Definition generateResponse (riskLevel : RiskLevel) (criticalFactors : list string)
  : CheckInResponse :=
  let message := MESSAGES riskLevel in
  let suggestions : list Entry :=
    fold_left
      (fun suggestions factor =>
         match suggestionFor factor with
         | Js.Own suggestion => suggestions ++ [Card suggestion]
         | Js.Proto key => suggestions ++ [Member key]
         | Js.Undefined => suggestions
         end)
      criticalFactors [] in
  let suggestions :=
    if (length suggestions <? 2)%nat
    then suggestions ++ [Card (agriculture SUGGESTIONS)]
    else suggestions in
  let suggestions :=
    if negb (bool_decide (riskLevel = LOW)) && (length suggestions <? 3)%nat
    then suggestions ++ [Card (government SUGGESTIONS)]
    else suggestions in
  {| message := message;
     suggestions := slice04 suggestions;
     showEmergency :=
       bool_decide (riskLevel = HIGH) || bool_decide (riskLevel = CRITICAL) |}.

(** *** The fusion of lines 116-132 *)

(** Lines 122-125, run when the AI analysis carries the crisis tag. *)
Definition escalate (finalRiskScore : Z) (finalRiskLevel : RiskLevel)
  : Z * RiskLevel :=
  let finalRiskScore := Z.min 100 (finalRiskScore + 20) in
  let finalRiskLevel :=
    if bool_decide (finalRiskLevel = LOW) then MODERATE else finalRiskLevel in
  let finalRiskLevel :=
    if bool_decide (finalRiskLevel = MODERATE) then HIGH else finalRiskLevel in
  let finalRiskLevel :=
    if bool_decide (finalRiskLevel = HIGH) then CRITICAL else finalRiskLevel in
  (finalRiskScore, finalRiskLevel).

(** Lines 129-132. *)
Definition recalculate (finalRiskScore : Z) : RiskLevel :=
  if 80 <=? finalRiskScore then CRITICAL
  else if 60 <=? finalRiskScore then HIGH
  else if 40 <=? finalRiskScore then MODERATE
  else LOW.

Record Fusion := {
  finalRiskScore : Z;
  (** the level after the escalation step, before line 129 replaces it *)
  intermediateRiskLevel : RiskLevel;
  finalRiskLevel : RiskLevel;
  allCriticalFactors : list string;
}.

Definition crisisDetected (aiAnalysis : Sentiment.RiskAnalysis) : bool :=
  existsb (String.eqb "crisis_keywords_detected") (Sentiment.indicators aiAnalysis).

Definition fuse (assessment : RiskAssessmentResult)
    (aiAnalysis : Sentiment.RiskAnalysis) : Fusion :=
  let finalRiskScore := riskScore assessment + Sentiment.additionalRiskScore aiAnalysis in
  let finalRiskLevel := riskLevel assessment in
  let allCriticalFactors := criticalFactors assessment ++ Sentiment.indicators aiAnalysis in
  let '(finalRiskScore, finalRiskLevel) :=
    if crisisDetected aiAnalysis
    then escalate finalRiskScore finalRiskLevel
    else (finalRiskScore, finalRiskLevel) in
  {| finalRiskScore := finalRiskScore;
     intermediateRiskLevel := finalRiskLevel;
     finalRiskLevel := recalculate finalRiskScore;
     allCriticalFactors := allCriticalFactors |}.

(** *** The service functions *)

(** [CreateCheckInInput] has the fields of [RiskAssessmentInput]. *)
Definition CreateCheckInInput := RiskAssessmentInput.

Definition truthy (s : option string) : bool :=
  match s with
  | Some s => negb (String.eqb s EmptyString)
  | None => false
  end.

Definition getCheckInById (checkInId : nat) (farmerId : string)
  : Prisma.M (option Prisma.CheckIn) :=
  Prisma.checkIn_findFirst (fun row =>
    Nat.eqb (Prisma.id row) checkInId && String.eqb (Prisma.farmerId row) farmerId).

(** The [data] of the [checkIn.update] in [createAlert]. *)
Definition alertFlags (counselorId : option string) (row : Prisma.CheckIn)
  : Prisma.CheckIn :=
  {| Prisma.id := Prisma.id row;
     Prisma.farmerId := Prisma.farmerId row;
     Prisma.cropCondition := Prisma.cropCondition row;
     Prisma.loanPressure := Prisma.loanPressure row;
     Prisma.sleepQuality := Prisma.sleepQuality row;
     Prisma.familySupport := Prisma.familySupport row;
     Prisma.hopeLevel := Prisma.hopeLevel row;
     Prisma.notes := Prisma.notes row;
     Prisma.riskScore := Prisma.riskScore row;
     Prisma.riskLevel := Prisma.riskLevel row;
     Prisma.criticalFactors := Prisma.criticalFactors row;
     Prisma.alertTriggered := true;
     Prisma.counselorNotified := Some (truthy counselorId) |}.

Definition createAlert (farmerId : string) (checkInId : nat) (riskLevel : string)
  : Prisma.M Prisma.Alert :=
  match getAlertSeverity riskLevel with
  | None => Prisma.throw (Js.Error "Cannot create alert for non-high/critical risk level")
  | Some severity =>
      farmer ← Prisma.farmer_findUnique farmerId;
      let counselorId := farmer ≫= Prisma.counselorId in
      alert ← Prisma.alert_create
        {| Prisma.alertFarmerId := farmerId;
           Prisma.checkInId := checkInId;
           Prisma.severity := severity;
           Prisma.assignedToId := counselorId |};
      _ ← Prisma.checkIn_update checkInId (alertFlags counselorId);
      mret alert
  end.

(** The [data] of the [farmer.update] that ends [createCheckIn]. *)
Definition farmerActivity (finalRiskLevel : RiskLevel) (lastActiveAt : Z)
    (f : Prisma.Farmer) : Prisma.Farmer :=
  {| Prisma.preferredLang := Prisma.preferredLang f;
     Prisma.counselorId := Prisma.counselorId f;
     Prisma.status :=
       if bool_decide (finalRiskLevel = CRITICAL)
       then "critical_watch" else Prisma.status f;
     Prisma.lastActiveAt := lastActiveAt |}.

Section WithRuntime.
Context {R : Js.Runtime}.

(** The [data] of the [checkIn.create]. *)
Definition checkInData (farmerId : string) (input : CreateCheckInInput)
    (fusion : Fusion) (id : nat) : Prisma.CheckIn :=
  {| Prisma.id := id;
     Prisma.farmerId := farmerId;
     Prisma.cropCondition := cropCondition input;
     Prisma.loanPressure := loanPressure input;
     Prisma.sleepQuality := sleepQuality input;
     Prisma.familySupport := familySupport input;
     Prisma.hopeLevel := hopeLevel input;
     Prisma.notes := notes input;
     Prisma.riskScore := finalRiskScore fusion;
     Prisma.riskLevel := finalRiskLevel fusion;
     Prisma.criticalFactors := Js.JSON_stringify (allCriticalFactors fusion);
     Prisma.alertTriggered := shouldTriggerAlert (levelName (finalRiskLevel fusion));
     Prisma.counselorNotified := None |}.

Definition createCheckIn (farmerId : string) (input : CreateCheckInInput)
  : Prisma.M (Prisma.CheckIn * CheckInResponse) :=
  farmer ← Prisma.farmer_findUnique farmerId;
  let assessmentInput :=
    {| cropCondition := cropCondition input;
       loanPressure := loanPressure input;
       sleepQuality := sleepQuality input;
       familySupport := familySupport input;
       hopeLevel := hopeLevel input;
       notes := notes input |} in
  let assessment := assessRisk assessmentInput in
  let language :=
    match farmer with
    | Some f => Sentiment.orMr (Prisma.preferredLang f)
    | None => "mr"
    end in
  aiAnalysis ← Prisma.lift
    (Sentiment.analyzeRiskFromCheckIn (hopeLevel input) (notes input) language);
  let fusion := fuse assessment aiAnalysis in
  checkIn ← Prisma.checkIn_create (checkInData farmerId input fusion);
  _ ← (if shouldTriggerAlert (levelName (finalRiskLevel fusion))
       then _ ← createAlert farmerId (Prisma.id checkIn)
                  (levelName (finalRiskLevel fusion)); mret tt
       else mret tt);
  lastActiveAt ← Prisma.now;
  _ ← Prisma.farmer_update farmerId (farmerActivity (finalRiskLevel fusion) lastActiveAt);
  let response := generateResponse (finalRiskLevel fusion) (allCriticalFactors fusion) in
  mret (checkIn, response).

End WithRuntime.

End CheckInService.

(* ================================================================= *)
(** ** Statements' vocabulary *)

(** The banding rule of the structured assessment, as a function of a
    score. *)
Definition bandLevel (score : Z) : RiskLevel :=
  RiskAssessment.levelLoop RiskAssessment.RISK_LEVELS score LOW.

(** The single-step successor of a level. *)
Definition nextLevel (l : RiskLevel) : RiskLevel :=
  match l with
  | LOW => MODERATE
  | MODERATE => HIGH
  | HIGH => CRITICAL
  | CRITICAL => CRITICAL
  end.

(** The entry a critical factor contributes to the suggestions. *)
Definition factorSuggestions (factor : string) : list CheckInService.Entry :=
  match CheckInService.suggestionFor factor with
  | Js.Own suggestion => [CheckInService.Card suggestion]
  | Js.Proto key => [CheckInService.Member key]
  | Js.Undefined => []
  end.

(** The critical-indicator phrases of [words] that occur in [text],
    compared in lower case. *)
Definition matchedPhrases {R : Js.Runtime} (text : string) (words : list string)
  : list string :=
  List.filter (fun word => Js.includes (Js.toLowerCase text) (Js.toLowerCase word)) words.

(** A questionnaire. *)
Definition answers (c : Crop.t) (l : Loan.t) (s : Sleep.t) (f : Family.t)
    (hopeLevel : Z) (notes : option string) : RiskAssessment.RiskAssessmentInput :=
  {| RiskAssessment.cropCondition := c;
     RiskAssessment.loanPressure := l;
     RiskAssessment.sleepQuality := s;
     RiskAssessment.familySupport := f;
     RiskAssessment.hopeLevel := hopeLevel;
     RiskAssessment.notes := notes |}.

(** A store with one active farmer, preferring the language [lang]. *)
Definition oneFarmer (lang : string) : Prisma.World :=
  {| Prisma.farmers :=
       {[ "farmer-1" :=
            {| Prisma.preferredLang := lang;
               Prisma.counselorId := Some "counselor-1";
               Prisma.status := "active";
               Prisma.lastActiveAt := 0 |} ]};
     Prisma.checkIns := [];
     Prisma.alerts := [];
     Prisma.clock := 1000 |}.

(** The alert written for a check-in of level [l]. *)
Definition alertFor (farmerId : string) (checkInId : nat) (l : RiskLevel)
    (counselorId : option string) : list Prisma.Alert :=
  match RiskAssessment.getAlertSeverity (levelName l) with
  | Some severity =>
      [ {| Prisma.alertFarmerId := farmerId;
           Prisma.checkInId := checkInId;
           Prisma.severity := severity;
           Prisma.assignedToId := counselorId |} ]
  | None => []
  end.

(** Position of an answer in its enumeration, from the mildest to the
    most severe. *)
Definition cropRank (c : Crop.t) : Z :=
  match c with
  | Crop.excellent => 0
  | Crop.good => 1
  | Crop.moderate => 2
  | Crop.poor => 3
  | Crop.destroyed => 4
  end.

Definition loanRank (l : Loan.t) : Z :=
  match l with
  | Loan.none => 0
  | Loan.low => 1
  | Loan.medium => 2
  | Loan.high => 3
  | Loan.severe => 4
  end.

Definition sleepRank (s : Sleep.t) : Z :=
  match s with
  | Sleep.good => 0
  | Sleep.fair => 1
  | Sleep.poor => 2
  | Sleep.very_poor => 3
  end.

Definition familyRank (f : Family.t) : Z :=
  match f with
  | Family.strong => 0
  | Family.moderate => 1
  | Family.weak => 2
  | Family.none => 3
  end.

(** [i2] answers every question at least as severely as [i1]. *)
Definition atLeastAsSevere (i1 i2 : RiskAssessment.RiskAssessmentInput) : Prop :=
  cropRank (RiskAssessment.cropCondition i1) <= cropRank (RiskAssessment.cropCondition i2)
  /\ loanRank (RiskAssessment.loanPressure i1) <= loanRank (RiskAssessment.loanPressure i2)
  /\ sleepRank (RiskAssessment.sleepQuality i1) <= sleepRank (RiskAssessment.sleepQuality i2)
  /\ familyRank (RiskAssessment.familySupport i1)
     <= familyRank (RiskAssessment.familySupport i2)
  /\ RiskAssessment.hopeLevel i2 <= RiskAssessment.hopeLevel i1.

(** The tag, when the condition holds. *)
Definition tagIf (condition : bool) (tag : string) : list string :=
  if condition then [tag] else [].

(** The result [analyzeSentiment] builds from the words it found
    (lines 112-137). *)
Definition sentimentOf (foundCritical foundNegative foundPositive : list string)
  : Sentiment.SentimentResult :=
  let totalWords :=
    (length foundNegative + length foundPositive + length foundCritical)%nat in
  let score : Q :=
    if (0 <? length foundCritical)%nat then (-1)%Q
    else if (0 <? totalWords)%nat then
      let positiveWeight := Z.of_nat (length foundPositive) in
      let negativeWeight := Z.of_nat (length foundNegative) * -1 in
      (inject_Z (positiveWeight + negativeWeight) / inject_Z (Z.of_nat totalWords))%Q
    else 0%Q in
  let label :=
    if Sentiment.Qltb score (- (3 # 10))%Q then Sentiment.negative
    else if Sentiment.Qltb (3 # 10)%Q score then Sentiment.positive
    else Sentiment.neutral in
  let confidence :=
    Qmin 1%Q (inject_Z (Z.of_nat totalWords) / 5 * (8 # 10) + (2 # 10))%Q in
  {| Sentiment.score := (inject_Z (Js.round (score * 100)) / 100)%Q;
     Sentiment.label := label;
     Sentiment.confidence := (inject_Z (Js.round (confidence * 100)) / 100)%Q;
     Sentiment.keywords := foundPositive ++ foundNegative;
     Sentiment.riskIndicators := foundCritical |}.

(** The entry is a card of [SUGGESTIONS]: the value the table holds
    under one of its own keys. *)
Definition isCard (entry : CheckInService.Entry) : Prop :=
  exists key suggestion,
    CheckInService.suggestionFor key = Js.Own suggestion
    /\ entry = CheckInService.Card suggestion.

(** The language names an inherited member of an object literal. *)
Definition inheritedKey (language : string) : bool :=
  existsb (String.eqb language) Js.objectPrototypeKeys.

(** The language is one the dictionaries list. *)
Definition supportedLanguage (language : string) : bool :=
  String.eqb language "mr" || String.eqb language "hi" || String.eqb language "en".

(** The store is consistent: a row's id is its position; every alert
    points to a flagged row of the same farmer whose level has the
    alert's severity; every flagged row has an alert; no two alerts
    point to the same row. *)
Definition storeConsistent (w : Prisma.World) : Prop :=
  (forall i row, Prisma.checkIns w !! i = Some row -> Prisma.id row = i)
  /\ (forall alert, In alert (Prisma.alerts w) ->
        exists row,
          Prisma.checkIns w !! Prisma.checkInId alert = Some row
          /\ Prisma.alertTriggered row = true
          /\ Prisma.farmerId row = Prisma.alertFarmerId alert
          /\ RiskAssessment.getAlertSeverity (levelName (Prisma.riskLevel row))
             = Some (Prisma.severity alert))
  /\ (forall i row, Prisma.checkIns w !! i = Some row ->
        Prisma.alertTriggered row = true ->
        exists alert, In alert (Prisma.alerts w) /\ Prisma.checkInId alert = i)
  /\ NoDup (map Prisma.checkInId (Prisma.alerts w)).

(** A store with two active farmers; only the first has a counselor. *)
Definition twoFarmers : Prisma.World :=
  {| Prisma.farmers :=
       {[ "farmer-1" :=
            {| Prisma.preferredLang := "en";
               Prisma.counselorId := Some "counselor-1";
               Prisma.status := "active";
               Prisma.lastActiveAt := 0 |};
          "farmer-2" :=
            {| Prisma.preferredLang := "mr";
               Prisma.counselorId := None;
               Prisma.status := "active";
               Prisma.lastActiveAt := 0 |} ]};
     Prisma.checkIns := [];
     Prisma.alerts := [];
     Prisma.clock := 1000 |}.

(** The store after a check-in of the first farmer that names a crisis
    phrase (row 0, flagged, with an alert) and a quiet check-in of the
    second farmer (row 1). *)
Definition sharedStore : Prisma.World :=
  fst (@CheckInService.createCheckIn Js.utf8 "farmer-2"
         (answers Crop.good Loan.low Sleep.fair Family.strong 8 None)
         (fst (@CheckInService.createCheckIn Js.utf8 "farmer-1"
                 (answers Crop.poor Loan.high Sleep.poor Family.weak 3
                    (Some "I bought poison"))
                 twoFarmers))).

(* ================================================================= *)
(** ** The structured assessment *)

Section Bands.
Import RiskAssessment.

Lemma inBand_spec (s : Z) (b : Band.t) :
  inBand s b = true <-> Band.min b <= s <= Band.max b.
Proof.
  unfold inBand. rewrite andb_true_iff, !Z.leb_le. tauto.
Qed.

Lemma bandLevel_cases (s : Z) :
  (0 <= s <= 6 /\ bandLevel s = LOW)
  \/ (7 <= s <= 12 /\ bandLevel s = MODERATE)
  \/ (13 <= s <= 18 /\ bandLevel s = HIGH)
  \/ (19 <= s <= 30 /\ bandLevel s = CRITICAL)
  \/ ((s < 0 \/ 30 < s) /\ bandLevel s = LOW).
Proof.
  unfold bandLevel, levelLoop, RISK_LEVELS, inBand; simpl.
  repeat match goal with
         | |- context [?a <=? ?b] => destruct (Z.leb_spec a b); simpl
         end;
    try lia;
    solve [ left; split; [lia | reflexivity]
          | right; left; split; [lia | reflexivity]
          | right; right; left; split; [lia | reflexivity]
          | right; right; right; left; split; [lia | reflexivity]
          | right; right; right; right; split; [lia | reflexivity] ].
Qed.

Lemma assessRisk_level (input : RiskAssessmentInput) :
  riskLevel (assessRisk input) = bandLevel (riskScore (assessRisk input)).
Proof. reflexivity. Qed.

Lemma assessRisk_score (input : RiskAssessmentInput) :
  riskScore (assessRisk input)
  = RISK_WEIGHTS_crop (cropCondition input) + RISK_WEIGHTS_loan (loanPressure input)
    + RISK_WEIGHTS_sleep (sleepQuality input) + RISK_WEIGHTS_family (familySupport input)
    + hopeFactor (hopeLevel input).
Proof. unfold assessRisk; simpl. lia. Qed.

End Bands.

(** C6: the bands LOW [0,6], MODERATE [7,12], HIGH [13,18], CRITICAL
    [19,30] partition the integers of [0,30]: every score there lies in
    exactly one band of the table, that band is one of the four named
    with these bounds and this label, and its label is the level the
    assessment returns; a score of [0,30] is rated LOW exactly up to 6,
    MODERATE exactly from 7 to 12, HIGH exactly from 13 to 18 and
    CRITICAL exactly from 19 on; the level is non-decreasing in the
    score; a score outside [0,30] lies in no band and is rated LOW; and
    [assessRisk] rates its own score by these intervals. *)
Theorem risk_bands_partition (s1 s2 : Z)
    (Hlo : 0 <= s1) (Hle : s1 <= s2) (Hhi : s2 <= 30) :
  (exists b, In b RiskAssessment.RISK_LEVELS
             /\ RiskAssessment.inBand s1 b = true
             /\ Band.label b = bandLevel s1
             /\ In (Band.min b, Band.max b, Band.label b)
                   [ (0, 6, LOW); (7, 12, MODERATE); (13, 18, HIGH); (19, 30, CRITICAL) ]
             /\ Band.min b <= s1 <= Band.max b
             /\ forall b', In b' RiskAssessment.RISK_LEVELS ->
                           RiskAssessment.inBand s1 b' = true -> b' = b)
  /\ (forall s, 0 <= s <= 30 ->
        (bandLevel s = LOW <-> s <= 6)
        /\ (bandLevel s = MODERATE <-> 7 <= s <= 12)
        /\ (bandLevel s = HIGH <-> 13 <= s <= 18)
        /\ (bandLevel s = CRITICAL <-> 19 <= s))
  /\ levelRank (bandLevel s1) <= levelRank (bandLevel s2)
  /\ (forall s, s < 0 \/ 30 < s ->
        bandLevel s = LOW
        /\ forall b, In b RiskAssessment.RISK_LEVELS -> RiskAssessment.inBand s b = false)
  /\ (forall input,
        let result := RiskAssessment.assessRisk input in
        let score := RiskAssessment.riskScore result in
        RiskAssessment.riskLevel result = bandLevel score
        /\ (0 <= score <= 6 -> RiskAssessment.riskLevel result = LOW)
        /\ (7 <= score <= 12 -> RiskAssessment.riskLevel result = MODERATE)
        /\ (13 <= score <= 18 -> RiskAssessment.riskLevel result = HIGH)
        /\ (19 <= score <= 30 -> RiskAssessment.riskLevel result = CRITICAL)
        /\ (score < 0 \/ 30 < score -> RiskAssessment.riskLevel result = LOW)).
Proof.
  split; [|split; [|split; [|split]]].
  - destruct (bandLevel_cases s1) as [[H ->]|[[H ->]|[[H ->]|[[H ->]|[H _]]]]];
      [ exists {| Band.min := 0; Band.max := 6; Band.label := LOW |}
      | exists {| Band.min := 7; Band.max := 12; Band.label := MODERATE |}
      | exists {| Band.min := 13; Band.max := 18; Band.label := HIGH |}
      | exists {| Band.min := 19; Band.max := 30; Band.label := CRITICAL |}
      | lia ].
    all: (split; [simpl; tauto|]);
         (split; [apply inBand_spec; simpl; lia|]);
         (split; [reflexivity|]);
         (split; [simpl; tauto|]);
         (split; [simpl; lia|]);
         intros b' Hin Hb; apply inBand_spec in Hb;
         simpl in Hin; destruct Hin as [<-|[<-|[<-|[<-|[]]]]]; simpl in Hb;
         solve [reflexivity | lia].
  - intros s Hs.
    destruct (bandLevel_cases s) as [[H ->]|[[H ->]|[[H ->]|[[H ->]|[H _]]]]];
      [| | | | lia];
      (split; [|split; [|split]]); split; intros H';
      first [lia | discriminate H' | reflexivity | exfalso; lia].
  - destruct (bandLevel_cases s1) as [[? ->]|[[? ->]|[[? ->]|[[? ->]|[? ->]]]]];
      destruct (bandLevel_cases s2) as [[? ->]|[[? ->]|[[? ->]|[[? ->]|[? ->]]]]];
      simpl; lia.
  - intros s Hout. split.
    + destruct (bandLevel_cases s) as [[? ?]|[[? ?]|[[? ?]|[[? ?]|[? ?]]]]];
        solve [assumption | lia].
    + intros b Hin. apply not_true_is_false. rewrite inBand_spec.
      simpl in Hin; destruct Hin as [<-|[<-|[<-|[<-|[]]]]]; simpl; lia.
  - intros input result score. subst result score.
    rewrite assessRisk_level.
    split; [reflexivity|].
    destruct (bandLevel_cases (RiskAssessment.riskScore (RiskAssessment.assessRisk input)))
      as [[H ->]|[[H ->]|[[H ->]|[[H ->]|[H ->]]]]];
      (split; [|split; [|split; [|split]]]); intros H';
      first [reflexivity | exfalso; lia].
Qed.

Lemma risk_bands_partition_witness :
  (0 <= 6 /\ 6 <= 7 /\ 7 <= 30)
  /\ levelRank (bandLevel 6) <= levelRank (bandLevel 7)
  /\ (bandLevel 0 = LOW /\ bandLevel 6 = LOW)
  /\ (bandLevel 7 = MODERATE /\ bandLevel 12 = MODERATE)
  /\ (bandLevel 13 = HIGH /\ bandLevel 18 = HIGH)
  /\ (bandLevel 19 = CRITICAL /\ bandLevel 30 = CRITICAL)
  /\ (bandLevel 31 = LOW /\ bandLevel (-1) = LOW)
  /\ RiskAssessment.riskLevel
       (RiskAssessment.assessRisk
          (answers Crop.moderate Loan.medium Sleep.fair Family.moderate 8 None))
     = MODERATE.
Proof.
  assert (H06 : 0 <= 6) by lia.
  assert (H67 : 6 <= 7) by lia.
  assert (H73 : 7 <= 30) by lia.
  destruct (risk_bands_partition 6 7 H06 H67 H73) as (_ & Hband & Hmono & Hout & Hrate).
  split; [auto|]. split; [exact Hmono|].
  split; [split; [apply (Hband 0) | apply (Hband 6)]; lia|].
  split; [split; [apply (Hband 7) | apply (Hband 12)]; lia|].
  split; [split; [apply (Hband 13) | apply (Hband 18)]; lia|].
  split; [split; [apply (Hband 19) | apply (Hband 30)]; lia|].
  split; [split; [apply (Hout 31) | apply (Hout (-1))]; lia|].
  destruct (Hrate (answers Crop.moderate Loan.medium Sleep.fair Family.moderate 8 None))
    as (_ & _ & Hmoderate & _).
  apply Hmoderate. vm_compute. split; discriminate.
Defined.

(** C7: the hope factor of an assessment is max(0, 5 - floor(hopeLevel/2));
    it does not increase when hopeLevel grows (on all integers, so in
    particular over [1,10]); it is 0 at hopeLevel 10 and 5 at hopeLevel 1. *)
Theorem hope_factor_antitone (i1 i2 : RiskAssessment.RiskAssessmentInput)
    (Hle : RiskAssessment.hopeLevel i1 <= RiskAssessment.hopeLevel i2) :
  RiskAssessment.hope (RiskAssessment.factors (RiskAssessment.assessRisk i1))
  = Z.max 0 (5 - RiskAssessment.hopeLevel i1 / 2)
  /\ RiskAssessment.hope (RiskAssessment.factors (RiskAssessment.assessRisk i2))
     <= RiskAssessment.hope (RiskAssessment.factors (RiskAssessment.assessRisk i1))
  /\ (RiskAssessment.hopeLevel i2 = 10 ->
      RiskAssessment.hope (RiskAssessment.factors (RiskAssessment.assessRisk i2)) = 0)
  /\ (RiskAssessment.hopeLevel i1 = 1 ->
      RiskAssessment.hope (RiskAssessment.factors (RiskAssessment.assessRisk i1)) = 5).
Proof.
  unfold RiskAssessment.assessRisk, RiskAssessment.hopeFactor; simpl.
  split; [reflexivity|].
  split.
  - pose proof (Z.div_le_mono _ _ 2 ltac:(lia) Hle). lia.
  - split; intros ->; reflexivity.
Qed.

Lemma hope_factor_antitone_witness :
  1 <= 10
  /\ RiskAssessment.hopeFactor 10 <= RiskAssessment.hopeFactor 1
  /\ RiskAssessment.hopeFactor 10 = 0
  /\ RiskAssessment.hopeFactor 1 = 5.
Proof.
  assert (Hle : 1 <= 10) by lia.
  destruct (hope_factor_antitone
              (answers Crop.good Loan.low Sleep.good Family.strong 1 None)
              (answers Crop.good Loan.low Sleep.good Family.strong 10 None)
              Hle) as (_ & Hmono & H10 & H1).
  split; [exact Hle|].
  split; [exact Hmono|].
  split; [exact (H10 eq_refl) | exact (H1 eq_refl)].
Defined.

(* ================================================================= *)
(** ** The feedback generator *)

Section Suggestions.
Import CheckInService.

(** The loop of [generateResponse] pushes, factor by factor, what
    [factorSuggestions] lists. *)
Lemma suggestion_loop (criticalFactors : list string) (acc : list Entry) :
  fold_left
    (fun suggestions factor =>
       match suggestionFor factor with
       | Js.Own suggestion => suggestions ++ [Card suggestion]
       | Js.Proto key => suggestions ++ [Member key]
       | Js.Undefined => suggestions
       end)
    criticalFactors acc
  = acc ++ flat_map factorSuggestions criticalFactors.
Proof.
  revert acc.
  induction criticalFactors as [|factor rest IH]; intros acc; simpl.
  - now rewrite app_nil_r.
  - rewrite IH. unfold factorSuggestions at 2.
    destruct (suggestionFor factor); simpl; now rewrite <- ?app_assoc.
Qed.

End Suggestions.

(** C8: the suggestions of a response are the first four entries of the
    factor-derived suggestions (in the order of the factors), followed
    by the agriculture fallback when fewer than two were derived, followed
    by the government-schemes card when the level is not LOW and fewer
    than three precede it; the list has between one and four entries. *)
Theorem suggestions_between_one_and_four
    (riskLevel : RiskLevel) (criticalFactors : list string) :
  let derived := flat_map factorSuggestions criticalFactors in
  let fallback :=
    if (length derived <? 2)%nat
    then [CheckInService.Card (CheckInService.agriculture CheckInService.SUGGESTIONS)]
    else [] in
  let schemes :=
    if negb (bool_decide (riskLevel = LOW)) && (length (derived ++ fallback) <? 3)%nat
    then [CheckInService.Card (CheckInService.government CheckInService.SUGGESTIONS)]
    else [] in
  let suggestions :=
    CheckInService.suggestions (CheckInService.generateResponse riskLevel criticalFactors) in
  suggestions = take 4 (derived ++ fallback ++ schemes)
  /\ (1 <= length suggestions <= 4)%nat.
Proof.
  intros derived fallback schemes suggestions.
  assert (Heq : suggestions = take 4 (derived ++ fallback ++ schemes)).
  { subst suggestions. unfold CheckInService.generateResponse; simpl.
    rewrite suggestion_loop; simpl. fold derived.
    unfold CheckInService.slice04. f_equal.
    subst fallback schemes.
    destruct (length derived <? 2)%nat; simpl; rewrite ?app_nil_r;
      destruct (negb (bool_decide (riskLevel = LOW)) && _); simpl;
      now rewrite <- ?app_assoc, ?app_nil_r. }
  split; [exact Heq|].
  rewrite Heq, length_take, !length_app.
  subst fallback schemes.
  destruct (Nat.ltb_spec (length derived) 2) as [Hlt|Hge];
    destruct (negb (bool_decide (riskLevel = LOW)) && _);
    cbn [length]; lia.
Qed.

(* ================================================================= *)
(** ** The sentiment analyzer *)

Section SentimentFacts.
Context {R : Js.Runtime}.
Import Sentiment.

Lemma push_loop (keep : string -> bool) (words acc : list string) :
  fold_left (fun found word => if keep word then found ++ [word] else found) words acc
  = acc ++ List.filter keep words.
Proof.
  revert acc.
  induction words as [|word rest IH]; intros acc; simpl.
  - now rewrite app_nil_r.
  - rewrite IH. destruct (keep word); simpl; now rewrite <- ?app_assoc.
Qed.

Lemma scan_matched (text : string) (words : list string) :
  scan (Js.toLowerCase text) words = matchedPhrases text words.
Proof.
  unfold scan, matchedPhrases.
  now rewrite (push_loop (fun word => Js.includes (Js.toLowerCase text) (Js.toLowerCase word))).
Qed.

(** The three dictionaries have the same keys: a language that selects
    a word list in one selects a word list in each. *)
Lemma wordsFor_total (d d' : Dictionary) (lang : string) (words : list string) :
  wordsFor d lang = Js.Ok words -> exists words', wordsFor d' lang = Js.Ok words'.
Proof.
  unfold wordsFor, lookup, Js.get; cbn [Js.assoc].
  destruct (String.eqb "mr" lang); [eauto|].
  destruct (String.eqb "hi" lang); [eauto|].
  destruct (String.eqb "en" lang); [eauto|].
  destruct (existsb (String.eqb lang) Js.objectPrototypeKeys); [discriminate | eauto].
Qed.

(** The guard of [analyzeRiskFromCheckIn] is the negation of the guard
    of [analyzeSentiment]. *)
Lemma notes_guard (text : string) :
  negb (String.eqb text EmptyString) && (0 <? String.length (Js.trim text))%nat
  = negb (isBlank text).
Proof.
  unfold isBlank. rewrite negb_orb. f_equal.
  destruct (String.length (Js.trim text)); reflexivity.
Qed.

Lemma analyzeSentiment_blank (text language : string) :
  isBlank text = true ->
  analyzeSentiment text language
  = Js.Ok {| score := 0%Q; label := neutral; confidence := 1%Q;
             keywords := []; riskIndicators := [] |}.
Proof. intros H. unfold analyzeSentiment. now rewrite H. Qed.

(** A text with a critical phrase: the score is -1 before and after
    rounding, the label is negative, the phrases found are reported. *)
Lemma analyzeSentiment_critical (text language : string) (words : list string) :
  isBlank text = false ->
  wordsFor CRITICAL_INDICATORS (orMr language) = Js.Ok words ->
  matchedPhrases text words <> [] ->
  exists r, analyzeSentiment text language = Js.Ok r
            /\ score r = (-100 # 100)%Q
            /\ label r = negative
            /\ riskIndicators r = matchedPhrases text words.
Proof.
  intros Hblank Hwords Hfound.
  destruct (wordsFor_total _ NEGATIVE_KEYWORDS _ _ Hwords) as [negativeWords Hn].
  destruct (wordsFor_total _ POSITIVE_KEYWORDS _ _ Hwords) as [positiveWords Hp].
  unfold analyzeSentiment. rewrite Hblank, Hwords, Hn, Hp.
  cbn [mbind Js.Outcome_bind mret Js.Outcome_ret].
  rewrite !scan_matched.
  eexists; split; [reflexivity|]. cbn [score label riskIndicators].
  destruct (matchedPhrases text words) as [|phrase phrases]; [congruence|].
  cbn [length Nat.ltb Nat.leb]. repeat split.
Qed.

End SentimentFacts.

(** C5: for every text that passes the blank-text guard and every
    language whose critical-indicator list exists, if some phrase of that
    list occurs in the text (compared in lower case), [analyzeSentiment]
    returns a result whose score is -1, whatever positive or negative
    keywords occur as well. *)
Theorem critical_phrase_forces_minus_one {R : Js.Runtime}
    (text language : string) (words : list string) (phrase : string)
    (Hblank : Sentiment.isBlank text = false)
    (Hwords : Sentiment.wordsFor Sentiment.CRITICAL_INDICATORS (Sentiment.orMr language)
              = Js.Ok words)
    (Hin : In phrase words)
    (Hmatch : Js.includes (Js.toLowerCase text) (Js.toLowerCase phrase) = true) :
  exists r, Sentiment.analyzeSentiment text language = Js.Ok r
            /\ (Sentiment.score r == -1)%Q.
Proof.
  assert (Hfound : matchedPhrases text words <> []).
  { intros Hnil.
    assert (Hp : In phrase (matchedPhrases text words))
      by (apply filter_In; split; assumption).
    rewrite Hnil in Hp. destruct Hp. }
  destruct (analyzeSentiment_critical text language words Hblank Hwords Hfound)
    as (r & Hr & Hscore & _).
  exists r. split; [exact Hr|]. rewrite Hscore. reflexivity.
Qed.

(* ================================================================= *)
(** ** The AI analysis of a check-in *)

Section RiskAnalysisFacts.
Context {R : Js.Runtime}.
Import Sentiment.

(** Without notes only the hope level counts. *)
Lemma analyzeRisk_no_notes (hopeLevel : Z) (language : string) :
  analyzeRiskFromCheckIn hopeLevel None language
  = Js.Ok {| additionalRiskScore := if hopeLevel <=? 2 then 15 else 0;
             indicators := if hopeLevel <=? 2 then ["very_low_hope"] else [] |}.
Proof.
  unfold analyzeRiskFromCheckIn.
  cbn [mbind Js.Outcome_bind mret Js.Outcome_ret].
  destruct (hopeLevel <=? 2); reflexivity.
Qed.

(** Notes with a critical phrase: 30 for the crisis flag and 10 for the
    negative label that the score -1 carries, then 15 more when the hope
    level is at most 2. *)
Lemma analyzeRisk_crisis (hopeLevel : Z) (text language : string) (words : list string) :
  isBlank text = false ->
  wordsFor CRITICAL_INDICATORS (orMr language) = Js.Ok words ->
  matchedPhrases text words <> [] ->
  analyzeRiskFromCheckIn hopeLevel (Some text) language
  = Js.Ok {| additionalRiskScore := if hopeLevel <=? 2 then 55 else 40;
             indicators :=
               "crisis_keywords_detected" :: matchedPhrases text words
               ++ (if hopeLevel <=? 2 then ["very_low_hope"] else []) |}.
Proof.
  intros Hblank Hwords Hfound.
  destruct (analyzeSentiment_critical text language words Hblank Hwords Hfound)
    as (r & Hr & Hscore & Hlabel & Hind).
  unfold analyzeRiskFromCheckIn.
  rewrite notes_guard, Hblank, Hr.
  cbn [negb mbind Js.Outcome_bind mret Js.Outcome_ret].
  rewrite Hind, Hscore, Hlabel.
  destruct (matchedPhrases text words) as [|phrase phrases]; [congruence|].
  cbn [length Nat.ltb Nat.leb].
  destruct (hopeLevel <=? 2); cbn; rewrite ?app_nil_r; reflexivity.
Qed.

(** The analysis throws nothing but the [TypeError] of a language
    that names a member of [Object.prototype]. *)
Lemma wordsFor_throws (d : Dictionary) (lang : string) (e : Js.Exn) :
  wordsFor d lang = Js.Throw e -> e = Js.TypeError.
Proof.
  unfold wordsFor. destruct (lookup d lang); congruence.
Qed.

Lemma analyzeSentiment_throws (text language : string) (e : Js.Exn) :
  analyzeSentiment text language = Js.Throw e -> e = Js.TypeError.
Proof.
  unfold analyzeSentiment.
  destruct (isBlank text); [discriminate|].
  destruct (wordsFor CRITICAL_INDICATORS _) eqn:Hc;
    [|cbn; intros [= <-]; eapply wordsFor_throws; eassumption].
  destruct (wordsFor NEGATIVE_KEYWORDS _) eqn:Hn;
    [|cbn; intros [= <-]; eapply wordsFor_throws; eassumption].
  destruct (wordsFor POSITIVE_KEYWORDS _) eqn:Hp;
    [|cbn; intros [= <-]; eapply wordsFor_throws; eassumption].
  discriminate.
Qed.

Lemma analyzeRisk_throws (hopeLevel : Z) (notes : option string) (language : string)
    (e : Js.Exn) :
  analyzeRiskFromCheckIn hopeLevel notes language = Js.Throw e -> e = Js.TypeError.
Proof.
  unfold analyzeRiskFromCheckIn.
  destruct notes as [text|].
  - destruct (negb (String.eqb text EmptyString) && _).
    + destruct (analyzeSentiment text language) as [r|e'] eqn:Hs.
      * cbn [mbind Js.Outcome_bind mret Js.Outcome_ret].
        destruct (0 <? length (riskIndicators r))%nat, (decide (label r = negative)),
          (hopeLevel <=? 2); discriminate.
      * cbn. intros [= <-]. eapply analyzeSentiment_throws; eassumption.
    + cbn [mbind Js.Outcome_bind mret Js.Outcome_ret].
      destruct (hopeLevel <=? 2); discriminate.
  - cbn [mbind Js.Outcome_bind mret Js.Outcome_ret].
    destruct (hopeLevel <=? 2); discriminate.
Qed.

End RiskAnalysisFacts.

(* ================================================================= *)
(** ** Running the service *)

Section ServiceFacts.
Context {R : Js.Runtime}.
Import RiskAssessment CheckInService.

Lemma assessmentInput_eta (input : RiskAssessmentInput) :
  {| cropCondition := cropCondition input;
     loanPressure := loanPressure input;
     sleepQuality := sleepQuality input;
     familySupport := familySupport input;
     hopeLevel := hopeLevel input;
     notes := notes input |} = input.
Proof. now destruct input. Qed.

(** The fused level is a function of the fused score; the factors are
    the structured ones followed by the indicators of the analysis. *)
Lemma fuse_level (assessment : RiskAssessmentResult) (aiAnalysis : Sentiment.RiskAnalysis) :
  finalRiskLevel (fuse assessment aiAnalysis)
  = recalculate (finalRiskScore (fuse assessment aiAnalysis)).
Proof. unfold fuse. now destruct (crisisDetected aiAnalysis). Qed.

Lemma fuse_factors (assessment : RiskAssessmentResult) (aiAnalysis : Sentiment.RiskAnalysis) :
  allCriticalFactors (fuse assessment aiAnalysis)
  = criticalFactors assessment ++ Sentiment.indicators aiAnalysis.
Proof. unfold fuse. now destruct (crisisDetected aiAnalysis). Qed.

(** Only HIGH and CRITICAL trigger an alert, and both have a severity. *)
Lemma alert_levels (l : RiskLevel) :
  shouldTriggerAlert (levelName l) = bool_decide (l = HIGH) || bool_decide (l = CRITICAL)
  /\ getAlertSeverity (levelName l)
     = match l with
       | HIGH => Some high
       | CRITICAL => Some critical
       | _ => None
       end.
Proof. destruct l; split; reflexivity. Qed.

(** [createAlert] for a level that has a severity and a row that
    exists. *)
Lemma createAlert_run (farmerId : string) (checkInId : nat) (l : RiskLevel)
    (w : Prisma.World) (severity : Severity) (row : Prisma.CheckIn) :
  getAlertSeverity (levelName l) = Some severity ->
  Prisma.checkIns w !! checkInId = Some row ->
  let counselorId := Prisma.farmers w !! farmerId ≫= Prisma.counselorId in
  let alert :=
    {| Prisma.alertFarmerId := farmerId;
       Prisma.checkInId := checkInId;
       Prisma.severity := severity;
       Prisma.assignedToId := counselorId |} in
  createAlert farmerId checkInId (levelName l) w
  = ( {| Prisma.farmers := Prisma.farmers w;
         Prisma.checkIns := <[checkInId := alertFlags counselorId row]> (Prisma.checkIns w);
         Prisma.alerts := Prisma.alerts w ++ [alert];
         Prisma.clock := Prisma.clock w |},
      Js.Ok alert ).
Proof.
  intros Hsev Hrow counselorId alert.
  unfold createAlert. rewrite Hsev.
  unfold mbind, Prisma.M_bind, Prisma.farmer_findUnique, Prisma.alert_create,
    Prisma.checkIn_update.
  cbn [Prisma.checkIns Prisma.farmers Prisma.alerts Prisma.clock].
  now rewrite Hrow.
Qed.

(** A run of [createCheckIn] for a farmer of the store whose notes the
    analysis accepts: the value returned and the store left behind. *)
Lemma createCheckIn_run (farmerId : string) (input : CreateCheckInInput)
    (w : Prisma.World) (f : Prisma.Farmer) (aiAnalysis : Sentiment.RiskAnalysis) :
  Prisma.farmers w !! farmerId = Some f ->
  Sentiment.analyzeRiskFromCheckIn (hopeLevel input) (notes input)
    (Sentiment.orMr (Prisma.preferredLang f)) = Js.Ok aiAnalysis ->
  let fusion := fuse (assessRisk input) aiAnalysis in
  let row := checkInData farmerId input fusion (length (Prisma.checkIns w)) in
  let alerted := shouldTriggerAlert (levelName (finalRiskLevel fusion)) in
  createCheckIn farmerId input w
  = ( {| Prisma.farmers :=
           <[farmerId := farmerActivity (finalRiskLevel fusion) (Prisma.clock w) f]>
             (Prisma.farmers w);
         Prisma.checkIns :=
           Prisma.checkIns w
           ++ [if alerted then alertFlags (Prisma.counselorId f) row else row];
         Prisma.alerts :=
           Prisma.alerts w
           ++ (if alerted
               then alertFor farmerId (length (Prisma.checkIns w)) (finalRiskLevel fusion)
                      (Prisma.counselorId f)
               else []);
         Prisma.clock := Prisma.clock w |},
      Js.Ok (row, generateResponse (finalRiskLevel fusion) (allCriticalFactors fusion)) ).
Proof.
  intros Hf Hai fusion row alerted.
  unfold createCheckIn.
  rewrite assessmentInput_eta.
  unfold mbind, Prisma.M_bind, Prisma.farmer_findUnique at 1.
  rewrite Hf, Hai. unfold Prisma.lift, Prisma.checkIn_create.
  fold fusion. cbn [Prisma.checkIns Prisma.farmers Prisma.alerts Prisma.clock]. fold row.
  fold alerted.
  assert (Hrow : (Prisma.checkIns w ++ [row]) !! Prisma.id row = Some row)
    by (now apply list_lookup_middle).
  destruct alerted eqn:Halert.
  - destruct (alert_levels (finalRiskLevel fusion)) as [Htrig Hsev].
    assert (exists severity, getAlertSeverity (levelName (finalRiskLevel fusion))
                             = Some severity) as [severity Hsome].
    { subst alerted. rewrite Htrig in Halert. rewrite Hsev.
      destruct (finalRiskLevel fusion); try discriminate; eauto. }
    erewrite createAlert_run by eassumption.
    cbn [Prisma.checkIns Prisma.farmers Prisma.alerts Prisma.clock Prisma.now
         mret Prisma.M_ret].
    unfold Prisma.farmer_update.
    cbn [Prisma.checkIns Prisma.farmers Prisma.alerts Prisma.clock].
    rewrite Hf. cbn [mbind option_bind].
    unfold alertFor. rewrite Hsome.
    rewrite insert_app_r_alt by (cbn; lia).
    replace (Prisma.id row - length (Prisma.checkIns w))%nat with 0%nat by (cbn; lia).
    reflexivity.
  - cbn [Prisma.checkIns Prisma.farmers Prisma.alerts Prisma.clock Prisma.now
         mret Prisma.M_ret].
    unfold Prisma.farmer_update.
    cbn [Prisma.checkIns Prisma.farmers Prisma.alerts Prisma.clock].
    rewrite Hf, app_nil_r. reflexivity.
Qed.

(** What a call of [createCheckIn] can throw: the [TypeError] of the
    analysis, or the [RecordNotFound] of a store that lacks the farmer. *)
Lemma createCheckIn_throws (farmerId : string) (input : CreateCheckInInput)
    (w : Prisma.World) (e : Js.Exn) :
  snd (createCheckIn farmerId input w) = Js.Throw e ->
  e = Js.TypeError \/ e = Js.RecordNotFound.
Proof.
  unfold createCheckIn.
  rewrite assessmentInput_eta.
  unfold mbind, Prisma.M_bind, Prisma.farmer_findUnique at 1.
  set (language := match Prisma.farmers w !! farmerId with
                   | Some f => Sentiment.orMr (Prisma.preferredLang f)
                   | None => "mr"
                   end).
  destruct (Sentiment.analyzeRiskFromCheckIn _ _ language) as [ai|e'] eqn:Hai;
    unfold Prisma.lift, Prisma.checkIn_create.
  2: { apply analyzeRisk_throws in Hai. subst e'. cbn. intros [= <-]. now left. }
  set (fusion := fuse (assessRisk input) ai).
  cbn [Prisma.checkIns Prisma.farmers Prisma.alerts Prisma.clock].
  set (row := checkInData farmerId input fusion (length (Prisma.checkIns w))).
  assert (Hrow : (Prisma.checkIns w ++ [row]) !! Prisma.id row = Some row)
    by (now apply list_lookup_middle).
  destruct (shouldTriggerAlert (levelName (finalRiskLevel fusion))) eqn:Halert.
  - destruct (alert_levels (finalRiskLevel fusion)) as [Htrig Hsev].
    assert (exists severity, getAlertSeverity (levelName (finalRiskLevel fusion))
                             = Some severity) as [severity Hsome].
    { rewrite Htrig in Halert. rewrite Hsev.
      destruct (finalRiskLevel fusion); try discriminate; eauto. }
    erewrite createAlert_run by eassumption.
    cbn [Prisma.checkIns Prisma.farmers Prisma.alerts Prisma.clock Prisma.now
         mret Prisma.M_ret].
    unfold Prisma.farmer_update.
    cbn [Prisma.checkIns Prisma.farmers Prisma.alerts Prisma.clock].
    destruct (Prisma.farmers w !! farmerId); cbn; [discriminate|].
    intros [= <-]. now right.
  - cbn [Prisma.checkIns Prisma.farmers Prisma.alerts Prisma.clock Prisma.now
         mret Prisma.M_ret].
    unfold Prisma.farmer_update.
    cbn [Prisma.checkIns Prisma.farmers Prisma.alerts Prisma.clock].
    destruct (Prisma.farmers w !! farmerId); cbn; [discriminate|].
    intros [= <-]. now right.
Qed.

(** [createAlert] throws its [Error] exactly for a level without severity. *)
Lemma createAlert_throws (farmerId : string) (checkInId : nat) (riskLevel : string)
    (w : Prisma.World) (message : string) :
  snd (createAlert farmerId checkInId riskLevel w) = Js.Throw (Js.Error message) ->
  getAlertSeverity riskLevel = None.
Proof.
  unfold createAlert.
  destruct (getAlertSeverity riskLevel); [|reflexivity].
  unfold mbind, Prisma.M_bind, Prisma.farmer_findUnique, Prisma.alert_create,
    Prisma.checkIn_update.
  cbn [Prisma.checkIns Prisma.farmers Prisma.alerts Prisma.clock].
  destruct (Prisma.checkIns w !! checkInId); cbn; discriminate.
Qed.

End ServiceFacts.

Lemma critical_phrase_forces_minus_one_witness :
  exists r,
    @Sentiment.analyzeSentiment Js.utf8 "I feel Happy but I bought POISON" "en" = Js.Ok r
    /\ (Sentiment.score r == -1)%Q.
Proof.
  apply (@critical_phrase_forces_minus_one Js.utf8
           "I feel Happy but I bought POISON" "en"
           (Sentiment.en Sentiment.CRITICAL_INDICATORS) "poison").
  - reflexivity.
  - reflexivity.
  - simpl. auto 10.
  - reflexivity.
Defined.

(* ================================================================= *)
(** ** The fusion and the alert decision *)

(** C4: the escalation step adds 20 to the score, capped at 100, but its
    three consecutive tests let a raised level fall through to the next
    test: every structured level leaves the step as CRITICAL.  For the
    check-in (excellent, none, good, strong, hope 10, notes naming
    poison) the structured level is LOW and the intermediate level is
    CRITICAL, not its successor MODERATE. *)
Theorem escalation_falls_through_to_critical :
  (forall (finalRiskScore : Z) (structured : RiskLevel),
      CheckInService.escalate finalRiskScore structured
      = (Z.min 100 (finalRiskScore + 20), CRITICAL))
  /\ (let input :=
        answers Crop.excellent Loan.none Sleep.good Family.strong 10 (Some "poison") in
      let assessment := RiskAssessment.assessRisk input in
      exists aiAnalysis,
        @Sentiment.analyzeRiskFromCheckIn Js.utf8 10 (Some "poison") "en" = Js.Ok aiAnalysis
        /\ CheckInService.crisisDetected aiAnalysis = true
        /\ RiskAssessment.riskLevel assessment = LOW
        /\ CheckInService.intermediateRiskLevel (CheckInService.fuse assessment aiAnalysis)
           = CRITICAL
        /\ CheckInService.intermediateRiskLevel (CheckInService.fuse assessment aiAnalysis)
           <> nextLevel (RiskAssessment.riskLevel assessment)).
Proof.
  split.
  - intros finalRiskScore structured. destruct structured; reflexivity.
  - eexists. split; [vm_compute; reflexivity|].
    repeat split. vm_compute. discriminate.
Qed.

(** C3 (amended): for an assessment that scores 0 and notes with a
    crisis-indicator phrase, analysed at a hope level above 2 (such as
    8), the AI score is 40 (30 for the crisis flag, 10 for the negative
    label that the score -1 carries), the escalation adds 20, the final
    score is 60 and the recomputed level is HIGH, so at least MODERATE. *)
Theorem crisis_on_zero_score_yields_high {R : Js.Runtime}
    (assessment : RiskAssessment.RiskAssessmentResult) (hopeLevel : Z)
    (text language : string) (words : list string)
    (Hscore : RiskAssessment.riskScore assessment = 0)
    (Hhope : 2 < hopeLevel)
    (Hblank : Sentiment.isBlank text = false)
    (Hwords : Sentiment.wordsFor Sentiment.CRITICAL_INDICATORS (Sentiment.orMr language)
              = Js.Ok words)
    (Hfound : matchedPhrases text words <> []) :
  exists aiAnalysis,
    Sentiment.analyzeRiskFromCheckIn hopeLevel (Some text) language = Js.Ok aiAnalysis
    /\ Sentiment.additionalRiskScore aiAnalysis = 40
    /\ CheckInService.finalRiskScore (CheckInService.fuse assessment aiAnalysis) = 60
    /\ CheckInService.finalRiskLevel (CheckInService.fuse assessment aiAnalysis) = HIGH
    /\ levelRank MODERATE
       <= levelRank (CheckInService.finalRiskLevel (CheckInService.fuse assessment aiAnalysis)).
Proof.
  eexists. split; [apply analyzeRisk_crisis; eassumption|].
  assert (Hle : (hopeLevel <=? 2) = false) by (apply Z.leb_gt; exact Hhope).
  unfold CheckInService.fuse, CheckInService.crisisDetected.
  cbn [Sentiment.additionalRiskScore Sentiment.indicators].
  rewrite Hle, Hscore.
  cbn [existsb String.eqb Ascii.eqb Bool.eqb orb andb].
  vm_compute. repeat split; discriminate.
Qed.

Lemma crisis_on_zero_score_yields_high_witness :
  RiskAssessment.riskScore
    (RiskAssessment.assessRisk
       (answers Crop.excellent Loan.none Sleep.good Family.strong 10 None)) = 0
  /\ 2 < 8
  /\ exists aiAnalysis,
       @Sentiment.analyzeRiskFromCheckIn Js.utf8 8 (Some "there is poison") "en"
       = Js.Ok aiAnalysis
       /\ Sentiment.additionalRiskScore aiAnalysis = 40.
Proof.
  assert (Hhope : 2 < 8) by lia.
  split; [reflexivity|]. split; [exact Hhope|].
  destruct (@crisis_on_zero_score_yields_high Js.utf8
              (RiskAssessment.assessRisk
                 (answers Crop.excellent Loan.none Sleep.good Family.strong 10 None))
              8 "there is poison" "en" (Sentiment.en Sentiment.CRITICAL_INDICATORS)
              eq_refl Hhope eq_refl eq_refl)
    as (aiAnalysis & Hai & Hadd & _).
  - vm_compute. discriminate.
  - exists aiAnalysis. split; assumption.
Defined.

(** C3 (as stated) fails: with hopeLevel 8 and notes that hold a crisis
    phrase and no other keyword, the AI score is 40 and not 30; fused
    with a structured score of 0 the final score is 60 and the level
    HIGH, not 50 and MODERATE; and the pipeline itself, whose structured
    score at hopeLevel 8 is at least 1, stores 61 and HIGH. *)
Lemma crisis_score_is_not_thirty :
  exists aiAnalysis sentiment,
    @Sentiment.analyzeSentiment Js.utf8 "poison" "en" = Js.Ok sentiment
    /\ Sentiment.keywords sentiment = []
    /\ @Sentiment.analyzeRiskFromCheckIn Js.utf8 8 (Some "poison") "en" = Js.Ok aiAnalysis
    /\ Sentiment.additionalRiskScore aiAnalysis = 40
    /\ Sentiment.additionalRiskScore aiAnalysis <> 30
    /\ (let zero :=
          RiskAssessment.assessRisk
            (answers Crop.excellent Loan.none Sleep.good Family.strong 10 None) in
        RiskAssessment.riskScore zero = 0
        /\ RiskAssessment.riskLevel zero = LOW
        /\ CheckInService.finalRiskScore (CheckInService.fuse zero aiAnalysis) = 60
        /\ CheckInService.finalRiskLevel (CheckInService.fuse zero aiAnalysis) = HIGH
        /\ CheckInService.finalRiskLevel (CheckInService.fuse zero aiAnalysis) <> MODERATE)
    /\ exists w' checkIn response,
         @CheckInService.createCheckIn Js.utf8 "farmer-1"
           (answers Crop.excellent Loan.none Sleep.good Family.strong 8 (Some "poison"))
           (oneFarmer "en")
         = (w', Js.Ok (checkIn, response))
         /\ Prisma.riskScore checkIn = 61
         /\ Prisma.riskLevel checkIn = HIGH.
Proof.
  eexists _, _.
  split; [vm_compute; reflexivity|].
  split; [reflexivity|].
  split; [vm_compute; reflexivity|].
  split; [reflexivity|].
  split; [cbn; lia|].
  split; [vm_compute; repeat split; discriminate|].
  eexists _, _, _.
  split; [vm_compute; reflexivity|].
  split; reflexivity.
Qed.

(** C1 (amended): for every check-in that the pipeline processes, the
    row returned and the row persisted carry the final score, and their
    level is recomputed from that score alone by the thresholds of the
    fusion, CRITICAL from 80, HIGH from 60, MODERATE from 40 and LOW
    below, whatever the structured level was. *)
Theorem final_level_recomputed_from_score {R : Js.Runtime}
    (farmerId : string) (input : CheckInService.CreateCheckInInput)
    (w : Prisma.World) (f : Prisma.Farmer) (aiAnalysis : Sentiment.RiskAnalysis)
    (Hfarmer : Prisma.farmers w !! farmerId = Some f)
    (Hanalysis :
       Sentiment.analyzeRiskFromCheckIn
         (RiskAssessment.hopeLevel input) (RiskAssessment.notes input)
         (Sentiment.orMr (Prisma.preferredLang f)) = Js.Ok aiAnalysis) :
  exists w' checkIn response stored,
    CheckInService.createCheckIn farmerId input w = (w', Js.Ok (checkIn, response))
    /\ Prisma.checkIns w' !! Prisma.id checkIn = Some stored
    /\ Prisma.riskScore stored
       = CheckInService.finalRiskScore
           (CheckInService.fuse (RiskAssessment.assessRisk input) aiAnalysis)
    /\ Prisma.riskLevel stored
       = (if 80 <=? Prisma.riskScore stored then CRITICAL
          else if 60 <=? Prisma.riskScore stored then HIGH
          else if 40 <=? Prisma.riskScore stored then MODERATE
          else LOW)
    /\ Prisma.riskScore checkIn = Prisma.riskScore stored
    /\ Prisma.riskLevel checkIn = Prisma.riskLevel stored.
Proof.
  rewrite (createCheckIn_run farmerId input w f aiAnalysis Hfarmer Hanalysis).
  eexists _, _, _, _.
  split; [reflexivity|].
  cbn [Prisma.checkIns Prisma.id CheckInService.checkInData].
  split; [now apply list_lookup_middle|].
  destruct (RiskAssessment.shouldTriggerAlert _);
    cbn [CheckInService.alertFlags Prisma.riskScore Prisma.riskLevel];
    repeat split; apply fuse_level.
Qed.

Lemma final_level_recomputed_from_score_witness :
  exists w' checkIn response stored,
    @CheckInService.createCheckIn Js.utf8 "farmer-1"
      (answers Crop.poor Loan.high Sleep.poor Family.weak 3 (Some "I bought poison"))
      (oneFarmer "en")
    = (w', Js.Ok (checkIn, response))
    /\ Prisma.checkIns w' !! Prisma.id checkIn = Some stored
    /\ Prisma.riskScore stored = 77
    /\ Prisma.riskLevel stored = HIGH.
Proof.
  destruct (@final_level_recomputed_from_score Js.utf8 "farmer-1"
              (answers Crop.poor Loan.high Sleep.poor Family.weak 3 (Some "I bought poison"))
              (oneFarmer "en")
              {| Prisma.preferredLang := "en";
                 Prisma.counselorId := Some "counselor-1";
                 Prisma.status := "active";
                 Prisma.lastActiveAt := 0 |}
              {| Sentiment.additionalRiskScore := 40;
                 Sentiment.indicators := ["crisis_keywords_detected"; "poison"] |}
              eq_refl eq_refl)
    as (w' & checkIn & response & stored & Hrun & Hstored & Hscore & Hlevel & _).
  exists w', checkIn, response, stored.
  split; [exact Hrun|]. split; [exact Hstored|].
  assert (Hs : Prisma.riskScore stored = 77) by (rewrite Hscore; reflexivity).
  split; [exact Hs|]. rewrite Hlevel, Hs. reflexivity.
Defined.

(** C1 (as stated) fails: the answers (destroyed, severe, very poor,
    none, hope 3) without notes are stored with the final score 24 and
    the level LOW, although the banding rule of the structured
    assessment rates 24 as CRITICAL. *)
Lemma final_level_is_not_the_band_of_the_score :
  exists w' checkIn response,
    @CheckInService.createCheckIn Js.utf8 "farmer-1"
      (answers Crop.destroyed Loan.severe Sleep.very_poor Family.none 3 None)
      (oneFarmer "mr")
    = (w', Js.Ok (checkIn, response))
    /\ Prisma.checkIns w' = [checkIn]
    /\ Prisma.riskScore checkIn = 24
    /\ Prisma.riskLevel checkIn = LOW
    /\ bandLevel (Prisma.riskScore checkIn) = CRITICAL
    /\ Prisma.riskLevel checkIn <> bandLevel (Prisma.riskScore checkIn).
Proof.
  eexists _, _, _.
  split; [vm_compute; reflexivity|].
  repeat split. vm_compute. discriminate.
Qed.

(** C2: on the answers (destroyed, severe, very poor, none, hope 1)
    without notes the structured assessment scores 25 and rates
    CRITICAL; the pipeline adds 15 for the very low hope, stores the
    score 40 with the level MODERATE, raises no alert and leaves the
    farmer's status as it was. *)
Theorem worst_answers_raise_no_alert :
  let input := answers Crop.destroyed Loan.severe Sleep.very_poor Family.none 1 None in
  RiskAssessment.riskScore (RiskAssessment.assessRisk input) = 25
  /\ RiskAssessment.riskLevel (RiskAssessment.assessRisk input) = CRITICAL
  /\ exists w' checkIn response,
       @CheckInService.createCheckIn Js.utf8 "farmer-1" input (oneFarmer "mr")
       = (w', Js.Ok (checkIn, response))
       /\ Prisma.riskScore checkIn = 40
       /\ Prisma.riskLevel checkIn = MODERATE
       /\ Prisma.alertTriggered checkIn = false
       /\ Prisma.checkIns w' = [checkIn]
       /\ Prisma.alerts w' = []
       /\ Prisma.status <$> (Prisma.farmers w' !! "farmer-1") = Some "active"
       /\ CheckInService.showEmergency response = false.
Proof.
  cbv zeta. split; [reflexivity|]. split; [reflexivity|].
  eexists _, _, _.
  split; [vm_compute; reflexivity|].
  repeat split.
Qed.

(** C9: a level that [shouldTriggerAlert] accepts is HIGH or CRITICAL
    and has the severity high or critical, so [createAlert] does not
    throw its error for it; and no run of [createCheckIn], which calls
    [createAlert] under that test only, ends in that error. *)
Theorem createAlert_error_unreachable {R : Js.Runtime} (riskLevel : string)
    (Htrigger : RiskAssessment.shouldTriggerAlert riskLevel = true) :
  (riskLevel = levelName HIGH
     /\ RiskAssessment.getAlertSeverity riskLevel = Some RiskAssessment.high
   \/ riskLevel = levelName CRITICAL
     /\ RiskAssessment.getAlertSeverity riskLevel = Some RiskAssessment.critical)
  /\ (forall farmerId checkInId w message,
        snd (CheckInService.createAlert farmerId checkInId riskLevel w)
        <> Js.Throw (Js.Error message))
  /\ (forall farmerId input w message,
        snd (CheckInService.createCheckIn farmerId input w)
        <> Js.Throw (Js.Error message)).
Proof.
  assert (Hsev :
    riskLevel = levelName HIGH
      /\ RiskAssessment.getAlertSeverity riskLevel = Some RiskAssessment.high
    \/ riskLevel = levelName CRITICAL
      /\ RiskAssessment.getAlertSeverity riskLevel = Some RiskAssessment.critical).
  { unfold RiskAssessment.shouldTriggerAlert in Htrigger.
    apply orb_true_iff in Htrigger as [H|H]; apply String.eqb_eq in H; subst riskLevel;
      [left | right]; split; reflexivity. }
  split; [exact Hsev|]. split.
  - intros farmerId checkInId w message Hthrow.
    apply createAlert_throws in Hthrow.
    destruct Hsev as [[_ H]|[_ H]]; congruence.
  - intros farmerId input w message Hthrow.
    apply createCheckIn_throws in Hthrow as [H|H]; discriminate.
Qed.

Lemma createAlert_error_unreachable_witness :
  RiskAssessment.shouldTriggerAlert "HIGH" = true
  /\ RiskAssessment.getAlertSeverity "HIGH" = Some RiskAssessment.high
  /\ snd (@CheckInService.createCheckIn Js.utf8 "farmer-1"
            (answers Crop.poor Loan.high Sleep.poor Family.weak 3 (Some "I bought poison"))
            (oneFarmer "en"))
     <> Js.Throw (Js.Error "Cannot create alert for non-high/critical risk level").
Proof.
  destruct (@createAlert_error_unreachable Js.utf8 "HIGH" eq_refl)
    as (Hsev & _ & Hrun).
  split; [reflexivity|]. split.
  - destruct Hsev as [[_ H]|[H _]]; [exact H | discriminate H].
  - apply Hrun.
Defined.

(* ================================================================= *)
(** ** What is persisted about crisis phrases *)

Lemma orMr_idempotent (language : string) :
  Sentiment.orMr (Sentiment.orMr language) = Sentiment.orMr language.
Proof.
  unfold Sentiment.orMr.
  destruct (String.eqb language EmptyString) eqn:H; [reflexivity|].
  now rewrite H.
Qed.

(** C10: when the notes of a check-in hold at least one crisis-indicator
    phrase, the combined critical factors are the structured factors,
    then the tag crisis_keywords_detected, then every matched phrase as
    the dictionary spells it and in dictionary order, then very_low_hope
    when it applies; the serialization of this whole list is the
    criticalFactors of the row returned and of the row persisted. *)
Theorem crisis_phrases_are_persisted {R : Js.Runtime}
    (farmerId : string) (input : CheckInService.CreateCheckInInput)
    (w : Prisma.World) (f : Prisma.Farmer) (text : string) (words : list string)
    (Hfarmer : Prisma.farmers w !! farmerId = Some f)
    (Hnotes : RiskAssessment.notes input = Some text)
    (Hblank : Sentiment.isBlank text = false)
    (Hwords : Sentiment.wordsFor Sentiment.CRITICAL_INDICATORS
                (Sentiment.orMr (Prisma.preferredLang f)) = Js.Ok words)
    (Hfound : matchedPhrases text words <> []) :
  let combined :=
    RiskAssessment.identifyCriticalFactors input
    ++ "crisis_keywords_detected" :: matchedPhrases text words
    ++ (if RiskAssessment.hopeLevel input <=? 2 then ["very_low_hope"] else []) in
  exists w' checkIn response stored,
    CheckInService.createCheckIn farmerId input w = (w', Js.Ok (checkIn, response))
    /\ Prisma.checkIns w' !! Prisma.id checkIn = Some stored
    /\ Prisma.criticalFactors checkIn = Js.JSON_stringify combined
    /\ Prisma.criticalFactors stored = Js.JSON_stringify combined
    /\ (forall phrase, In phrase (matchedPhrases text words) ->
          In phrase words /\ In phrase combined).
Proof.
  intros combined.
  assert (Hai := analyzeRisk_crisis (RiskAssessment.hopeLevel input) text
                   (Sentiment.orMr (Prisma.preferredLang f)) words Hblank).
  rewrite orMr_idempotent in Hai. specialize (Hai Hwords Hfound).
  rewrite <- Hnotes in Hai.
  rewrite (createCheckIn_run farmerId input w f _ Hfarmer Hai).
  eexists _, _, _, _.
  split; [reflexivity|].
  cbn [Prisma.checkIns Prisma.id CheckInService.checkInData].
  split; [now apply list_lookup_middle|].
  split; [cbn [Prisma.criticalFactors CheckInService.checkInData];
          now rewrite fuse_factors|].
  split.
  - destruct (RiskAssessment.shouldTriggerAlert _);
      cbn [CheckInService.alertFlags CheckInService.checkInData Prisma.criticalFactors];
      now rewrite fuse_factors.
  - intros phrase Hin. split.
    + apply filter_In in Hin. tauto.
    + subst combined. apply in_or_app. right. right.
      apply in_or_app. now left.
Qed.

Lemma crisis_phrases_are_persisted_witness :
  exists w' checkIn response stored,
    @CheckInService.createCheckIn Js.utf8 "farmer-1"
      (answers Crop.poor Loan.low Sleep.good Family.strong 2
         (Some "I want to END IT, I bought poison"))
      (oneFarmer "en")
    = (w', Js.Ok (checkIn, response))
    /\ Prisma.checkIns w' !! Prisma.id checkIn = Some stored
    /\ Prisma.criticalFactors stored
       = Js.utf8_JSON_stringify
           ["crop_poor"; "hope_low"; "crisis_keywords_detected"; "end it"; "poison";
            "very_low_hope"].
Proof.
  destruct (@crisis_phrases_are_persisted Js.utf8 "farmer-1"
              (answers Crop.poor Loan.low Sleep.good Family.strong 2
                 (Some "I want to END IT, I bought poison"))
              (oneFarmer "en")
              {| Prisma.preferredLang := "en";
                 Prisma.counselorId := Some "counselor-1";
                 Prisma.status := "active";
                 Prisma.lastActiveAt := 0 |}
              "I want to END IT, I bought poison"
              (Sentiment.en Sentiment.CRITICAL_INDICATORS)
              eq_refl eq_refl eq_refl eq_refl)
    as (w' & checkIn & response & stored & Hrun & Hstored & _ & Hfactors & _).
  - vm_compute. discriminate.
  - exists w', checkIn, response, stored.
    split; [exact Hrun|]. split; [exact Hstored|]. exact Hfactors.
Defined.

(* ================================================================= *)
(** ** More on the structured assessment *)

Section AssessmentFacts.
Import RiskAssessment.

Lemma weights_bounded (input : RiskAssessmentInput) :
  0 <= RISK_WEIGHTS_crop (cropCondition input) <= 5
  /\ 0 <= RISK_WEIGHTS_loan (loanPressure input) <= 5
  /\ 0 <= RISK_WEIGHTS_sleep (sleepQuality input) <= 5
  /\ 0 <= RISK_WEIGHTS_family (familySupport input) <= 5.
Proof.
  destruct (cropCondition input), (loanPressure input), (sleepQuality input),
    (familySupport input); simpl; lia.
Qed.

Lemma hopeFactor_bounds (hopeLevel : Z) :
  0 <= hopeFactor hopeLevel /\ (0 <= hopeLevel -> hopeFactor hopeLevel <= 5).
Proof.
  unfold hopeFactor. split; [lia|]. intros H.
  pose proof (Z.div_pos hopeLevel 2 H ltac:(lia)). lia.
Qed.

Lemma structured_score_range (input : RiskAssessmentInput) :
  0 <= hopeLevel input -> 0 <= riskScore (assessRisk input) <= 25.
Proof.
  intros Hhope.
  pose proof (weights_bounded input) as (Hc & Hl & Hs & Hf).
  pose proof (hopeFactor_bounds (hopeLevel input)) as [Hh0 Hh5].
  specialize (Hh5 Hhope). rewrite assessRisk_score. lia.
Qed.

(** Each weight table is non-decreasing along its enumeration. *)
Lemma weights_monotone (i1 i2 : RiskAssessmentInput) :
  cropRank (cropCondition i1) <= cropRank (cropCondition i2) ->
  loanRank (loanPressure i1) <= loanRank (loanPressure i2) ->
  sleepRank (sleepQuality i1) <= sleepRank (sleepQuality i2) ->
  familyRank (familySupport i1) <= familyRank (familySupport i2) ->
  RISK_WEIGHTS_crop (cropCondition i1) <= RISK_WEIGHTS_crop (cropCondition i2)
  /\ RISK_WEIGHTS_loan (loanPressure i1) <= RISK_WEIGHTS_loan (loanPressure i2)
  /\ RISK_WEIGHTS_sleep (sleepQuality i1) <= RISK_WEIGHTS_sleep (sleepQuality i2)
  /\ RISK_WEIGHTS_family (familySupport i1) <= RISK_WEIGHTS_family (familySupport i2).
Proof.
  intros Hc Hl Hs Hf. repeat split.
  - destruct (cropCondition i1), (cropCondition i2); simpl in *; lia.
  - destruct (loanPressure i1), (loanPressure i2); simpl in *; lia.
  - destruct (sleepQuality i1), (sleepQuality i2); simpl in *; lia.
  - destruct (familySupport i1), (familySupport i2); simpl in *; lia.
Qed.

(** A score of 0..30 lies in a band, whose label is its level. *)
Lemma band_of_score (s : Z) :
  0 <= s <= 30 ->
  exists band, In band RISK_LEVELS /\ inBand s band = true /\ Band.label band = bandLevel s.
Proof.
  intros Hs.
  destruct (bandLevel_cases s) as [[H ->]|[[H ->]|[[H ->]|[[H ->]|[H _]]]]];
    [ exists {| Band.min := 0; Band.max := 6; Band.label := LOW |}
    | exists {| Band.min := 7; Band.max := 12; Band.label := MODERATE |}
    | exists {| Band.min := 13; Band.max := 18; Band.label := HIGH |}
    | exists {| Band.min := 19; Band.max := 30; Band.label := CRITICAL |}
    | lia ].
  all: split; [simpl; tauto|]; split; [apply inBand_spec; simpl; lia | reflexivity].
Qed.

End AssessmentFacts.

(** X1: the structured score is never negative; when the hope level is
    not negative, and so for every validated hope level 1..10, each of
    the five factors lies in 0..5, the score lies in 0..25, and the score
    falls inside one of the bands, so the level never comes from the
    initial default. *)
Theorem structured_score_bounds (input : RiskAssessment.RiskAssessmentInput)
    (Hhope : 0 <= RiskAssessment.hopeLevel input) :
  let result := RiskAssessment.assessRisk input in
  let factors := RiskAssessment.factors result in
  0 <= RiskAssessment.riskScore result <= 25
  /\ 0 <= RiskAssessment.crop factors <= 5
  /\ 0 <= RiskAssessment.loan factors <= 5
  /\ 0 <= RiskAssessment.sleep factors <= 5
  /\ 0 <= RiskAssessment.family factors <= 5
  /\ 0 <= RiskAssessment.hope factors <= 5
  /\ (exists band, In band RiskAssessment.RISK_LEVELS
                   /\ RiskAssessment.inBand (RiskAssessment.riskScore result) band = true
                   /\ RiskAssessment.riskLevel result = Band.label band).
Proof.
  intros result factors.
  pose proof (weights_bounded input) as (Hc & Hl & Hs & Hf).
  pose proof (hopeFactor_bounds (RiskAssessment.hopeLevel input)) as [Hh0 Hh5].
  specialize (Hh5 Hhope).
  assert (Hscore : 0 <= RiskAssessment.riskScore result <= 25)
    by (subst result; rewrite assessRisk_score; lia).
  split; [exact Hscore|].
  repeat (split; [assumption || (split; assumption)|]).
  destruct (band_of_score (RiskAssessment.riskScore result) ltac:(lia))
    as (band & Hin & Hband & Hlabel).
  exists band. repeat split; try assumption.
  subst result. rewrite assessRisk_level. now symmetry.
Qed.

Lemma structured_score_bounds_witness :
  0 <= 1
  /\ 0 <= RiskAssessment.riskScore
            (RiskAssessment.assessRisk
               (answers Crop.destroyed Loan.severe Sleep.very_poor Family.none 1 None))
     <= 25.
Proof.
  assert (Hhope : 0 <= 1) by lia.
  split; [exact Hhope|].
  exact (proj1 (structured_score_bounds
                  (answers Crop.destroyed Loan.severe Sleep.very_poor Family.none 1 None)
                  Hhope)).
Defined.

(** X2: answers that are at least as severe on every question (later in
    the enumeration for crop, loan, sleep and family, a hope level not
    higher) never score lower, whatever the hope levels; and when the
    more severe hope level is not negative they are never rated at a
    lower level. *)
Theorem more_severe_answers_never_rate_lower
    (i1 i2 : RiskAssessment.RiskAssessmentInput)
    (Hsevere : atLeastAsSevere i1 i2) :
  RiskAssessment.riskScore (RiskAssessment.assessRisk i1)
  <= RiskAssessment.riskScore (RiskAssessment.assessRisk i2)
  /\ (0 <= RiskAssessment.hopeLevel i2 ->
      levelRank (RiskAssessment.riskLevel (RiskAssessment.assessRisk i1))
      <= levelRank (RiskAssessment.riskLevel (RiskAssessment.assessRisk i2))).
Proof.
  destruct Hsevere as (Hc & Hl & Hs & Hf & Hh).
  assert (Hscore : RiskAssessment.riskScore (RiskAssessment.assessRisk i1)
                   <= RiskAssessment.riskScore (RiskAssessment.assessRisk i2)).
  { rewrite !assessRisk_score.
    assert (RiskAssessment.hopeFactor (RiskAssessment.hopeLevel i1)
            <= RiskAssessment.hopeFactor (RiskAssessment.hopeLevel i2)).
    { unfold RiskAssessment.hopeFactor.
      pose proof (Z.div_le_mono _ _ 2 ltac:(lia) Hh). lia. }
    pose proof (weights_monotone i1 i2 Hc Hl Hs Hf). lia. }
  split; [exact Hscore|].
  intros Hhope.
  rewrite !assessRisk_level.
  assert (H1 : 0 <= RiskAssessment.hopeLevel i1) by lia.
  pose proof (structured_score_range i1 H1) as B1.
  pose proof (structured_score_range i2 Hhope) as B2.
  destruct (bandLevel_cases (RiskAssessment.riskScore (RiskAssessment.assessRisk i1)))
    as [[? ->]|[[? ->]|[[? ->]|[[? ->]|[? ->]]]]];
    destruct (bandLevel_cases (RiskAssessment.riskScore (RiskAssessment.assessRisk i2)))
    as [[? ->]|[[? ->]|[[? ->]|[[? ->]|[? ->]]]]];
    simpl; lia.
Qed.

Lemma more_severe_answers_never_rate_lower_witness :
  atLeastAsSevere
    (answers Crop.good Loan.low Sleep.fair Family.strong 8 None)
    (answers Crop.poor Loan.high Sleep.poor Family.weak 3 None)
  /\ RiskAssessment.riskScore
       (RiskAssessment.assessRisk
          (answers Crop.good Loan.low Sleep.fair Family.strong 8 None))
     <= RiskAssessment.riskScore
          (RiskAssessment.assessRisk
             (answers Crop.poor Loan.high Sleep.poor Family.weak 3 None))
  /\ levelRank (RiskAssessment.riskLevel
                 (RiskAssessment.assessRisk
                    (answers Crop.good Loan.low Sleep.fair Family.strong 8 None)))
     <= levelRank (RiskAssessment.riskLevel
                    (RiskAssessment.assessRisk
                       (answers Crop.poor Loan.high Sleep.poor Family.weak 3 None))).
Proof.
  assert (Hsevere : atLeastAsSevere
                      (answers Crop.good Loan.low Sleep.fair Family.strong 8 None)
                      (answers Crop.poor Loan.high Sleep.poor Family.weak 3 None))
    by (unfold atLeastAsSevere; simpl; lia).
  assert (Hhope : 0 <= 3) by lia.
  destruct (more_severe_answers_never_rate_lower _ _ Hsevere) as [Hscore Hlevel].
  split; [exact Hsevere|]. split; [exact Hscore | exact (Hlevel Hhope)].
Defined.

Section CriticalFactorFacts.
Import RiskAssessment.

(** The tags as five independent flags. *)
Lemma identifyCriticalFactors_flags (input : RiskAssessmentInput) :
  identifyCriticalFactors input
  = tagIf (3 <=? RISK_WEIGHTS_crop (cropCondition input)) "crop_poor"
    ++ tagIf (3 <=? RISK_WEIGHTS_loan (loanPressure input)) "loan_high"
    ++ tagIf (3 <=? RISK_WEIGHTS_sleep (sleepQuality input)) "sleep_poor"
    ++ tagIf (3 <=? RISK_WEIGHTS_family (familySupport input)) "family_weak"
    ++ tagIf (hopeLevel input <=? 4) "hope_low".
Proof.
  unfold identifyCriticalFactors.
  destruct (hopeLevel input <=? 4), (cropCondition input), (loanPressure input),
    (sleepQuality input), (familySupport input); reflexivity.
Qed.

Lemma tags_of_flags (c l s f h : bool) :
  let tags :=
    tagIf c "crop_poor" ++ tagIf l "loan_high" ++ tagIf s "sleep_poor"
    ++ tagIf f "family_weak" ++ tagIf h "hope_low" in
  tags = List.filter (fun tag => existsb (String.eqb tag) tags)
           ["crop_poor"; "loan_high"; "sleep_poor"; "family_weak"; "hope_low"]
  /\ NoDup tags
  /\ (In "crop_poor" tags <-> c = true)
  /\ (In "loan_high" tags <-> l = true)
  /\ (In "sleep_poor" tags <-> s = true)
  /\ (In "family_weak" tags <-> f = true)
  /\ (In "hope_low" tags <-> h = true).
Proof.
  destruct c, l, s, f, h; cbv zeta; cbn [tagIf app];
    (split; [vm_compute; reflexivity|]);
    (split; [apply (bool_decide_unpack _); vm_compute; exact I|]);
    repeat split; intros; try reflexivity; try discriminate;
      try (cbn; tauto); cbn in *; intuition discriminate.
Qed.

End CriticalFactorFacts.

(** X3: the critical factors of an assessment are distinct tags, listed
    in the fixed order crop_poor, loan_high, sleep_poor, family_weak,
    hope_low.  A categorical tag is present exactly when the weight of
    its answer is at least 3; hope_low is present exactly when the hope
    level is at most 4, in which case the hope factor is at least 3 (the
    converse fails at hope level 5). *)
Theorem critical_factors_characterised (input : RiskAssessment.RiskAssessmentInput) :
  let tags := RiskAssessment.criticalFactors (RiskAssessment.assessRisk input) in
  let factors := RiskAssessment.factors (RiskAssessment.assessRisk input) in
  tags = List.filter (fun tag => existsb (String.eqb tag) tags)
           ["crop_poor"; "loan_high"; "sleep_poor"; "family_weak"; "hope_low"]
  /\ NoDup tags
  /\ (In "crop_poor" tags <-> 3 <= RiskAssessment.crop factors)
  /\ (In "loan_high" tags <-> 3 <= RiskAssessment.loan factors)
  /\ (In "sleep_poor" tags <-> 3 <= RiskAssessment.sleep factors)
  /\ (In "family_weak" tags <-> 3 <= RiskAssessment.family factors)
  /\ (In "hope_low" tags <-> RiskAssessment.hopeLevel input <= 4)
  /\ (In "hope_low" tags -> 3 <= RiskAssessment.hope factors).
Proof.
  cbv zeta.
  change (RiskAssessment.criticalFactors (RiskAssessment.assessRisk input))
    with (RiskAssessment.identifyCriticalFactors input).
  rewrite identifyCriticalFactors_flags.
  change (RiskAssessment.crop (RiskAssessment.factors (RiskAssessment.assessRisk input)))
    with (RiskAssessment.RISK_WEIGHTS_crop (RiskAssessment.cropCondition input)).
  change (RiskAssessment.loan (RiskAssessment.factors (RiskAssessment.assessRisk input)))
    with (RiskAssessment.RISK_WEIGHTS_loan (RiskAssessment.loanPressure input)).
  change (RiskAssessment.sleep (RiskAssessment.factors (RiskAssessment.assessRisk input)))
    with (RiskAssessment.RISK_WEIGHTS_sleep (RiskAssessment.sleepQuality input)).
  change (RiskAssessment.family (RiskAssessment.factors (RiskAssessment.assessRisk input)))
    with (RiskAssessment.RISK_WEIGHTS_family (RiskAssessment.familySupport input)).
  change (RiskAssessment.hope (RiskAssessment.factors (RiskAssessment.assessRisk input)))
    with (RiskAssessment.hopeFactor (RiskAssessment.hopeLevel input)).
  pose proof (tags_of_flags
                (3 <=? RiskAssessment.RISK_WEIGHTS_crop (RiskAssessment.cropCondition input))
                (3 <=? RiskAssessment.RISK_WEIGHTS_loan (RiskAssessment.loanPressure input))
                (3 <=? RiskAssessment.RISK_WEIGHTS_sleep (RiskAssessment.sleepQuality input))
                (3 <=? RiskAssessment.RISK_WEIGHTS_family (RiskAssessment.familySupport input))
                (RiskAssessment.hopeLevel input <=? 4))
    as (Hfilter & Hnodup & Hc & Hl & Hs & Hf & Hh).
  rewrite Z.leb_le in Hc, Hl, Hs, Hf, Hh.
  repeat (split; [assumption|]).
  intros Hin. apply Hh in Hin. unfold RiskAssessment.hopeFactor.
  pose proof (Z.div_lt_upper_bound (RiskAssessment.hopeLevel input) 2 3 ltac:(lia)). lia.
Qed.

(* ================================================================= *)
(** ** More on the sentiment analyzer *)

Section RoundingFacts.

Lemma round_ge (x : Q) (z : Z) : (inject_Z z <= x + (1 # 2))%Q -> z <= Js.round x.
Proof.
  intros H. unfold Js.round. rewrite <- (Qfloor_Z z). now apply Qfloor_resp_le.
Qed.

Lemma round_lt (x : Q) (z : Z) : (x + (1 # 2) < inject_Z z)%Q -> Js.round x < z.
Proof.
  intros H. unfold Js.round.
  pose proof (Qfloor_le (x + (1 # 2))) as Hf.
  rewrite Zlt_Qlt. eapply Qle_lt_trans; eassumption.
Qed.

Lemma round_between (x : Q) (a b : Z) :
  (inject_Z a <= x <= inject_Z b)%Q -> a <= Js.round x <= b.
Proof.
  intros [Ha Hb]. split.
  - apply round_ge. lra.
  - assert (Js.round x < b + 1); [|lia].
    apply round_lt. rewrite inject_Z_plus. change (inject_Z 1) with 1%Q. lra.
Qed.

Lemma hundredths_le (a b : Z) : a <= b -> (inject_Z a / 100 <= inject_Z b / 100)%Q.
Proof.
  intros H. unfold Qle, Qdiv, Qmult, Qinv, inject_Z; cbn [Qnum Qden Pos.mul]. lia.
Qed.

Lemma ratio_bounds (p n t : Z) :
  0 < t -> 0 <= p -> 0 <= n -> p + n <= t ->
  (-1 <= inject_Z (p + n * -1) / inject_Z t <= 1)%Q.
Proof.
  intros Ht Hp Hn Hs.
  assert (0 < inject_Z t)%Q by (unfold Qlt, inject_Z; simpl; lia).
  split.
  - apply Qle_shift_div_l; [assumption|].
    unfold Qle, Qmult, inject_Z; cbn [Qnum Qden Pos.mul]. lia.
  - apply Qle_shift_div_r; [assumption|].
    unfold Qle, Qmult, inject_Z; cbn [Qnum Qden Pos.mul]. lia.
Qed.

Lemma Qltb_lt (x y : Q) : Sentiment.Qltb x y = true <-> (x < y)%Q.
Proof.
  unfold Sentiment.Qltb. rewrite negb_true_iff, <- not_true_iff_false, Qle_bool_iff.
  split; [apply Qnot_le_lt | apply Qlt_not_le].
Qed.

Lemma Qltb_ge (x y : Q) : Sentiment.Qltb x y = false <-> (y <= x)%Q.
Proof.
  unfold Sentiment.Qltb. now rewrite negb_false_iff, Qle_bool_iff.
Qed.

End RoundingFacts.

Section SentimentBounds.
Import Sentiment.

(** Score, label and confidence of a result built from found words. *)
Lemma sentimentOf_bounds (foundCritical foundNegative foundPositive : list string) :
  let r := sentimentOf foundCritical foundNegative foundPositive in
  (-1 <= score r <= 1)%Q
  /\ (1 # 5 <= confidence r <= 1)%Q
  /\ (label r = negative -> (score r <= - (3 # 10))%Q)
  /\ (label r = positive -> (3 # 10 <= score r)%Q)
  /\ (label r = neutral -> (- (3 # 10) <= score r <= 3 # 10)%Q)
  /\ (foundCritical <> [] -> label r = negative /\ (score r == -1)%Q).
Proof.
  cbv zeta. unfold sentimentOf. cbn [score label confidence].
  set (c := length foundCritical). set (n := length foundNegative).
  set (p := length foundPositive).
  set (s := if (0 <? c)%nat then (-1)%Q
            else if (0 <? n + p + c)%nat
                 then (inject_Z (Z.of_nat p + Z.of_nat n * -1)
                       / inject_Z (Z.of_nat (n + p + c)))%Q
                 else 0%Q).
  assert (Hs : (-1 <= s <= 1)%Q).
  { subst s. destruct (0 <? c)%nat; [lra|].
    destruct (Nat.ltb_spec 0 (n + p + c)); [|lra].
    apply ratio_bounds; lia. }
  assert (Hround : forall a b : Z,
             (inject_Z a <= s * 100 <= inject_Z b)%Q ->
             (inject_Z a / 100 <= inject_Z (Js.round (s * 100)) / 100
              <= inject_Z b / 100)%Q).
  { intros a b Hab. apply round_between in Hab.
    split; apply hundredths_le; lia. }
  split.
  { destruct (Hround (-100) 100) as [Hlo Hhi].
    { change (inject_Z (-100)) with (-100)%Q. change (inject_Z 100) with 100%Q. lra. }
    split.
    - eapply Qle_trans; [|exact Hlo]. unfold Qle; simpl; lia.
    - eapply Qle_trans; [exact Hhi|]. unfold Qle; simpl; lia. }
  split.
  { set (conf := Qmin 1 (inject_Z (Z.of_nat (n + p + c)) / 5 * (8 # 10) + (2 # 10))).
    assert (Hc : (1 # 5 <= conf <= 1)%Q).
    { subst conf. split; [|apply Q.le_min_l].
      apply Q.min_glb; [lra|].
      assert (0 <= inject_Z (Z.of_nat (n + p + c)))%Q
        by (unfold Qle, inject_Z; simpl; lia).
      unfold Qdiv. change (/ 5)%Q with (1 # 5)%Q. lra. }
    assert (20 <= Js.round (conf * 100) <= 100) as [H20 H100].
    { apply round_between. change (inject_Z 20) with 20%Q.
      change (inject_Z 100) with 100%Q. lra. }
    split.
    - apply (hundredths_le 20) in H20.
      eapply Qle_trans; [|exact H20]. unfold Qle; simpl; lia.
    - apply (hundredths_le _ 100) in H100.
      eapply Qle_trans; [exact H100|]. unfold Qle; simpl; lia. }
  split.
  { destruct (Qltb s (- (3 # 10))) eqn:Hneg.
    - intros _. apply Qltb_lt in Hneg.
      apply (Qle_trans _ (inject_Z (-30) / 100)); [|unfold Qle; simpl; lia].
      apply hundredths_le.
      assert (Js.round (s * 100) < -29); [|lia].
      apply round_lt. change (inject_Z (-29)) with (-29)%Q. lra.
    - destruct (Qltb (3 # 10) s); discriminate. }
  split.
  { destruct (Qltb s (- (3 # 10))) eqn:Hneg; [discriminate|].
    destruct (Qltb (3 # 10) s) eqn:Hpos; [|discriminate].
    intros _. apply Qltb_lt in Hpos.
    apply (Qle_trans _ (inject_Z 30 / 100)); [unfold Qle; simpl; lia|].
    apply hundredths_le. apply round_ge. change (inject_Z 30) with 30%Q. lra. }
  split.
  { destruct (Qltb s (- (3 # 10))) eqn:Hneg; [discriminate|].
    destruct (Qltb (3 # 10) s) eqn:Hpos; [discriminate|].
    intros _. apply Qltb_ge in Hneg, Hpos.
    destruct (Hround (-30) 30) as [Hlo Hhi].
    { change (inject_Z (-30)) with (-30)%Q. change (inject_Z 30) with 30%Q. lra. }
    split.
    - eapply Qle_trans; [|exact Hlo]. unfold Qle; simpl; lia.
    - eapply Qle_trans; [exact Hhi|]. unfold Qle; simpl; lia. }
  intros Hfound.
  assert (Hc : (0 <? c)%nat = true).
  { subst c. destruct foundCritical; [congruence|reflexivity]. }
  subst s. rewrite Hc. split; reflexivity.
Qed.

End SentimentBounds.

Section LanguageFacts.
Context {R : Js.Runtime}.
Import Sentiment.

(** No member of [Object.prototype] is named like a language. *)
Lemma inheritedKey_unsupported (lang : string) :
  inheritedKey lang = true ->
  String.eqb "mr" lang = false /\ String.eqb "hi" lang = false
  /\ String.eqb "en" lang = false.
Proof.
  unfold inheritedKey. intros H.
  apply existsb_exists in H as (key & Hin & Heq).
  apply String.eqb_eq in Heq. subst key.
  cbn in Hin.
  repeat (destruct Hin as [<-|Hin]; [repeat split; reflexivity|]).
  destruct Hin.
Qed.

(** The word list a language selects in a dictionary. *)
Lemma wordsFor_spec (d : Dictionary) (lang : string) :
  wordsFor d lang
  = if String.eqb "mr" lang then Js.Ok (mr d)
    else if String.eqb "hi" lang then Js.Ok (hi d)
    else if String.eqb "en" lang then Js.Ok (en d)
    else if inheritedKey lang then Js.Throw Js.TypeError
    else Js.Ok (mr d).
Proof.
  unfold wordsFor, lookup, Js.get, inheritedKey; cbn [Js.assoc].
  destruct (String.eqb "mr" lang); [reflexivity|].
  destruct (String.eqb "hi" lang); [reflexivity|].
  destruct (String.eqb "en" lang); [reflexivity|].
  destruct (existsb (String.eqb lang) Js.objectPrototypeKeys); reflexivity.
Qed.

Lemma wordsFor_inherited (d : Dictionary) (lang : string) :
  inheritedKey lang = true -> wordsFor d lang = Js.Throw Js.TypeError.
Proof.
  intros H. rewrite wordsFor_spec.
  destruct (inheritedKey_unsupported lang H) as (-> & -> & ->). now rewrite H.
Qed.

Lemma wordsFor_own (d : Dictionary) (lang : string) :
  inheritedKey lang = false -> exists words, wordsFor d lang = Js.Ok words.
Proof.
  intros H. rewrite wordsFor_spec, H.
  destruct (String.eqb "mr" lang), (String.eqb "hi" lang), (String.eqb "en" lang); eauto.
Qed.

Lemma wordsFor_fallback (d : Dictionary) (lang : string) :
  supportedLanguage lang = false -> inheritedKey lang = false ->
  wordsFor d lang = Js.Ok (mr d).
Proof.
  unfold supportedLanguage. intros Hs Hi.
  apply orb_false_iff in Hs as [Hs Hen]. apply orb_false_iff in Hs as [Hmr Hhi].
  rewrite wordsFor_spec, Hi.
  rewrite (String.eqb_sym "mr"), (String.eqb_sym "hi"), (String.eqb_sym "en").
  now rewrite Hmr, Hhi, Hen.
Qed.

(** The result for a text that passes the blank guard, from the three
    word lists of the language. *)
Lemma analyzeSentiment_found (text language : string)
    (criticalWords negativeWords positiveWords : list string) :
  isBlank text = false ->
  wordsFor CRITICAL_INDICATORS (orMr language) = Js.Ok criticalWords ->
  wordsFor NEGATIVE_KEYWORDS (orMr language) = Js.Ok negativeWords ->
  wordsFor POSITIVE_KEYWORDS (orMr language) = Js.Ok positiveWords ->
  analyzeSentiment text language
  = Js.Ok (sentimentOf (matchedPhrases text criticalWords)
             (matchedPhrases text negativeWords) (matchedPhrases text positiveWords)).
Proof.
  intros Hblank Hc Hn Hp.
  unfold analyzeSentiment. rewrite Hblank, Hc, Hn, Hp.
  cbn [mbind Js.Outcome_bind mret Js.Outcome_ret].
  rewrite !scan_matched. reflexivity.
Qed.

(** Every result is the neutral one of a blank text or built from the
    words found. *)
Lemma analyzeSentiment_result (text language : string) (r : SentimentResult) :
  analyzeSentiment text language = Js.Ok r ->
  (isBlank text = true
   /\ r = {| score := 0%Q; label := neutral; confidence := 1%Q;
             keywords := []; riskIndicators := [] |})
  \/ (isBlank text = false
      /\ exists criticalWords negativeWords positiveWords,
           wordsFor CRITICAL_INDICATORS (orMr language) = Js.Ok criticalWords
           /\ r = sentimentOf (matchedPhrases text criticalWords)
                    (matchedPhrases text negativeWords)
                    (matchedPhrases text positiveWords)).
Proof.
  intros Hr.
  destruct (isBlank text) eqn:Hblank.
  - left. rewrite (analyzeSentiment_blank _ _ Hblank) in Hr.
    split; [reflexivity | congruence].
  - right. split; [reflexivity|].
    destruct (inheritedKey (orMr language)) eqn:Hkey.
    + unfold analyzeSentiment in Hr.
      rewrite Hblank, (wordsFor_inherited CRITICAL_INDICATORS _ Hkey) in Hr.
      cbn [mbind Js.Outcome_bind] in Hr. discriminate Hr.
    + destruct (wordsFor_own CRITICAL_INDICATORS _ Hkey) as [cw Hc].
      destruct (wordsFor_own NEGATIVE_KEYWORDS _ Hkey) as [nw Hn].
      destruct (wordsFor_own POSITIVE_KEYWORDS _ Hkey) as [pw Hp].
      rewrite (analyzeSentiment_found _ _ _ _ _ Hblank Hc Hn Hp) in Hr.
      exists cw, nw, pw. split; [exact Hc | congruence].
Qed.

End LanguageFacts.

Section ResultBounds.
Context {R : Js.Runtime}.

(** What the risk analysis uses of a sentiment result. *)
Lemma sentiment_bounds_of_result (text language : string)
    (r : Sentiment.SentimentResult) :
  Sentiment.analyzeSentiment text language = Js.Ok r ->
  (-1 <= Sentiment.score r <= 1)%Q
  /\ (Sentiment.riskIndicators r <> [] -> Sentiment.label r = Sentiment.negative).
Proof.
  intros Hresult.
  destruct (analyzeSentiment_result text language r Hresult)
    as [[_ ->]|[_ (cw & nw & pw & _ & ->)]].
  - cbn. split; [split; unfold Qle; simpl; lia | congruence].
  - pose proof (sentimentOf_bounds (matchedPhrases text cw) (matchedPhrases text nw)
                  (matchedPhrases text pw)) as (Hs & _ & _ & _ & _ & Hcrit).
    split; [exact Hs|]. intros Hne. now apply Hcrit.
Qed.

End ResultBounds.

(** X4: [analyzeSentiment] throws exactly when the text passes the
    blank guard and the language, after the Marathi default for an empty
    one, names a member of [Object.prototype]; what it throws is a
    TypeError; in every other case, blank text included, it returns a
    result. *)
Theorem analyzeSentiment_throws_exactly {R : Js.Runtime} (text language : string) :
  (Sentiment.analyzeSentiment text language = Js.Throw Js.TypeError
   <-> Sentiment.isBlank text = false
       /\ inheritedKey (Sentiment.orMr language) = true)
  /\ (forall e, Sentiment.analyzeSentiment text language = Js.Throw e -> e = Js.TypeError)
  /\ ((exists r, Sentiment.analyzeSentiment text language = Js.Ok r)
      <-> Sentiment.isBlank text = true
          \/ inheritedKey (Sentiment.orMr language) = false).
Proof.
  assert (Hthrow : Sentiment.isBlank text = false ->
                   inheritedKey (Sentiment.orMr language) = true ->
                   Sentiment.analyzeSentiment text language = Js.Throw Js.TypeError).
  { intros Hblank Hkey. unfold Sentiment.analyzeSentiment.
    now rewrite Hblank, (wordsFor_inherited Sentiment.CRITICAL_INDICATORS _ Hkey). }
  assert (Hok : Sentiment.isBlank text = true
                \/ inheritedKey (Sentiment.orMr language) = false ->
                exists r, Sentiment.analyzeSentiment text language = Js.Ok r).
  { intros [Hblank|Hkey].
    - rewrite (analyzeSentiment_blank _ _ Hblank). eauto.
    - destruct (Sentiment.isBlank text) eqn:Hblank.
      + rewrite (analyzeSentiment_blank _ _ Hblank). eauto.
      + destruct (wordsFor_own Sentiment.CRITICAL_INDICATORS _ Hkey) as [cw Hc].
        destruct (wordsFor_own Sentiment.NEGATIVE_KEYWORDS _ Hkey) as [nw Hn].
        destruct (wordsFor_own Sentiment.POSITIVE_KEYWORDS _ Hkey) as [pw Hp].
        rewrite (analyzeSentiment_found _ _ _ _ _ Hblank Hc Hn Hp). eauto. }
  split; [|split].
  - split; [|intros [? ?]; auto].
    intros Hrun.
    destruct (Sentiment.isBlank text) eqn:Hblank;
      destruct (inheritedKey (Sentiment.orMr language)) eqn:Hkey; auto;
      destruct Hok as [r Hr]; auto; congruence.
  - apply analyzeSentiment_throws.
  - split; [|exact Hok].
    intros [r Hr].
    destruct (Sentiment.isBlank text) eqn:Hblank; [now left|right].
    destruct (inheritedKey (Sentiment.orMr language)) eqn:Hkey; [|reflexivity].
    rewrite (Hthrow eq_refl eq_refl) in Hr. discriminate Hr.
Qed.

(** X5: a language that is neither mr, hi nor en, and names no member
    of [Object.prototype], is analysed with the Marathi dictionaries: the
    result is the result for "mr", for the sentiment and for the risk
    analysis of a check-in. *)
Theorem unsupported_language_is_analysed_as_marathi {R : Js.Runtime}
    (text language : string) (hopeLevel : Z) (notes : option string)
    (Hunsupported : supportedLanguage language = false)
    (Hkey : inheritedKey language = false) :
  Sentiment.analyzeSentiment text language = Sentiment.analyzeSentiment text "mr"
  /\ Sentiment.analyzeRiskFromCheckIn hopeLevel notes language
     = Sentiment.analyzeRiskFromCheckIn hopeLevel notes "mr".
Proof.
  assert (Hs : forall t, Sentiment.analyzeSentiment t language
                         = Sentiment.analyzeSentiment t "mr").
  { intros t. unfold Sentiment.analyzeSentiment.
    destruct (Sentiment.isBlank t); [reflexivity|].
    assert (Hwords : forall d, Sentiment.wordsFor d (Sentiment.orMr language)
                               = Sentiment.wordsFor d (Sentiment.orMr "mr")).
    { intros d. unfold Sentiment.orMr at 1.
      destruct (String.eqb language EmptyString); [reflexivity|].
      now rewrite (wordsFor_fallback d language Hunsupported Hkey). }
    now rewrite !Hwords. }
  split; [apply Hs|].
  unfold Sentiment.analyzeRiskFromCheckIn.
  destruct notes as [t|]; [|reflexivity]. now rewrite Hs.
Qed.

Lemma unsupported_language_is_analysed_as_marathi_witness :
  supportedLanguage "te" = false
  /\ inheritedKey "te" = false
  /\ @Sentiment.analyzeSentiment Js.utf8 "मला खूप चिंता वाटते" "te"
     = @Sentiment.analyzeSentiment Js.utf8 "मला खूप चिंता वाटते" "mr".
Proof.
  split; [reflexivity|]. split; [reflexivity|].
  exact (proj1 (@unsupported_language_is_analysed_as_marathi Js.utf8
                  "मला खूप चिंता वाटते" "te" 5 None eq_refl eq_refl)).
Defined.

(** X6: every result of [analyzeSentiment] has a score between -1 and
    1 and a confidence between 0.2 and 1; a negative label comes with a
    score of at most -0.3, a positive label with a score of at least 0.3,
    a neutral label with a score between them; and a result that reports
    risk indicators is labelled negative. *)
Theorem sentiment_result_bounds {R : Js.Runtime}
    (text language : string) (r : Sentiment.SentimentResult)
    (Hresult : Sentiment.analyzeSentiment text language = Js.Ok r) :
  (-1 <= Sentiment.score r <= 1)%Q
  /\ (1 # 5 <= Sentiment.confidence r <= 1)%Q
  /\ (Sentiment.label r = Sentiment.negative -> (Sentiment.score r <= - (3 # 10))%Q)
  /\ (Sentiment.label r = Sentiment.positive -> (3 # 10 <= Sentiment.score r)%Q)
  /\ (Sentiment.label r = Sentiment.neutral
      -> (- (3 # 10) <= Sentiment.score r <= 3 # 10)%Q)
  /\ (Sentiment.riskIndicators r <> [] -> Sentiment.label r = Sentiment.negative).
Proof.
  destruct (analyzeSentiment_result text language r Hresult)
    as [[_ ->]|[_ (cw & nw & pw & _ & ->)]].
  - cbn. repeat split; try discriminate; try congruence; unfold Qle; simpl; lia.
  - pose proof (sentimentOf_bounds (matchedPhrases text cw) (matchedPhrases text nw)
                  (matchedPhrases text pw)) as (Hs & Hc & Hn & Hp & Hz & Hcrit).
    repeat (split; [assumption|]).
    intros Hne. now apply Hcrit.
Qed.

Lemma sentiment_result_bounds_witness :
  exists r,
    @Sentiment.analyzeSentiment Js.utf8 "I am tired and alone but have hope" "en" = Js.Ok r
    /\ Sentiment.label r = Sentiment.negative
    /\ (Sentiment.score r <= - (3 # 10))%Q.
Proof.
  eexists. split; [vm_compute; reflexivity|]. split; [reflexivity|].
  refine (proj1 (proj2 (proj2
    (@sentiment_result_bounds Js.utf8 "I am tired and alone but have hope" "en" _ _))) _).
  - vm_compute. reflexivity.
  - reflexivity.
Defined.

(* ================================================================= *)
(** ** More on the AI analysis *)

Section RiskAnalysisCases.
Context {R : Js.Runtime}.
Import Sentiment.

(** The tags of the analysis are not dictionary phrases. *)
Lemma critical_words_are_not_tags (lang : string) (words : list string) :
  wordsFor CRITICAL_INDICATORS lang = Js.Ok words ->
  ~ In "very_low_hope" words /\ ~ In "crisis_keywords_detected" words.
Proof.
  rewrite wordsFor_spec.
  destruct (String.eqb "mr" lang); [|destruct (String.eqb "hi" lang);
    [|destruct (String.eqb "en" lang); [|destruct (inheritedKey lang)]]];
    intros [= <-]; split; cbn; intuition discriminate.
Qed.

(** Blank notes count as no notes. *)
Lemma analyzeRisk_blank (hopeLevel : Z) (text language : string) :
  isBlank text = true ->
  analyzeRiskFromCheckIn hopeLevel (Some text) language
  = analyzeRiskFromCheckIn hopeLevel None language.
Proof.
  intros Hblank. unfold analyzeRiskFromCheckIn.
  now rewrite notes_guard, Hblank.
Qed.

(** An analysis either found no crisis phrase, and then carries at most
    the very_low_hope tag and a score of 0..10 plus 15 for a very low
    hope, or found one and has the result of [analyzeRisk_crisis]. *)
Lemma analyzeRisk_cases (hopeLevel : Z) (notes : option string) (language : string)
    (ai : RiskAnalysis) :
  analyzeRiskFromCheckIn hopeLevel notes language = Js.Ok ai ->
  (indicators ai = (if hopeLevel <=? 2 then ["very_low_hope"] else [])
   /\ (if hopeLevel <=? 2 then 15 else 0) <= additionalRiskScore ai
      <= (if hopeLevel <=? 2 then 25 else 10))
  \/ (exists text words,
        notes = Some text /\ isBlank text = false
        /\ wordsFor CRITICAL_INDICATORS (orMr language) = Js.Ok words
        /\ matchedPhrases text words <> []
        /\ ai = {| additionalRiskScore := if hopeLevel <=? 2 then 55 else 40;
                   indicators :=
                     "crisis_keywords_detected" :: matchedPhrases text words
                     ++ (if hopeLevel <=? 2 then ["very_low_hope"] else []) |}).
Proof.
  intros Hai.
  assert (Hquiet : analyzeRiskFromCheckIn hopeLevel None language = Js.Ok ai ->
                   indicators ai = (if hopeLevel <=? 2 then ["very_low_hope"] else [])
                   /\ (if hopeLevel <=? 2 then 15 else 0) <= additionalRiskScore ai
                      <= (if hopeLevel <=? 2 then 25 else 10)).
  { rewrite analyzeRisk_no_notes. intros [= <-]. cbn.
    destruct (hopeLevel <=? 2); split; (reflexivity || lia). }
  destruct notes as [text|]; [|left; auto].
  destruct (isBlank text) eqn:Hblank.
  { left. apply Hquiet. now rewrite <- (analyzeRisk_blank _ text). }
  destruct (analyzeSentiment text language) as [r|e] eqn:Hr.
  2: { unfold analyzeRiskFromCheckIn in Hai.
       rewrite notes_guard, Hblank, Hr in Hai. discriminate Hai. }
  pose proof (sentiment_bounds_of_result text language r Hr) as (Hscore & Hneg).
  destruct (analyzeSentiment_result text language r Hr)
    as [[Habs _]|[_ (cw & nw & pw & Hcw & Hshape)]]; [congruence|].
  destruct (matchedPhrases text cw) as [|phrase phrases] eqn:Hfound.
  - left.
    assert (Hnone : riskIndicators r = []) by (now rewrite Hshape).
    unfold analyzeRiskFromCheckIn in Hai.
    rewrite notes_guard, Hblank, Hr in Hai.
    cbn [negb mbind Js.Outcome_bind mret Js.Outcome_ret] in Hai.
    rewrite Hnone in Hai. cbn [length Nat.ltb Nat.leb app] in Hai.
    assert (Habs : (0 <= Qabs (score r) <= 1)%Q).
    { split; [apply Qabs_nonneg|]. apply Qabs_Qle_condition. exact Hscore. }
    destruct (decide (label r = negative)), (hopeLevel <=? 2);
      injection Hai as <-; cbn [indicators additionalRiskScore app];
      (split; [reflexivity|]); apply round_between;
      repeat match goal with
             | |- context [inject_Z ?z] => change (inject_Z z) with (z # 1)%Q
             end; lra.
  - right. exists text, cw.
    assert (Hne : matchedPhrases text cw <> []) by (rewrite Hfound; discriminate).
    rewrite (analyzeRisk_crisis hopeLevel text language cw Hblank Hcw Hne) in Hai.
    repeat split; try assumption. congruence.
Qed.

End RiskAnalysisCases.

(** X7: an analysis that returns carries the crisis tag exactly when
    the notes pass the blank guard and contain a critical phrase of the
    language; its score is then 40, or 55 when the hope level is at most
    2; without the tag the score is between 0 and 10, or between 15 and
    25 when the hope level is at most 2; and very_low_hope is among the
    indicators exactly when the hope level is at most 2. *)
Theorem ai_score_ranges {R : Js.Runtime}
    (hopeLevel : Z) (notes : option string) (language : string)
    (aiAnalysis : Sentiment.RiskAnalysis)
    (Hresult : Sentiment.analyzeRiskFromCheckIn hopeLevel notes language
               = Js.Ok aiAnalysis) :
  (CheckInService.crisisDetected aiAnalysis = true
   <-> exists text words,
         notes = Some text /\ Sentiment.isBlank text = false
         /\ Sentiment.wordsFor Sentiment.CRITICAL_INDICATORS (Sentiment.orMr language)
            = Js.Ok words
         /\ matchedPhrases text words <> [])
  /\ (CheckInService.crisisDetected aiAnalysis = true ->
      Sentiment.additionalRiskScore aiAnalysis = if hopeLevel <=? 2 then 55 else 40)
  /\ (CheckInService.crisisDetected aiAnalysis = false ->
      (if hopeLevel <=? 2 then 15 else 0) <= Sentiment.additionalRiskScore aiAnalysis
      <= (if hopeLevel <=? 2 then 25 else 10))
  /\ (In "very_low_hope" (Sentiment.indicators aiAnalysis) <-> hopeLevel <= 2).
Proof.
  assert (Hcrisis : forall text words,
            CheckInService.crisisDetected
              {| Sentiment.additionalRiskScore := if hopeLevel <=? 2 then 55 else 40;
                 Sentiment.indicators :=
                   "crisis_keywords_detected" :: matchedPhrases text words
                   ++ (if hopeLevel <=? 2 then ["very_low_hope"] else []) |} = true)
    by reflexivity.
  destruct (analyzeRisk_cases hopeLevel notes language aiAnalysis Hresult)
    as [[Hind Hscore]|(text & words & Hnotes & Hblank & Hwords & Hfound & Hai)].
  - assert (Hquiet : CheckInService.crisisDetected aiAnalysis = false).
    { unfold CheckInService.crisisDetected. rewrite Hind.
      destruct (hopeLevel <=? 2); reflexivity. }
    split; [|split; [|split]].
    + split; [congruence|].
      intros (text & words & -> & Hblank & Hwords & Hfound).
      rewrite (analyzeRisk_crisis hopeLevel text language words Hblank Hwords Hfound)
        in Hresult.
      injection Hresult as <-. now rewrite Hcrisis in Hquiet.
    + congruence.
    + intros _. exact Hscore.
    + rewrite Hind. destruct (Z.leb_spec hopeLevel 2); cbn; [tauto | intuition lia].
  - subst aiAnalysis. split; [|split; [|split]].
    + split; [|intros _; apply Hcrisis]. intros _. exists text, words. auto.
    + intros _. reflexivity.
    + rewrite Hcrisis. discriminate.
    + cbn [Sentiment.indicators].
      destruct (critical_words_are_not_tags _ _ Hwords) as [Hno _].
      assert (Hnot : ~ In "very_low_hope" (matchedPhrases text words)).
      { intros Hin. apply filter_In in Hin. tauto. }
      destruct (Z.leb_spec hopeLevel 2); split; intros H'; try lia.
      * right. apply in_or_app. right. now left.
      * destruct H' as [H'|H']; [discriminate H'|].
        apply in_app_or in H' as [H'|H']; [contradiction | destruct H'].
Qed.

Lemma ai_score_ranges_witness :
  exists aiAnalysis,
    @Sentiment.analyzeRiskFromCheckIn Js.utf8 2 (Some "I am tired and alone") "en"
    = Js.Ok aiAnalysis
    /\ CheckInService.crisisDetected aiAnalysis = false
    /\ 15 <= Sentiment.additionalRiskScore aiAnalysis <= 25.
Proof.
  eexists. split; [vm_compute; reflexivity|]. split; [reflexivity|].
  refine (proj1 (proj2 (proj2
    (@ai_score_ranges Js.utf8 2 (Some "I am tired and alone") "en" _ _))) _).
  - vm_compute. reflexivity.
  - reflexivity.
Defined.

(* ================================================================= *)
(** ** More on the service *)

Section ServiceOutcomes.
Context {R : Js.Runtime}.
Import RiskAssessment CheckInService.

(** An analysis that throws ends the call before any write. *)
Lemma createCheckIn_analysis_throws (farmerId : string) (input : CreateCheckInInput)
    (w : Prisma.World) (e : Js.Exn) :
  Sentiment.analyzeRiskFromCheckIn (hopeLevel input) (notes input)
    (match Prisma.farmers w !! farmerId with
     | Some f => Sentiment.orMr (Prisma.preferredLang f)
     | None => "mr"
     end) = Js.Throw e ->
  createCheckIn farmerId input w = (w, Js.Throw e).
Proof.
  intros Hai. unfold createCheckIn.
  rewrite assessmentInput_eta.
  unfold mbind, Prisma.M_bind, Prisma.farmer_findUnique at 1.
  rewrite Hai. reflexivity.
Qed.

(** Without the farmer's record the final update fails. *)
Lemma createCheckIn_no_farmer (farmerId : string) (input : CreateCheckInInput)
    (w : Prisma.World) (aiAnalysis : Sentiment.RiskAnalysis) :
  Prisma.farmers w !! farmerId = None ->
  Sentiment.analyzeRiskFromCheckIn (hopeLevel input) (notes input) "mr"
  = Js.Ok aiAnalysis ->
  snd (createCheckIn farmerId input w) = Js.Throw Js.RecordNotFound.
Proof.
  intros Hf Hai. unfold createCheckIn.
  rewrite assessmentInput_eta.
  unfold mbind, Prisma.M_bind, Prisma.farmer_findUnique at 1.
  rewrite Hf, Hai. unfold Prisma.lift, Prisma.checkIn_create.
  cbn [Prisma.checkIns Prisma.farmers Prisma.alerts Prisma.clock].
  set (fusion := fuse (assessRisk input) aiAnalysis).
  set (new := checkInData farmerId input fusion (length (Prisma.checkIns w))).
  assert (Hrow : (Prisma.checkIns w ++ [new]) !! Prisma.id new = Some new)
    by (now apply list_lookup_middle).
  destruct (shouldTriggerAlert (levelName (finalRiskLevel fusion))) eqn:Halert.
  - destruct (alert_levels (finalRiskLevel fusion)) as [Htrig Hsev].
    assert (exists severity, getAlertSeverity (levelName (finalRiskLevel fusion))
                             = Some severity) as [severity Hsome].
    { rewrite Htrig in Halert. rewrite Hsev.
      destruct (finalRiskLevel fusion); try discriminate; eauto. }
    erewrite createAlert_run by eassumption.
    cbn [Prisma.checkIns Prisma.farmers Prisma.alerts Prisma.clock Prisma.now
         mret Prisma.M_ret].
    unfold Prisma.farmer_update.
    cbn [Prisma.checkIns Prisma.farmers Prisma.alerts Prisma.clock].
    now rewrite Hf.
  - cbn [Prisma.checkIns Prisma.farmers Prisma.alerts Prisma.clock Prisma.now
         mret Prisma.M_ret].
    unfold Prisma.farmer_update.
    cbn [Prisma.checkIns Prisma.farmers Prisma.alerts Prisma.clock].
    now rewrite Hf.
Qed.

(** A call that returns found the farmer and an analysis. *)
Lemma createCheckIn_returns (farmerId : string) (input : CreateCheckInInput)
    (w w' : Prisma.World) (checkIn : Prisma.CheckIn) (response : CheckInResponse) :
  createCheckIn farmerId input w = (w', Js.Ok (checkIn, response)) ->
  exists f aiAnalysis,
    Prisma.farmers w !! farmerId = Some f
    /\ Sentiment.analyzeRiskFromCheckIn (hopeLevel input) (notes input)
         (Sentiment.orMr (Prisma.preferredLang f)) = Js.Ok aiAnalysis.
Proof.
  intros Hrun.
  destruct (Sentiment.analyzeRiskFromCheckIn (hopeLevel input) (notes input)
              (match Prisma.farmers w !! farmerId with
               | Some f => Sentiment.orMr (Prisma.preferredLang f)
               | None => "mr"
               end)) as [ai|e] eqn:Hai.
  - destruct (Prisma.farmers w !! farmerId) as [f|] eqn:Hf; [eauto|].
    pose proof (createCheckIn_no_farmer farmerId input w ai Hf Hai) as Hno.
    rewrite Hrun in Hno. discriminate Hno.
  - rewrite (createCheckIn_analysis_throws farmerId input w e Hai) in Hrun.
    discriminate Hrun.
Qed.

End ServiceOutcomes.

Section AnalysisOutcomes.
Context {R : Js.Runtime}.
Import Sentiment.

Lemma analyzeSentiment_inherited (text language : string) :
  isBlank text = false -> inheritedKey (orMr language) = true ->
  analyzeSentiment text language = Js.Throw Js.TypeError.
Proof.
  intros Hblank Hkey. unfold analyzeSentiment.
  now rewrite Hblank, (wordsFor_inherited CRITICAL_INDICATORS _ Hkey).
Qed.

Lemma analyzeSentiment_own (text language : string) :
  inheritedKey (orMr language) = false ->
  exists r, analyzeSentiment text language = Js.Ok r.
Proof.
  intros Hkey.
  destruct (isBlank text) eqn:Hblank.
  - rewrite (analyzeSentiment_blank _ _ Hblank). eauto.
  - destruct (wordsFor_own CRITICAL_INDICATORS _ Hkey) as [cw Hc].
    destruct (wordsFor_own NEGATIVE_KEYWORDS _ Hkey) as [nw Hn].
    destruct (wordsFor_own POSITIVE_KEYWORDS _ Hkey) as [pw Hp].
    rewrite (analyzeSentiment_found _ _ _ _ _ Hblank Hc Hn Hp). eauto.
Qed.

(** The analysis of a check-in throws exactly for notes that pass the
    blank guard under a language that names an inherited member. *)
Lemma analyzeRisk_outcome (hopeLevel : Z) (notes : option string) (language : string) :
  ((exists text, notes = Some text /\ isBlank text = false)
   /\ inheritedKey (orMr language) = true
   /\ analyzeRiskFromCheckIn hopeLevel notes language = Js.Throw Js.TypeError)
  \/ (~ ((exists text, notes = Some text /\ isBlank text = false)
         /\ inheritedKey (orMr language) = true)
      /\ exists aiAnalysis,
           analyzeRiskFromCheckIn hopeLevel notes language = Js.Ok aiAnalysis).
Proof.
  destruct notes as [text|].
  2: { right. split; [intros [(t & Ht & _) _]; discriminate Ht|].
       rewrite analyzeRisk_no_notes. eauto. }
  destruct (isBlank text) eqn:Hblank.
  { right. split; [intros [(t & [= <-] & Ht) _]; congruence|].
    rewrite (analyzeRisk_blank _ _ _ Hblank), analyzeRisk_no_notes. eauto. }
  destruct (inheritedKey (orMr language)) eqn:Hkey.
  - left. split; [eauto|]. split; [reflexivity|].
    unfold analyzeRiskFromCheckIn.
    now rewrite notes_guard, Hblank, (analyzeSentiment_inherited _ _ Hblank Hkey).
  - right. split; [intros [_ H]; discriminate H|].
    destruct (analyzeSentiment_own text language Hkey) as [r Hr].
    destruct (analyzeRiskFromCheckIn hopeLevel (Some text) language) as [ai|e] eqn:Hai;
      [eauto|].
    exfalso. unfold analyzeRiskFromCheckIn in Hai.
    rewrite notes_guard, Hblank, Hr in Hai.
    cbn [negb mbind Js.Outcome_bind mret Js.Outcome_ret] in Hai.
    destruct (0 <? length (riskIndicators r))%nat, (decide (label r = negative)),
      (hopeLevel <=? 2); discriminate Hai.
Qed.

End AnalysisOutcomes.

(** X8: a call of [createCheckIn] throws a TypeError exactly when the
    notes pass the blank guard and the farmer's preferred language names
    a member of [Object.prototype], and then the store is left as it was;
    it returns a check-in and a response exactly when this is not the
    case and the farmer is in the store. *)
Theorem createCheckIn_outcomes {R : Js.Runtime}
    (farmerId : string) (input : CheckInService.CreateCheckInInput) (w : Prisma.World) :
  let language :=
    match Prisma.farmers w !! farmerId with
    | Some f => Sentiment.orMr (Prisma.preferredLang f)
    | None => "mr"
    end in
  let analysisThrows :=
    (exists text, RiskAssessment.notes input = Some text
                  /\ Sentiment.isBlank text = false)
    /\ inheritedKey language = true in
  let run := CheckInService.createCheckIn farmerId input w in
  (snd run = Js.Throw Js.TypeError <-> analysisThrows)
  /\ (analysisThrows -> fst run = w)
  /\ ((exists result, snd run = Js.Ok result)
      <-> ~ analysisThrows /\ is_Some (Prisma.farmers w !! farmerId)).
Proof.
  intros language analysisThrows run.
  assert (Hlang : Sentiment.orMr language = language).
  { subst language. destruct (Prisma.farmers w !! farmerId); [|reflexivity].
    apply orMr_idempotent. }
  destruct (analyzeRisk_outcome (RiskAssessment.hopeLevel input)
              (RiskAssessment.notes input) language)
    as [(Hnotes & Hkey & Hthrow)|(Hnot & ai & Hai)];
    rewrite Hlang in *.
  - pose proof (createCheckIn_analysis_throws farmerId input w _ Hthrow) as Hrun.
    fold run in Hrun.
    assert (Hyes : analysisThrows) by (split; assumption).
    split; [|split].
    + rewrite Hrun. tauto.
    + intros _. now rewrite Hrun.
    + rewrite Hrun. split; [intros [result H]; discriminate H | tauto].
  - split; [|split].
    + split; [|tauto]. intros Hrun. exfalso.
      destruct (Prisma.farmers w !! farmerId) as [f|] eqn:Hf.
      * pose proof (createCheckIn_run farmerId input w f ai Hf Hai) as Hok.
        cbv zeta in Hok. fold run in Hok. rewrite Hok in Hrun. discriminate Hrun.
      * pose proof (createCheckIn_no_farmer farmerId input w ai Hf Hai) as Hno.
        fold run in Hno. rewrite Hno in Hrun. discriminate Hrun.
    + tauto.
    + destruct (Prisma.farmers w !! farmerId) as [f|] eqn:Hf.
      * pose proof (createCheckIn_run farmerId input w f ai Hf Hai) as Hok.
        cbv zeta in Hok. fold run in Hok. rewrite Hok.
        split; [intros _; split; [exact Hnot | eauto] | eauto].
      * pose proof (createCheckIn_no_farmer farmerId input w ai Hf Hai) as Hno.
        fold run in Hno. rewrite Hno.
        split; [intros [result H]; discriminate H|].
        intros [_ [f Hsome]]. discriminate Hsome.
Qed.

Section FusionFacts.
Context {R : Js.Runtime}.
Import RiskAssessment CheckInService.

Lemma fuse_score (assessment : RiskAssessmentResult) (aiAnalysis : Sentiment.RiskAnalysis) :
  finalRiskScore (fuse assessment aiAnalysis)
  = if crisisDetected aiAnalysis
    then Z.min 100 (riskScore assessment + Sentiment.additionalRiskScore aiAnalysis + 20)
    else riskScore assessment + Sentiment.additionalRiskScore aiAnalysis.
Proof. unfold fuse. now destruct (crisisDetected aiAnalysis). Qed.

(** The thresholds of the recomputed level. *)
Lemma recalculate_cases (score : Z) :
  (score < 40 /\ recalculate score = LOW)
  \/ (40 <= score < 60 /\ recalculate score = MODERATE)
  \/ (60 <= score < 80 /\ recalculate score = HIGH)
  \/ (80 <= score /\ recalculate score = CRITICAL).
Proof.
  unfold recalculate.
  destruct (Z.leb_spec 80 score); [right; right; right; split; [lia | reflexivity]|].
  destruct (Z.leb_spec 60 score); [right; right; left; split; [lia | reflexivity]|].
  destruct (Z.leb_spec 40 score); [right; left; split; [lia | reflexivity]|].
  left. split; [lia | reflexivity].
Qed.

(** An analysis without the crisis tag. *)
Lemma quiet_analysis (hopeLevel : Z) (notes : option string) (language : string)
    (aiAnalysis : Sentiment.RiskAnalysis) :
  Sentiment.analyzeRiskFromCheckIn hopeLevel notes language = Js.Ok aiAnalysis ->
  crisisDetected aiAnalysis = false ->
  Sentiment.indicators aiAnalysis = (if hopeLevel <=? 2 then ["very_low_hope"] else [])
  /\ (if hopeLevel <=? 2 then 15 else 0) <= Sentiment.additionalRiskScore aiAnalysis
     <= (if hopeLevel <=? 2 then 25 else 10).
Proof.
  intros Hai Hquiet.
  destruct (analyzeRisk_cases hopeLevel notes language aiAnalysis Hai)
    as [H|(text & words & _ & _ & _ & _ & ->)]; [exact H|].
  discriminate Hquiet.
Qed.

(** Everything a returning call did, in terms of the fusion. *)
Lemma createCheckIn_inversion (farmerId : string) (input : CreateCheckInInput)
    (w w' : Prisma.World) (checkIn : Prisma.CheckIn) (response : CheckInResponse) :
  createCheckIn farmerId input w = (w', Js.Ok (checkIn, response)) ->
  exists f aiAnalysis,
    Prisma.farmers w !! farmerId = Some f
    /\ Sentiment.analyzeRiskFromCheckIn (hopeLevel input) (notes input)
         (Sentiment.orMr (Prisma.preferredLang f)) = Js.Ok aiAnalysis
    /\ (let fusion := fuse (assessRisk input) aiAnalysis in
        let alerted := shouldTriggerAlert (levelName (finalRiskLevel fusion)) in
        checkIn = checkInData farmerId input fusion (length (Prisma.checkIns w))
        /\ response = generateResponse (finalRiskLevel fusion) (allCriticalFactors fusion)
        /\ Prisma.farmers w'
           = <[farmerId := farmerActivity (finalRiskLevel fusion) (Prisma.clock w) f]>
               (Prisma.farmers w)
        /\ Prisma.checkIns w'
           = Prisma.checkIns w
             ++ [if alerted then alertFlags (Prisma.counselorId f) checkIn else checkIn]
        /\ Prisma.alerts w'
           = Prisma.alerts w
             ++ (if alerted
                 then alertFor farmerId (length (Prisma.checkIns w))
                        (finalRiskLevel fusion) (Prisma.counselorId f)
                 else [])
        /\ Prisma.clock w' = Prisma.clock w).
Proof.
  intros Hrun.
  destruct (createCheckIn_returns farmerId input w w' checkIn response Hrun)
    as (f & ai & Hf & Hai).
  exists f, ai. split; [exact Hf|]. split; [exact Hai|].
  rewrite (createCheckIn_run farmerId input w f ai Hf Hai) in Hrun.
  injection Hrun as <- <- <-. cbv zeta. repeat split.
Qed.

End FusionFacts.

(** X9: a check-in whose analysis carries no crisis tag, for a farmer
    of the store and a hope level that is not negative, is stored with a
    score of 0..50 and the level LOW or MODERATE, and LOW whenever the
    hope level is above 2; it raises no alert, leaves the alerts and the
    farmer's status as they were, and its response does not show the
    emergency block. *)
Theorem quiet_checkin_raises_no_alert {R : Js.Runtime}
    (farmerId : string) (input : CheckInService.CreateCheckInInput)
    (w : Prisma.World) (f : Prisma.Farmer) (aiAnalysis : Sentiment.RiskAnalysis)
    (Hfarmer : Prisma.farmers w !! farmerId = Some f)
    (Hanalysis :
       Sentiment.analyzeRiskFromCheckIn
         (RiskAssessment.hopeLevel input) (RiskAssessment.notes input)
         (Sentiment.orMr (Prisma.preferredLang f)) = Js.Ok aiAnalysis)
    (Hquiet : CheckInService.crisisDetected aiAnalysis = false)
    (Hhope : 0 <= RiskAssessment.hopeLevel input) :
  exists w' checkIn response,
    CheckInService.createCheckIn farmerId input w = (w', Js.Ok (checkIn, response))
    /\ 0 <= Prisma.riskScore checkIn <= 50
    /\ (Prisma.riskLevel checkIn = LOW \/ Prisma.riskLevel checkIn = MODERATE)
    /\ (2 < RiskAssessment.hopeLevel input -> Prisma.riskLevel checkIn = LOW)
    /\ Prisma.alertTriggered checkIn = false
    /\ Prisma.checkIns w' = Prisma.checkIns w ++ [checkIn]
    /\ Prisma.alerts w' = Prisma.alerts w
    /\ Prisma.status <$> (Prisma.farmers w' !! farmerId) = Some (Prisma.status f)
    /\ CheckInService.showEmergency response = false.
Proof.
  rewrite (createCheckIn_run farmerId input w f aiAnalysis Hfarmer Hanalysis).
  set (fusion := CheckInService.fuse (RiskAssessment.assessRisk input) aiAnalysis).
  destruct (quiet_analysis _ _ _ _ Hanalysis Hquiet) as [_ Hadd].
  pose proof (structured_score_range input Hhope) as Hstruct.
  assert (Hscore : CheckInService.finalRiskScore fusion
                   = RiskAssessment.riskScore (RiskAssessment.assessRisk input)
                     + Sentiment.additionalRiskScore aiAnalysis)
    by (subst fusion; now rewrite fuse_score, Hquiet).
  assert (Hhigh : 2 < RiskAssessment.hopeLevel input ->
                  CheckInService.finalRiskScore fusion < 40).
  { intros H2. rewrite Hscore.
    destruct (Z.leb_spec (RiskAssessment.hopeLevel input) 2); [lia|].
    pose proof (weights_bounded input) as (Hc & Hl & Hs & Hf).
    rewrite assessRisk_score. unfold RiskAssessment.hopeFactor.
    pose proof (Z.div_le_lower_bound (RiskAssessment.hopeLevel input) 2 1). lia. }
  assert (Hrange : 0 <= CheckInService.finalRiskScore fusion <= 50).
  { rewrite Hscore. destruct (RiskAssessment.hopeLevel input <=? 2); lia. }
  assert (Hlevel : CheckInService.finalRiskLevel fusion
                   = CheckInService.recalculate (CheckInService.finalRiskScore fusion))
    by apply fuse_level.
  assert (Hlow : CheckInService.finalRiskLevel fusion = LOW
                 \/ CheckInService.finalRiskLevel fusion = MODERATE).
  { rewrite Hlevel.
    destruct (recalculate_cases (CheckInService.finalRiskScore fusion))
      as [[_ ->]|[[_ ->]|[[? _]|[? _]]]]; auto; lia. }
  assert (Halert : RiskAssessment.shouldTriggerAlert
                     (levelName (CheckInService.finalRiskLevel fusion)) = false)
    by (destruct Hlow as [-> | ->]; reflexivity).
  rewrite Halert.
  eexists _, _, _. split; [reflexivity|].
  cbn [Prisma.riskScore Prisma.riskLevel Prisma.alertTriggered CheckInService.checkInData
       Prisma.checkIns Prisma.alerts Prisma.farmers].
  split; [exact Hrange|]. split; [exact Hlow|].
  split.
  { intros H2. rewrite Hlevel.
    destruct (recalculate_cases (CheckInService.finalRiskScore fusion))
      as [[_ ->]|[[? _]|[[? _]|[? _]]]]; auto; specialize (Hhigh H2); lia. }
  split; [exact Halert|]. split; [reflexivity|].
  split; [now rewrite app_nil_r|].
  split.
  { rewrite lookup_insert_eq. cbn.
    destruct Hlow as [-> | ->]; reflexivity. }
  unfold CheckInService.generateResponse. cbn [CheckInService.showEmergency].
  destruct Hlow as [-> | ->]; reflexivity.
Qed.

Lemma quiet_checkin_raises_no_alert_witness :
  exists w' checkIn response,
    @CheckInService.createCheckIn Js.utf8 "farmer-1"
      (answers Crop.destroyed Loan.severe Sleep.very_poor Family.none 3
         (Some "I am tired and alone"))
      (oneFarmer "en")
    = (w', Js.Ok (checkIn, response))
    /\ Prisma.riskLevel checkIn = LOW
    /\ Prisma.alerts w' = [].
Proof.
  destruct (@quiet_checkin_raises_no_alert Js.utf8 "farmer-1"
              (answers Crop.destroyed Loan.severe Sleep.very_poor Family.none 3
                 (Some "I am tired and alone"))
              (oneFarmer "en")
              {| Prisma.preferredLang := "en";
                 Prisma.counselorId := Some "counselor-1";
                 Prisma.status := "active";
                 Prisma.lastActiveAt := 0 |}
              {| Sentiment.additionalRiskScore := 10;
                 Sentiment.indicators := [] |}
              eq_refl eq_refl eq_refl)
    as (w' & checkIn & response & Hrun & _ & _ & Hlow & _ & _ & Halerts & _).
  - cbn. lia.
  - exists w', checkIn, response.
    split; [exact Hrun|]. split; [apply Hlow; cbn; lia | exact Halerts].
Defined.

(** X10: a check-in of a farmer of the store whose notes contain a
    critical phrase is stored with a score of 60..100 and the level HIGH
    or CRITICAL, whatever the answers; the row is flagged, exactly one
    alert is added, for this row and this farmer, critical from a score
    of 80 and high below, assigned to the farmer's counselor if there is
    one; the row records whether a counselor was found, and the response
    shows the emergency block. *)
Theorem crisis_phrase_always_alerts {R : Js.Runtime}
    (farmerId : string) (input : CheckInService.CreateCheckInInput)
    (w : Prisma.World) (f : Prisma.Farmer) (text : string) (words : list string)
    (Hfarmer : Prisma.farmers w !! farmerId = Some f)
    (Hnotes : RiskAssessment.notes input = Some text)
    (Hblank : Sentiment.isBlank text = false)
    (Hwords : Sentiment.wordsFor Sentiment.CRITICAL_INDICATORS
                (Sentiment.orMr (Prisma.preferredLang f)) = Js.Ok words)
    (Hfound : matchedPhrases text words <> []) :
  exists w' checkIn response stored,
    CheckInService.createCheckIn farmerId input w = (w', Js.Ok (checkIn, response))
    /\ 60 <= Prisma.riskScore checkIn <= 100
    /\ (Prisma.riskLevel checkIn = HIGH \/ Prisma.riskLevel checkIn = CRITICAL)
    /\ Prisma.alertTriggered checkIn = true
    /\ Prisma.alerts w'
       = Prisma.alerts w
         ++ [ {| Prisma.alertFarmerId := farmerId;
                 Prisma.checkInId := Prisma.id checkIn;
                 Prisma.severity :=
                   if 80 <=? Prisma.riskScore checkIn
                   then RiskAssessment.critical else RiskAssessment.high;
                 Prisma.assignedToId := Prisma.counselorId f |} ]
    /\ Prisma.checkIns w' = Prisma.checkIns w ++ [stored]
    /\ Prisma.alertTriggered stored = true
    /\ Prisma.counselorNotified stored
       = Some (CheckInService.truthy (Prisma.counselorId f))
    /\ Prisma.riskScore stored = Prisma.riskScore checkIn
    /\ CheckInService.showEmergency response = true.
Proof.
  assert (Hai := analyzeRisk_crisis (RiskAssessment.hopeLevel input) text
                   (Sentiment.orMr (Prisma.preferredLang f)) words Hblank).
  rewrite orMr_idempotent in Hai. specialize (Hai Hwords Hfound).
  rewrite <- Hnotes in Hai.
  rewrite (createCheckIn_run farmerId input w f _ Hfarmer Hai).
  set (ai := {| Sentiment.additionalRiskScore :=
                  if RiskAssessment.hopeLevel input <=? 2 then 55 else 40;
                Sentiment.indicators :=
                  "crisis_keywords_detected" :: matchedPhrases text words
                  ++ (if RiskAssessment.hopeLevel input <=? 2
                      then ["very_low_hope"] else []) |}).
  set (fusion := CheckInService.fuse (RiskAssessment.assessRisk input) ai).
  assert (Hstruct : 0 <= RiskAssessment.riskScore (RiskAssessment.assessRisk input)).
  { pose proof (weights_bounded input) as (Hc & Hl & Hs & Hf).
    pose proof (hopeFactor_bounds (RiskAssessment.hopeLevel input)) as [Hh _].
    rewrite assessRisk_score. lia. }
  assert (Hrange : 60 <= CheckInService.finalRiskScore fusion <= 100).
  { subst fusion. rewrite fuse_score.
    change (CheckInService.crisisDetected ai) with true.
    cbn [Sentiment.additionalRiskScore ai].
    destruct (RiskAssessment.hopeLevel input <=? 2); lia. }
  assert (Hlevel : CheckInService.finalRiskLevel fusion
                   = CheckInService.recalculate (CheckInService.finalRiskScore fusion))
    by apply fuse_level.
  assert (Hcases :
    (CheckInService.finalRiskLevel fusion = HIGH
     /\ (80 <=? CheckInService.finalRiskScore fusion) = false)
    \/ (CheckInService.finalRiskLevel fusion = CRITICAL
        /\ (80 <=? CheckInService.finalRiskScore fusion) = true)).
  { rewrite Hlevel.
    destruct (recalculate_cases (CheckInService.finalRiskScore fusion))
      as [[? _]|[[? _]|[[? ->]|[? ->]]]]; try lia;
      [left | right]; (split; [reflexivity|]);
      [apply Z.leb_gt | apply Z.leb_le]; lia. }
  eexists _, _, _, _. split; [reflexivity|].
  cbn [Prisma.riskScore Prisma.riskLevel Prisma.alertTriggered Prisma.id
       CheckInService.checkInData Prisma.checkIns Prisma.alerts Prisma.farmers].
  split; [exact Hrange|].
  destruct Hcases as [[Hl Hs]|[Hl Hs]]; rewrite Hl, Hs;
    (split; [auto|]); repeat split.
Qed.

Lemma crisis_phrase_always_alerts_witness :
  exists w' checkIn response,
    @CheckInService.createCheckIn Js.utf8 "farmer-1"
      (answers Crop.excellent Loan.none Sleep.good Family.strong 10
         (Some "मला विष घ्यायचे आहे"))
      (oneFarmer "mr")
    = (w', Js.Ok (checkIn, response))
    /\ Prisma.alertTriggered checkIn = true
    /\ length (Prisma.alerts w') = 1%nat.
Proof.
  destruct (@crisis_phrase_always_alerts Js.utf8 "farmer-1"
              (answers Crop.excellent Loan.none Sleep.good Family.strong 10
                 (Some "मला विष घ्यायचे आहे"))
              (oneFarmer "mr")
              {| Prisma.preferredLang := "mr";
                 Prisma.counselorId := Some "counselor-1";
                 Prisma.status := "active";
                 Prisma.lastActiveAt := 0 |}
              "मला विष घ्यायचे आहे"
              (Sentiment.mr Sentiment.CRITICAL_INDICATORS)
              eq_refl eq_refl eq_refl eq_refl)
    as (w' & checkIn & response & stored & Hrun & _ & _ & Hflag & Halerts & _).
  - vm_compute. discriminate.
  - exists w', checkIn, response.
    split; [exact Hrun|]. split; [exact Hflag|]. now rewrite Halerts.
Defined.

(* ================================================================= *)
(** ** The store across check-ins *)

Section StoreFacts.
Context {R : Js.Runtime}.
Import RiskAssessment CheckInService.

Lemma lookup_snoc_Some {A : Type} (l : list A) (x y : A) (i : nat) :
  (l ++ [x]) !! i = Some y ->
  (i < length l)%nat /\ l !! i = Some y \/ i = length l /\ y = x.
Proof.
  intros H. apply lookup_app_Some in H as [H|[Hge H]].
  - left. split; [eapply lookup_lt_Some; eassumption | exact H].
  - right. destruct (i - length l)%nat as [|k] eqn:Hk; cbn in H; [|discriminate].
    split; [lia | congruence].
Qed.

Lemma alertFor_cases (farmerId : string) (checkInId : nat) (l : RiskLevel)
    (counselorId : option string) :
  shouldTriggerAlert (levelName l) = true ->
  exists severity,
    getAlertSeverity (levelName l) = Some severity
    /\ alertFor farmerId checkInId l counselorId
       = [ {| Prisma.alertFarmerId := farmerId;
              Prisma.checkInId := checkInId;
              Prisma.severity := severity;
              Prisma.assignedToId := counselorId |} ].
Proof.
  unfold alertFor. destruct l; try discriminate; intros _; eauto.
Qed.

End StoreFacts.

(** A store without check-ins is consistent. *)
Lemma oneFarmer_consistent (lang : string) : storeConsistent (oneFarmer lang).
Proof.
  unfold storeConsistent, oneFarmer; cbn.
  split; [intros i row H; destruct i; discriminate H|].
  split; [intros alert []|].
  split; [intros i row H; destruct i; discriminate H | constructor].
Qed.

(** X11: a returning call of [createCheckIn] keeps a consistent store
    consistent (ids are positions, every alert points to a flagged row of
    its farmer with the severity of the row's level, every flagged row
    has an alert, no row has two); it appends one check-in row and at
    most one alert, changes no earlier row or alert, and touches no other
    farmer's record. *)
Theorem createCheckIn_keeps_store_consistent {R : Js.Runtime}
    (farmerId : string) (input : CheckInService.CreateCheckInInput)
    (w w' : Prisma.World) (checkIn : Prisma.CheckIn)
    (response : CheckInService.CheckInResponse)
    (Hstore : storeConsistent w)
    (Hrun : CheckInService.createCheckIn farmerId input w
            = (w', Js.Ok (checkIn, response))) :
  storeConsistent w'
  /\ (exists stored, Prisma.checkIns w' = Prisma.checkIns w ++ [stored]
                     /\ Prisma.id stored = Prisma.id checkIn)
  /\ (exists added, Prisma.alerts w' = Prisma.alerts w ++ added
                    /\ (length added <= 1)%nat)
  /\ (forall other, other <> farmerId ->
        Prisma.farmers w' !! other = Prisma.farmers w !! other).
Proof.
  destruct (createCheckIn_inversion farmerId input w w' checkIn response Hrun)
    as (f & ai & Hf & Hai & Hdone).
  cbv zeta in Hdone.
  destruct Hdone as (Hrow & _ & Hfarmers & Hrows & Halerts & _).
  set (fusion := CheckInService.fuse (RiskAssessment.assessRisk input) ai) in *.
  set (n := length (Prisma.checkIns w)) in *.
  assert (Hid : Prisma.id checkIn = n) by (now rewrite Hrow).
  destruct Hstore as (Hnum & Href & Hflag & Hdup).
  assert (Hold : forall alert, In alert (Prisma.alerts w) ->
                               (Prisma.checkInId alert < n)%nat).
  { intros alert Hin. destruct (Href alert Hin) as (row & Hlook & _).
    eapply lookup_lt_Some; eassumption. }
  destruct (RiskAssessment.shouldTriggerAlert
              (levelName (CheckInService.finalRiskLevel fusion))) eqn:Halerted.
  - destruct (alertFor_cases farmerId n (CheckInService.finalRiskLevel fusion)
                (Prisma.counselorId f) Halerted) as (severity & Hsev & Hfor).
    rewrite Hfor in Halerts.
    split; [|split; [|split]].
    + split; [|split; [|split]].
      * intros i row Hlook. rewrite Hrows in Hlook.
        apply lookup_snoc_Some in Hlook as [[_ Hlook]|[-> ->]]; [now apply Hnum|].
        exact Hid.
      * intros alert Hin. rewrite Halerts in Hin.
        apply in_app_or in Hin as [Hin|[<-|[]]].
        -- destruct (Href alert Hin) as (row & Hlook & Hrest).
           exists row. split; [|exact Hrest].
           rewrite Hrows, lookup_app_l; [exact Hlook|].
           eapply lookup_lt_Some; eassumption.
        -- eexists. split.
           { rewrite Hrows. cbn [Prisma.checkInId]. now apply list_lookup_middle. }
           rewrite Hrow. cbn. repeat split. exact Hsev.
      * intros i row Hlook Htrig. rewrite Hrows in Hlook.
        apply lookup_snoc_Some in Hlook as [[_ Hlook]|[-> _]].
        -- destruct (Hflag i row Hlook Htrig) as (alert & Hin & Hcid).
           exists alert. split; [|exact Hcid].
           rewrite Halerts. apply in_or_app. now left.
        -- eexists. split; [rewrite Halerts; apply in_or_app; right; now left|].
           reflexivity.
      * rewrite Halerts, map_app. cbn [map Prisma.checkInId].
        apply NoDup_app. split; [exact Hdup|]. split; [|apply NoDup_singleton].
        intros i Hi Hn. apply list_elem_of_In in Hi. apply list_elem_of_In in Hn.
        destruct Hn as [<-|[]].
        apply in_map_iff in Hi as (alert & Hcid & Hin).
        specialize (Hold alert Hin). lia.
    + eexists. split; [exact Hrows|]. rewrite Hrow. reflexivity.
    + eexists. split; [exact Halerts|]. cbn. lia.
    + intros other Hne. rewrite Hfarmers. now apply lookup_insert_ne.
  - split; [|split; [|split]].
    + split; [|split; [|split]].
      * intros i row Hlook. rewrite Hrows in Hlook.
        apply lookup_snoc_Some in Hlook as [[_ Hlook]|[-> ->]]; [now apply Hnum|].
        exact Hid.
      * intros alert Hin. rewrite Halerts, app_nil_r in Hin.
        destruct (Href alert Hin) as (row & Hlook & Hrest).
        exists row. split; [|exact Hrest].
        rewrite Hrows, lookup_app_l; [exact Hlook|].
        eapply lookup_lt_Some; eassumption.
      * intros i row Hlook Htrig. rewrite Hrows in Hlook.
        apply lookup_snoc_Some in Hlook as [[_ Hlook]|[-> ->]].
        -- destruct (Hflag i row Hlook Htrig) as (alert & Hin & Hcid).
           exists alert. split; [|exact Hcid]. now rewrite Halerts, app_nil_r.
        -- rewrite Hrow in Htrig. cbn in Htrig. fold fusion in Htrig. congruence.
      * now rewrite Halerts, app_nil_r.
    + eexists. split; [exact Hrows|]. reflexivity.
    + exists []. split; [exact Halerts|]. cbn. lia.
    + intros other Hne. rewrite Hfarmers. now apply lookup_insert_ne.
Qed.

Lemma createCheckIn_keeps_store_consistent_witness :
  storeConsistent (oneFarmer "en")
  /\ exists w' checkIn response,
       @CheckInService.createCheckIn Js.utf8 "farmer-1"
         (answers Crop.poor Loan.high Sleep.poor Family.weak 3 (Some "I bought poison"))
         (oneFarmer "en")
       = (w', Js.Ok (checkIn, response))
       /\ storeConsistent w'.
Proof.
  pose proof (oneFarmer_consistent "en") as Hstore.
  split; [exact Hstore|].
  eassert (Hrun : @CheckInService.createCheckIn Js.utf8 "farmer-1"
                    (answers Crop.poor Loan.high Sleep.poor Family.weak 3
                       (Some "I bought poison"))
                    (oneFarmer "en") = (_, Js.Ok (_, _)))
    by (vm_compute; reflexivity).
  eexists _, _, _. split; [exact Hrun|].
  exact (proj1 (createCheckIn_keeps_store_consistent _ _ _ _ _ _ Hstore Hrun)).
Defined.

Section ReadFacts.
Import CheckInService.

(** In a store whose ids are positions, the owner-scoped read is the
    lookup at the position, filtered by the owner. *)
Lemma getCheckInById_lookup (checkInId : nat) (farmerId : string) (w : Prisma.World) :
  (forall i row, Prisma.checkIns w !! i = Some row -> Prisma.id row = i) ->
  getCheckInById checkInId farmerId w
  = (w, Js.Ok (match Prisma.checkIns w !! checkInId with
               | Some row =>
                   if String.eqb (Prisma.farmerId row) farmerId then Some row else None
               | None => None
               end)).
Proof.
  intros Hnum. unfold getCheckInById, Prisma.checkIn_findFirst. do 2 f_equal.
  set (matching := fun row : Prisma.CheckIn =>
         Nat.eqb (Prisma.id row) checkInId
         && String.eqb (Prisma.farmerId row) farmerId).
  destruct (List.find matching (Prisma.checkIns w)) as [found|] eqn:Hfind.
  - apply find_some in Hfind as [Hin Hmatch].
    apply andb_true_iff in Hmatch as [Hid Hfarmer]. apply Nat.eqb_eq in Hid.
    apply list_elem_of_In, list_elem_of_lookup_1 in Hin as [j Hj].
    rewrite (Hnum j found Hj) in Hid. subst j.
    now rewrite Hj, Hfarmer.
  - destruct (Prisma.checkIns w !! checkInId) as [row|] eqn:Hrow; [|reflexivity].
    destruct (String.eqb (Prisma.farmerId row) farmerId) eqn:Hfarmer; [|reflexivity].
    pose proof (find_none _ _ Hfind row) as Hnone.
    assert (Hin : In row (Prisma.checkIns w))
      by (eapply list_elem_of_In, list_elem_of_lookup_2; eassumption).
    specialize (Hnone Hin). subst matching. cbn in Hnone.
    rewrite (Hnum _ _ Hrow), Nat.eqb_refl, Hfarmer in Hnone. discriminate Hnone.
Qed.

End ReadFacts.

(** The store of the two check-ins is consistent. *)
Lemma sharedStore_consistent : storeConsistent sharedStore.
Proof.
  unfold storeConsistent.
  eassert (Hrows : Prisma.checkIns sharedStore = [_; _]) by (vm_compute; reflexivity).
  eassert (Halerts : Prisma.alerts sharedStore = [_]) by (vm_compute; reflexivity).
  rewrite Hrows, Halerts.
  split; [|split; [|split]].
  - intros [|[|i]] row H; cbn in H; [injection H as <-; reflexivity ..| discriminate H].
  - intros alert [<-|[]]. eexists. cbn. repeat split.
  - intros [|[|i]] row H; cbn in H; [injection H as <- ..| discriminate H]; intros Hflag.
    + eexists. split; [now left | reflexivity].
    + discriminate Hflag.
  - cbn. apply NoDup_singleton.
Qed.

(** X12: [getCheckInById] never writes to the store and never throws;
    in a consistent store it returns a row exactly when the row at that
    id belongs to the asking farmer, and null for an unknown id or for
    another farmer's check-in. *)
Theorem getCheckInById_is_owner_scoped
    (checkInId : nat) (farmerId : string) (w : Prisma.World)
    (Hstore : storeConsistent w) :
  fst (CheckInService.getCheckInById checkInId farmerId w) = w
  /\ (exists result,
        snd (CheckInService.getCheckInById checkInId farmerId w) = Js.Ok result)
  /\ (forall row,
        snd (CheckInService.getCheckInById checkInId farmerId w) = Js.Ok (Some row)
        <-> Prisma.checkIns w !! checkInId = Some row
            /\ Prisma.farmerId row = farmerId)
  /\ (snd (CheckInService.getCheckInById checkInId farmerId w) = Js.Ok None
      <-> forall row, Prisma.checkIns w !! checkInId = Some row ->
                      Prisma.farmerId row <> farmerId).
Proof.
  destruct Hstore as (Hnum & _).
  rewrite (getCheckInById_lookup checkInId farmerId w Hnum). cbn [fst snd].
  split; [reflexivity|].
  split; [eexists; reflexivity|].
  destruct (Prisma.checkIns w !! checkInId) as [found|].
  - destruct (String.eqb_spec (Prisma.farmerId found) farmerId) as [Heq|Hne].
    + split.
      * intros row. split; [intros [= <-]; auto | intros [[= <-] _]; reflexivity].
      * split; [discriminate | intros H; exfalso; now apply (H found)].
    + split.
      * intros row. split; [discriminate | intros [[= <-] H]; contradiction].
      * split; [intros _ row [= <-]; exact Hne | reflexivity].
  - split.
    + intros row. split; [discriminate | intros [H _]; discriminate H].
    + split; [intros _ row H; discriminate H | reflexivity].
Qed.

Lemma getCheckInById_is_owner_scoped_witness :
  storeConsistent sharedStore
  /\ length (Prisma.checkIns sharedStore) = 2%nat
  /\ (exists row,
        snd (CheckInService.getCheckInById 1 "farmer-2" sharedStore) = Js.Ok (Some row)
        /\ Prisma.id row = 1%nat
        /\ Prisma.farmerId row = "farmer-2"
        /\ Prisma.alertTriggered row = false)
  /\ (exists row,
        snd (CheckInService.getCheckInById 0 "farmer-1" sharedStore) = Js.Ok (Some row)
        /\ Prisma.id row = 0%nat
        /\ Prisma.farmerId row = "farmer-1"
        /\ Prisma.alertTriggered row = true)
  /\ snd (CheckInService.getCheckInById 1 "farmer-1" sharedStore) = Js.Ok None
  /\ snd (CheckInService.getCheckInById 0 "farmer-2" sharedStore) = Js.Ok None
  /\ snd (CheckInService.getCheckInById 2 "farmer-2" sharedStore) = Js.Ok None
  /\ fst (CheckInService.getCheckInById 1 "farmer-2" sharedStore) = sharedStore.
Proof.
  pose proof sharedStore_consistent as Hstore.
  split; [exact Hstore|].
  split; [vm_compute; reflexivity|].
  split.
  { eexists. split.
    - apply (proj1 (proj2 (proj2 (getCheckInById_is_owner_scoped
                                    1 "farmer-2" sharedStore Hstore)))).
      split; vm_compute; reflexivity.
    - vm_compute. repeat split. }
  split.
  { eexists. split.
    - apply (proj1 (proj2 (proj2 (getCheckInById_is_owner_scoped
                                    0 "farmer-1" sharedStore Hstore)))).
      split; vm_compute; reflexivity.
    - vm_compute. repeat split. }
  split.
  { apply (proj2 (proj2 (proj2 (getCheckInById_is_owner_scoped
                                  1 "farmer-1" sharedStore Hstore)))).
    intros row H. vm_compute in H. injection H as <-. discriminate. }
  split.
  { apply (proj2 (proj2 (proj2 (getCheckInById_is_owner_scoped
                                  0 "farmer-2" sharedStore Hstore)))).
    intros row H. vm_compute in H. injection H as <-. discriminate. }
  split.
  { apply (proj2 (proj2 (proj2 (getCheckInById_is_owner_scoped
                                  2 "farmer-2" sharedStore Hstore)))).
    intros row H. vm_compute in H. discriminate H. }
  exact (proj1 (getCheckInById_is_owner_scoped 1 "farmer-2" sharedStore Hstore)).
Defined.

(** X13: after a returning call of [createCheckIn] on a consistent
    store, the farmer reads the new check-in back by its id, with the
    score, level, factors and notes of the row returned; any other farmer
    reads null for that id; and reads of earlier ids answer as before. *)
Theorem stored_checkin_is_read_back_by_its_owner {R : Js.Runtime}
    (farmerId : string) (input : CheckInService.CreateCheckInInput)
    (w w' : Prisma.World) (checkIn : Prisma.CheckIn)
    (response : CheckInService.CheckInResponse)
    (Hstore : storeConsistent w)
    (Hrun : CheckInService.createCheckIn farmerId input w
            = (w', Js.Ok (checkIn, response))) :
  (exists stored,
     snd (CheckInService.getCheckInById (Prisma.id checkIn) farmerId w')
     = Js.Ok (Some stored)
     /\ Prisma.riskScore stored = Prisma.riskScore checkIn
     /\ Prisma.riskLevel stored = Prisma.riskLevel checkIn
     /\ Prisma.criticalFactors stored = Prisma.criticalFactors checkIn
     /\ Prisma.notes stored = RiskAssessment.notes input
     /\ Prisma.hopeLevel stored = RiskAssessment.hopeLevel input)
  /\ (forall other, other <> farmerId ->
        snd (CheckInService.getCheckInById (Prisma.id checkIn) other w') = Js.Ok None)
  /\ (forall earlier asking, (earlier < length (Prisma.checkIns w))%nat ->
        snd (CheckInService.getCheckInById earlier asking w')
        = snd (CheckInService.getCheckInById earlier asking w)).
Proof.
  destruct (createCheckIn_inversion farmerId input w w' checkIn response Hrun)
    as (f & ai & Hf & Hai & Hdone).
  cbv zeta in Hdone.
  destruct Hdone as (Hrow & _ & _ & Hrows & _ & _).
  set (fusion := CheckInService.fuse (RiskAssessment.assessRisk input) ai) in *.
  destruct Hstore as (Hnum & _).
  assert (Hid : Prisma.id checkIn = length (Prisma.checkIns w)) by (now rewrite Hrow).
  set (stored := if RiskAssessment.shouldTriggerAlert
                      (levelName (CheckInService.finalRiskLevel fusion))
                 then CheckInService.alertFlags (Prisma.counselorId f) checkIn
                 else checkIn) in *.
  assert (Hsame : Prisma.id stored = Prisma.id checkIn
                  /\ Prisma.farmerId stored = farmerId
                  /\ Prisma.riskScore stored = Prisma.riskScore checkIn
                  /\ Prisma.riskLevel stored = Prisma.riskLevel checkIn
                  /\ Prisma.criticalFactors stored = Prisma.criticalFactors checkIn
                  /\ Prisma.notes stored = RiskAssessment.notes input
                  /\ Prisma.hopeLevel stored = RiskAssessment.hopeLevel input).
  { subst stored.
    destruct (RiskAssessment.shouldTriggerAlert _); rewrite Hrow; cbn; repeat split. }
  destruct Hsame as (Hsid & Hsf & Hrest).
  assert (Hnum' : forall i row, Prisma.checkIns w' !! i = Some row -> Prisma.id row = i).
  { intros i row Hlook. rewrite Hrows in Hlook.
    apply lookup_snoc_Some in Hlook as [[_ Hlook]|[-> ->]]; [now apply Hnum|].
    now rewrite Hsid. }
  assert (Hlook : Prisma.checkIns w' !! Prisma.id checkIn = Some stored)
    by (rewrite Hrows; now apply list_lookup_middle).
  split; [|split].
  - exists stored. rewrite (getCheckInById_lookup _ _ _ Hnum'). cbn [snd].
    rewrite Hlook, Hsf, String.eqb_refl. split; [reflexivity | exact Hrest].
  - intros other Hne. rewrite (getCheckInById_lookup _ _ _ Hnum'). cbn [snd].
    rewrite Hlook, Hsf.
    destruct (String.eqb_spec farmerId other); [congruence | reflexivity].
  - intros earlier asking Hlt.
    rewrite (getCheckInById_lookup _ _ _ Hnum'), (getCheckInById_lookup _ _ _ Hnum).
    cbn [snd]. now rewrite Hrows, lookup_app_l.
Qed.

Lemma stored_checkin_is_read_back_by_its_owner_witness :
  exists w' checkIn response stored,
    @CheckInService.createCheckIn Js.utf8 "farmer-1"
      (answers Crop.poor Loan.high Sleep.poor Family.weak 3 (Some "I bought poison"))
      (oneFarmer "en")
    = (w', Js.Ok (checkIn, response))
    /\ snd (CheckInService.getCheckInById (Prisma.id checkIn) "farmer-1" w')
       = Js.Ok (Some stored)
    /\ Prisma.riskScore stored = Prisma.riskScore checkIn.
Proof.
  pose proof (oneFarmer_consistent "en") as Hstore.
  eassert (Hrun : @CheckInService.createCheckIn Js.utf8 "farmer-1"
                    (answers Crop.poor Loan.high Sleep.poor Family.weak 3
                       (Some "I bought poison"))
                    (oneFarmer "en") = (_, Js.Ok (_, _)))
    by (vm_compute; reflexivity).
  destruct (stored_checkin_is_read_back_by_its_owner _ _ _ _ _ _ Hstore Hrun)
    as ((stored & Hread & Hscore & _) & _).
  eexists _, _, _, stored. split; [exact Hrun|]. split; [exact Hread | exact Hscore].
Defined.

(* ================================================================= *)
(** ** The response and the farmer's record *)

Section ResponseFacts.
Context {R : Js.Runtime}.
Import RiskAssessment CheckInService.

(** The suggestions depend on the factors through the entries they
    contribute. *)
Lemma generateResponse_derived (l : RiskLevel) (factors1 factors2 : list string) :
  flat_map factorSuggestions factors1 = flat_map factorSuggestions factors2 ->
  suggestions (generateResponse l factors1) = suggestions (generateResponse l factors2).
Proof.
  intros H. unfold generateResponse. cbn [suggestions].
  rewrite !suggestion_loop. cbn [app]. now rewrite H.
Qed.

Lemma generateResponse_cards (l : RiskLevel) (factors : list string) :
  Forall isCard (flat_map factorSuggestions factors) ->
  Forall isCard (suggestions (generateResponse l factors)).
Proof.
  intros H. unfold generateResponse. cbn [suggestions].
  rewrite suggestion_loop. cbn [app].
  unfold slice04. apply Forall_take.
  assert (Hagriculture : Forall isCard [Card (agriculture SUGGESTIONS)])
    by (constructor; [now exists "agriculture", (agriculture SUGGESTIONS) | constructor]).
  assert (Hgovernment : Forall isCard [Card (government SUGGESTIONS)])
    by (constructor; [now exists "government", (government SUGGESTIONS) | constructor]).
  destruct (length (flat_map factorSuggestions factors) <? 2)%nat;
    destruct (negb (bool_decide (l = LOW)) && _);
    repeat (apply Forall_app; split); auto.
Qed.

(** A factor that has a card of its own contributes that card. *)
Lemma own_factor_card (factor : string) (suggestion : Suggestion) :
  suggestionFor factor = Js.Own suggestion ->
  Forall isCard (factorSuggestions factor).
Proof.
  intros Hown. unfold factorSuggestions. rewrite Hown.
  constructor; [now exists factor, suggestion | constructor].
Qed.

(** The tags of the structured assessment all have a card. *)
Lemma structured_factors_have_cards (input : RiskAssessmentInput) :
  Forall isCard (flat_map factorSuggestions (identifyCriticalFactors input)).
Proof.
  rewrite identifyCriticalFactors_flags.
  destruct (3 <=? RISK_WEIGHTS_crop (cropCondition input)),
    (3 <=? RISK_WEIGHTS_loan (loanPressure input)),
    (3 <=? RISK_WEIGHTS_sleep (sleepQuality input)),
    (3 <=? RISK_WEIGHTS_family (familySupport input)),
    (hopeLevel input <=? 4);
    cbn [tagIf app flat_map];
    repeat (apply Forall_app; split; [eapply own_factor_card; reflexivity|]);
    constructor.
Qed.

(** No critical phrase of a dictionary is a key of [SUGGESTIONS] or an
    inherited member. *)
Lemma critical_words_no_suggestion (lang : string) (words : list string) :
  Sentiment.wordsFor Sentiment.CRITICAL_INDICATORS lang = Js.Ok words ->
  forall phrase, In phrase words -> factorSuggestions phrase = [].
Proof.
  rewrite wordsFor_spec.
  destruct (String.eqb "mr" lang); [|destruct (String.eqb "hi" lang);
    [|destruct (String.eqb "en" lang); [|destruct (inheritedKey lang)]]];
    intros [= <-] phrase Hin; cbn in Hin;
    repeat (destruct Hin as [<-|Hin]; [reflexivity|]); destruct Hin.
Qed.

Lemma flat_map_nothing {A B : Type} (g : A -> list B) (l : list A) :
  (forall x, In x l -> g x = []) -> flat_map g l = [].
Proof.
  induction l as [|x rest IH]; intros H; [reflexivity|].
  cbn [flat_map]. rewrite (H x) by now left.
  apply IH. intros y Hy. apply H. now right.
Qed.

(** The indicators of an analysis contribute no suggestion. *)
Lemma indicators_no_suggestion (hopeLevel : Z) (notes : option string)
    (language : string) (aiAnalysis : Sentiment.RiskAnalysis) :
  Sentiment.analyzeRiskFromCheckIn hopeLevel notes language = Js.Ok aiAnalysis ->
  flat_map factorSuggestions (Sentiment.indicators aiAnalysis) = [].
Proof.
  intros Hai.
  assert (Hlow : flat_map factorSuggestions
                   (if hopeLevel <=? 2 then ["very_low_hope"] else []) = [])
    by (destruct (hopeLevel <=? 2); reflexivity).
  destruct (analyzeRisk_cases hopeLevel notes language aiAnalysis Hai)
    as [[-> _]|(text & words & _ & _ & Hwords & _ & ->)]; [exact Hlow|].
  cbn [Sentiment.indicators flat_map].
  change (factorSuggestions "crisis_keywords_detected") with (@nil Entry).
  cbn [app]. rewrite flat_map_app, Hlow, app_nil_r.
  pose proof (critical_words_no_suggestion _ _ Hwords) as Hno.
  apply flat_map_nothing.
  intros phrase Hin. apply filter_In in Hin. apply Hno. tauto.
Qed.

End ResponseFacts.

(** X14: the response of a returning call shows the emergency block
    exactly when the check-in is flagged as having triggered an alert,
    which is exactly when its score is 60 or more; and its message is the
    one of the stored level. *)
Theorem response_matches_the_stored_row {R : Js.Runtime}
    (farmerId : string) (input : CheckInService.CreateCheckInInput)
    (w w' : Prisma.World) (checkIn : Prisma.CheckIn)
    (response : CheckInService.CheckInResponse)
    (Hrun : CheckInService.createCheckIn farmerId input w
            = (w', Js.Ok (checkIn, response))) :
  CheckInService.showEmergency response = Prisma.alertTriggered checkIn
  /\ (Prisma.alertTriggered checkIn = true <-> 60 <= Prisma.riskScore checkIn)
  /\ CheckInService.message response = CheckInService.MESSAGES (Prisma.riskLevel checkIn).
Proof.
  destruct (createCheckIn_inversion farmerId input w w' checkIn response Hrun)
    as (f & ai & _ & _ & Hdone).
  cbv zeta in Hdone. destruct Hdone as (-> & -> & _).
  set (fusion := CheckInService.fuse (RiskAssessment.assessRisk input) ai).
  cbn [Prisma.alertTriggered Prisma.riskScore Prisma.riskLevel
       CheckInService.checkInData].
  unfold CheckInService.generateResponse.
  cbn [CheckInService.showEmergency CheckInService.message].
  destruct (alert_levels (CheckInService.finalRiskLevel fusion)) as [-> _].
  split; [reflexivity|]. split; [|reflexivity].
  pose proof (fuse_level (RiskAssessment.assessRisk input) ai) as Hlevel.
  fold fusion in Hlevel. rewrite Hlevel.
  destruct (recalculate_cases (CheckInService.finalRiskScore fusion))
    as [[? ->]|[[? ->]|[[? ->]|[? ->]]]]; cbn; split; intros H';
    try lia; try discriminate H'; reflexivity.
Qed.

Lemma response_matches_the_stored_row_witness :
  exists w' checkIn response,
    @CheckInService.createCheckIn Js.utf8 "farmer-1"
      (answers Crop.poor Loan.high Sleep.poor Family.weak 3 (Some "I bought poison"))
      (oneFarmer "en")
    = (w', Js.Ok (checkIn, response))
    /\ CheckInService.showEmergency response = Prisma.alertTriggered checkIn.
Proof.
  eassert (Hrun : @CheckInService.createCheckIn Js.utf8 "farmer-1"
                    (answers Crop.poor Loan.high Sleep.poor Family.weak 3
                       (Some "I bought poison"))
                    (oneFarmer "en") = (_, Js.Ok (_, _)))
    by (vm_compute; reflexivity).
  eexists _, _, _. split; [exact Hrun|].
  exact (proj1 (response_matches_the_stored_row _ _ _ _ _ _ Hrun)).
Defined.

(** X15: the indicators of the AI analysis (the crisis tag, the matched
    phrases, very_low_hope) add no suggestion: the suggestions of a
    returning call are those of the structured critical factors alone
    under the stored level, and every entry is a card of SUGGESTIONS. *)
Theorem suggestions_come_from_structured_factors {R : Js.Runtime}
    (farmerId : string) (input : CheckInService.CreateCheckInInput)
    (w w' : Prisma.World) (checkIn : Prisma.CheckIn)
    (response : CheckInService.CheckInResponse)
    (Hrun : CheckInService.createCheckIn farmerId input w
            = (w', Js.Ok (checkIn, response))) :
  CheckInService.suggestions response
  = CheckInService.suggestions
      (CheckInService.generateResponse (Prisma.riskLevel checkIn)
         (RiskAssessment.criticalFactors (RiskAssessment.assessRisk input)))
  /\ Forall isCard (CheckInService.suggestions response).
Proof.
  destruct (createCheckIn_inversion farmerId input w w' checkIn response Hrun)
    as (f & ai & _ & Hai & Hdone).
  cbv zeta in Hdone. destruct Hdone as (-> & -> & _).
  cbn [Prisma.riskLevel CheckInService.checkInData].
  assert (Hderived :
    flat_map factorSuggestions
      (CheckInService.allCriticalFactors
         (CheckInService.fuse (RiskAssessment.assessRisk input) ai))
    = flat_map factorSuggestions
        (RiskAssessment.criticalFactors (RiskAssessment.assessRisk input))).
  { rewrite fuse_factors, flat_map_app.
    rewrite (indicators_no_suggestion _ _ _ _ Hai). apply app_nil_r. }
  split; [now apply generateResponse_derived|].
  apply generateResponse_cards. rewrite Hderived.
  apply structured_factors_have_cards.
Qed.

Lemma suggestions_come_from_structured_factors_witness :
  exists w' checkIn response,
    @CheckInService.createCheckIn Js.utf8 "farmer-1"
      (answers Crop.poor Loan.high Sleep.poor Family.weak 3 (Some "I bought poison"))
      (oneFarmer "en")
    = (w', Js.Ok (checkIn, response))
    /\ Forall isCard (CheckInService.suggestions response).
Proof.
  eassert (Hrun : @CheckInService.createCheckIn Js.utf8 "farmer-1"
                    (answers Crop.poor Loan.high Sleep.poor Family.weak 3
                       (Some "I bought poison"))
                    (oneFarmer "en") = (_, Js.Ok (_, _)))
    by (vm_compute; reflexivity).
  eexists _, _, _. split; [exact Hrun|].
  exact (proj2 (suggestions_come_from_structured_factors _ _ _ _ _ _ Hrun)).
Defined.

(** X16: a returning call changes the farmer's record in two columns
    only: lastActiveAt becomes the current time, and the status becomes
    critical_watch when the stored level is CRITICAL (a score of 80 or
    more) and stays as it was otherwise, so a check-in never takes a
    farmer off the critical watch. *)
Theorem farmer_record_after_checkin {R : Js.Runtime}
    (farmerId : string) (input : CheckInService.CreateCheckInInput)
    (w w' : Prisma.World) (checkIn : Prisma.CheckIn)
    (response : CheckInService.CheckInResponse)
    (Hrun : CheckInService.createCheckIn farmerId input w
            = (w', Js.Ok (checkIn, response))) :
  exists before after,
    Prisma.farmers w !! farmerId = Some before
    /\ Prisma.farmers w' !! farmerId = Some after
    /\ Prisma.preferredLang after = Prisma.preferredLang before
    /\ Prisma.counselorId after = Prisma.counselorId before
    /\ Prisma.lastActiveAt after = Prisma.clock w
    /\ (Prisma.riskLevel checkIn = CRITICAL <-> 80 <= Prisma.riskScore checkIn)
    /\ (Prisma.riskLevel checkIn = CRITICAL -> Prisma.status after = "critical_watch")
    /\ (Prisma.riskLevel checkIn <> CRITICAL ->
        Prisma.status after = Prisma.status before)
    /\ (Prisma.status before = "critical_watch" ->
        Prisma.status after = "critical_watch").
Proof.
  destruct (createCheckIn_inversion farmerId input w w' checkIn response Hrun)
    as (f & ai & Hf & _ & Hdone).
  cbv zeta in Hdone. destruct Hdone as (-> & _ & Hfarmers & _).
  set (fusion := CheckInService.fuse (RiskAssessment.assessRisk input) ai) in *.
  exists f, (CheckInService.farmerActivity (CheckInService.finalRiskLevel fusion)
               (Prisma.clock w) f).
  split; [exact Hf|].
  split; [rewrite Hfarmers; apply lookup_insert_eq|].
  cbn [Prisma.riskLevel Prisma.riskScore CheckInService.checkInData
       CheckInService.farmerActivity Prisma.preferredLang Prisma.counselorId
       Prisma.lastActiveAt Prisma.status].
  repeat (split; [reflexivity|]).
  split.
  { pose proof (fuse_level (RiskAssessment.assessRisk input) ai) as Hlevel.
    fold fusion in Hlevel. rewrite Hlevel.
    destruct (recalculate_cases (CheckInService.finalRiskScore fusion))
      as [[? ->]|[[? ->]|[[? ->]|[? ->]]]]; split; intros;
      first [lia | congruence | exfalso; lia]. }
  destruct (decide (CheckInService.finalRiskLevel fusion = CRITICAL)) as [Hc|Hc].
  - rewrite (bool_decide_eq_true_2 _ Hc). repeat split; intros; congruence.
  - rewrite (bool_decide_eq_false_2 _ Hc). repeat split; intros; congruence.
Qed.

Lemma farmer_record_after_checkin_witness :
  exists w' checkIn response after,
    @CheckInService.createCheckIn Js.utf8 "farmer-1"
      (answers Crop.destroyed Loan.severe Sleep.very_poor Family.none 1
         (Some "I bought poison"))
      (oneFarmer "en")
    = (w', Js.Ok (checkIn, response))
    /\ Prisma.farmers w' !! "farmer-1" = Some after
    /\ Prisma.lastActiveAt after = 1000.
Proof.
  eassert (Hrun : @CheckInService.createCheckIn Js.utf8 "farmer-1"
                    (answers Crop.destroyed Loan.severe Sleep.very_poor Family.none 1
                       (Some "I bought poison"))
                    (oneFarmer "en") = (_, Js.Ok (_, _)))
    by (vm_compute; reflexivity).
  destruct (farmer_record_after_checkin _ _ _ _ _ _ Hrun)
    as (before & after & _ & Hafter & _ & _ & Hclock & _).
  eexists _, _, _, after. split; [exact Hrun|]. split; [exact Hafter | exact Hclock].
Defined.

(* ================================================================= *)
(** ** Language detection and personalized feedback *)

Section DetectionFacts.
Import Sentiment.

Lemma count_loop (text : string) (words : list string) (score : Z) :
  fold_left (fun score word => if Js.includes text word then score + 1 else score)
    words score
  = score + Z.of_nat (length (List.filter (Js.includes text) words)).
Proof.
  revert score.
  induction words as [|word rest IH]; intros score; cbn [fold_left List.filter].
  - cbn. lia.
  - rewrite IH. destruct (Js.includes text word); cbn [length]; lia.
Qed.

Lemma countIncluded_filter (text : string) (words : list string) :
  countIncluded text words = Z.of_nat (length (List.filter (Js.includes text) words)).
Proof. unfold countIncluded. now rewrite count_loop. Qed.

(** Bytes below 128 never form a Devanagari sequence. *)
Lemma ascii_has_no_devanagari (text : list N) :
  Forall (fun b => (b < 128)%N) text -> hasDevanagari text = false.
Proof.
  induction 1 as [|b1 rest Hb Hrest IH]; [reflexivity|].
  cbn [hasDevanagari].
  destruct rest as [|b2 [|b3 rest']]; try reflexivity.
  rewrite IH.
  assert (Hne : (b1 =? 224)%N = false) by (apply N.eqb_neq; lia).
  now rewrite Hne.
Qed.

Lemma langCode_supported (l : Lang.t) :
  supportedLanguage (langCode l) = true /\ inheritedKey (orMr (langCode l)) = false.
Proof. destruct l; split; reflexivity. Qed.

End DetectionFacts.

(** X17: [detectLanguage] answers en exactly for a text without a
    Devanagari character, so for every ASCII text; it answers hi only
    when some Hindi indicator occurs in the text, and mr for a
    Devanagari text in which the Marathi indicators are at least as many
    as the Hindi ones; its answer is always a language of the
    dictionaries, so analysing a text in its detected language never
    throws. *)
Theorem detected_language_is_supported (text : string) :
  (Sentiment.detectLanguage text = Sentiment.Lang.en
   <-> Sentiment.hasDevanagari (Js.bytes text) = false)
  /\ (Forall (fun b => (b < 128)%N) (Js.bytes text) ->
      Sentiment.detectLanguage text = Sentiment.Lang.en)
  /\ (Sentiment.detectLanguage text = Sentiment.Lang.hi ->
      exists word, In word Sentiment.hindiIndicators /\ Js.includes text word = true)
  /\ (Sentiment.hasDevanagari (Js.bytes text) = true ->
      (length (List.filter (Js.includes text) Sentiment.hindiIndicators)
       <= length (List.filter (Js.includes text) Sentiment.marathiIndicators))%nat ->
      Sentiment.detectLanguage text = Sentiment.Lang.mr)
  /\ supportedLanguage (Sentiment.langCode (Sentiment.detectLanguage text)) = true
  /\ (forall (R : Js.Runtime),
        exists r, Sentiment.analyzeSentiment text
                    (Sentiment.langCode (Sentiment.detectLanguage text)) = Js.Ok r).
Proof.
  unfold Sentiment.detectLanguage.
  rewrite !countIncluded_filter.
  set (hindi := length (List.filter (Js.includes text) Sentiment.hindiIndicators)).
  set (marathi := length (List.filter (Js.includes text) Sentiment.marathiIndicators)).
  split; [|split; [|split; [|split; [|split]]]].
  - destruct (Sentiment.hasDevanagari (Js.bytes text)); cbn [negb].
    + destruct (Z.of_nat hindi <=? Z.of_nat marathi); split; discriminate.
    + split; reflexivity.
  - intros Hascii. now rewrite (ascii_has_no_devanagari _ Hascii).
  - destruct (Sentiment.hasDevanagari (Js.bytes text)); cbn [negb]; [|discriminate].
    destruct (Z.leb_spec (Z.of_nat hindi) (Z.of_nat marathi)) as [|Hlt]; [discriminate|].
    intros _. subst hindi. revert Hlt.
    destruct (List.filter (Js.includes text) Sentiment.hindiIndicators)
      as [|word rest] eqn:Hfilter; [cbn; lia|].
    intros _. exists word.
    assert (Hin : In word (List.filter (Js.includes text) Sentiment.hindiIndicators))
      by (rewrite Hfilter; now left).
    apply filter_In in Hin. exact Hin.
  - intros -> Hle. cbn [negb].
    destruct (Z.leb_spec (Z.of_nat hindi) (Z.of_nat marathi)); [reflexivity | lia].
  - apply langCode_supported.
  - intros R. apply analyzeSentiment_own. apply langCode_supported.
Qed.

Section FeedbackFacts.
Import Sentiment.

(** The template a language selects at a level. *)
Lemma templateFor_spec (level : SupportLevel) (lang : string) :
  templateFor level lang
  = if String.eqb "mr" lang then Js.Own (for_mr (FEEDBACK_TEMPLATES level))
    else if String.eqb "hi" lang then Js.Own (for_hi (FEEDBACK_TEMPLATES level))
    else if String.eqb "en" lang then Js.Own (for_en (FEEDBACK_TEMPLATES level))
    else if inheritedKey lang then Js.Proto lang
    else Js.Undefined.
Proof.
  unfold templateFor, Js.get, inheritedKey; cbn [Js.assoc].
  destruct (String.eqb "mr" lang); [reflexivity|].
  destruct (String.eqb "hi" lang); [reflexivity|].
  destruct (String.eqb "en" lang); [reflexivity|].
  destruct (existsb (String.eqb lang) Js.objectPrototypeKeys); reflexivity.
Qed.

(** Every template has three suggestions, and resources exactly at the
    levels that trigger an alert. *)
Lemma template_shape (riskLevel : RiskLevel) (template : Template.t) :
  template = for_mr (FEEDBACK_TEMPLATES (supportLevelOf riskLevel))
  \/ template = for_hi (FEEDBACK_TEMPLATES (supportLevelOf riskLevel))
  \/ template = for_en (FEEDBACK_TEMPLATES (supportLevelOf riskLevel)) ->
  length (Template.suggestions template) = 3%nat
  /\ (Template.resources template <> []
      <-> RiskAssessment.shouldTriggerAlert (levelName riskLevel) = true).
Proof.
  intros [-> | [-> | ->]]; destruct riskLevel; cbn;
    (split; [reflexivity|]); split; congruence.
Qed.

End FeedbackFacts.

(** X18: [generatePersonalizedFeedback] never throws.  Its support
    level is the lower-case level.  For a language that names no member
    of [Object.prototype] it returns a message, exactly three suggestions
    and a list of resources that is non-empty exactly for the levels that
    trigger an alert (HIGH and CRITICAL); a language other than mr, hi
    and en gets the Marathi feedback; for a language that names an
    inherited member the message, suggestions and resources are
    undefined. *)
Theorem feedback_by_level_and_language (riskLevel : RiskLevel) (language : string) :
  let feedback := Sentiment.generatePersonalizedFeedback riskLevel language in
  Sentiment.supportLevel feedback = Sentiment.supportLevelOf riskLevel
  /\ (inheritedKey (Sentiment.orMr language) = false ->
      exists message suggestions resources,
        Sentiment.message feedback = Some message
        /\ Sentiment.suggestions feedback = Some suggestions
        /\ Sentiment.resources feedback = Some resources
        /\ length suggestions = 3%nat
        /\ (resources <> []
            <-> RiskAssessment.shouldTriggerAlert (levelName riskLevel) = true))
  /\ (supportedLanguage language = false -> inheritedKey language = false ->
      feedback = Sentiment.generatePersonalizedFeedback riskLevel "mr")
  /\ (inheritedKey (Sentiment.orMr language) = true ->
      Sentiment.message feedback = None
      /\ Sentiment.suggestions feedback = None
      /\ Sentiment.resources feedback = None).
Proof.
  cbv zeta. unfold Sentiment.generatePersonalizedFeedback.
  rewrite !templateFor_spec.
  split; [|split; [|split]].
  - destruct (String.eqb "mr" (Sentiment.orMr language)),
      (String.eqb "hi" (Sentiment.orMr language)),
      (String.eqb "en" (Sentiment.orMr language)),
      (inheritedKey (Sentiment.orMr language)); reflexivity.
  - intros Hkey. rewrite Hkey.
    destruct (String.eqb "mr" (Sentiment.orMr language));
      [|destruct (String.eqb "hi" (Sentiment.orMr language));
        [|destruct (String.eqb "en" (Sentiment.orMr language))]];
      cbn [Sentiment.message Sentiment.suggestions Sentiment.resources];
      eexists _, _, _; (split; [reflexivity|]); (split; [reflexivity|]);
      (split; [reflexivity|]); apply template_shape; auto.
  - intros Hunsupported Hkey.
    unfold supportedLanguage in Hunsupported.
    apply orb_false_iff in Hunsupported as [Hs Hen].
    apply orb_false_iff in Hs as [Hmr Hhi].
    unfold Sentiment.orMr at 1 2 3 4.
    destruct (String.eqb language EmptyString); [reflexivity|].
    rewrite (String.eqb_sym "mr" language), (String.eqb_sym "hi" language),
      (String.eqb_sym "en" language), Hmr, Hhi, Hen, Hkey.
    reflexivity.
  - intros Hkey.
    destruct (inheritedKey_unsupported _ Hkey) as (-> & -> & ->).
    rewrite Hkey. repeat split.
Qed.

(* ================================================================= *)
(** ** The fused verdict *)

(** X19: of two fusions, the one with the lower final score never has
    the higher final level, whatever the structured levels were; and a
    fusion that carries the crisis tag has a final score of at most 100,
    which is the structured score plus the AI score plus 20 whenever that
    sum does not exceed 100. *)
Theorem final_level_follows_final_score
    (assessment1 assessment2 : RiskAssessment.RiskAssessmentResult)
    (aiAnalysis1 aiAnalysis2 : Sentiment.RiskAnalysis)
    (Hle : CheckInService.finalRiskScore (CheckInService.fuse assessment1 aiAnalysis1)
           <= CheckInService.finalRiskScore (CheckInService.fuse assessment2 aiAnalysis2)) :
  levelRank (CheckInService.finalRiskLevel (CheckInService.fuse assessment1 aiAnalysis1))
  <= levelRank (CheckInService.finalRiskLevel (CheckInService.fuse assessment2 aiAnalysis2))
  /\ (CheckInService.crisisDetected aiAnalysis1 = true ->
      CheckInService.finalRiskScore (CheckInService.fuse assessment1 aiAnalysis1) <= 100
      /\ (RiskAssessment.riskScore assessment1
          + Sentiment.additionalRiskScore aiAnalysis1 + 20 <= 100 ->
          CheckInService.finalRiskScore (CheckInService.fuse assessment1 aiAnalysis1)
          = RiskAssessment.riskScore assessment1
            + Sentiment.additionalRiskScore aiAnalysis1 + 20)).
Proof.
  split.
  - rewrite !fuse_level.
    destruct (recalculate_cases
                (CheckInService.finalRiskScore
                   (CheckInService.fuse assessment1 aiAnalysis1)))
      as [[? ->]|[[? ->]|[[? ->]|[? ->]]]];
      destruct (recalculate_cases
                  (CheckInService.finalRiskScore
                     (CheckInService.fuse assessment2 aiAnalysis2)))
      as [[? ->]|[[? ->]|[[? ->]|[? ->]]]]; cbn; lia.
  - intros Hcrisis. rewrite fuse_score, Hcrisis. lia.
Qed.

Lemma final_level_follows_final_score_witness :
  levelRank
    (CheckInService.finalRiskLevel
       (CheckInService.fuse
          (RiskAssessment.assessRisk
             (answers Crop.good Loan.low Sleep.good Family.strong 8 None))
          {| Sentiment.additionalRiskScore := 0; Sentiment.indicators := [] |}))
  <= levelRank
       (CheckInService.finalRiskLevel
          (CheckInService.fuse
             (RiskAssessment.assessRisk
                (answers Crop.poor Loan.high Sleep.poor Family.weak 3 None))
             {| Sentiment.additionalRiskScore := 40;
                Sentiment.indicators := ["crisis_keywords_detected"; "poison"] |})).
Proof.
  refine (proj1 (final_level_follows_final_score _ _ _ _ _)).
  vm_compute. discriminate.
Defined.
